(** * Connection detection and notification dispatch of agentic_graphrag

    A shallow embedding of
      agentic_graphrag/agents/schemas.py
      agentic_graphrag/agents/connection_detector.py
      agentic_graphrag/agents/notification_manager.py
    followed by the properties proved about it.

    Conventions.
    - Python [float] is IEEE binary64: scores, thresholds and timings are
      primitive floats, so [0.7 + 1 * 0.1] evaluates to the same bits as in
      CPython.
    - A computation that may raise returns a [Result]; the pydantic
      constructors that validate their fields are such computations.
    - [str] is modelled by [string] restricted to ASCII text.
    - A [set] of [str] is a [gset string]; a [dict] is a [gmap] or, where the
      insertion order is observable, an association list.
    - What the interpreter or a third-party library decides (the salted
      [hash], the MD5 digest, [json.dumps], the iteration order of a set,
      the clock, the file system and the HTTP server) enters as a parameter
      or as an oracle argument of the call that consults it.
    - Log records ([logger.info] and friends) are not part of the state. *)

From Stdlib Require Import ZArith String Ascii List Floats.
From Stdlib Require Import Numbers.Cyclic.Int63.Uint63 Lists.Finite.
From stdpp Require Import gmap strings list fin_maps fin_sets pretty.

Local Open Scope string_scope.
Local Open Scope list_scope.

(* Decimal literals such as 0.7 denote the nearest binary64 value, exactly
   as the Python lexer reads them. *)
Set Warnings "-inexact-float".

(* ===================================================================== *)
(** ** Python runtime pieces                                              *)
(* ===================================================================== *)

Module Py.

(** Outcome of a computation that may raise. *)
Inductive PyExc : Type :=
| ValueError (msg : string)
| TypeError (msg : string)
| OSError (msg : string)
| ValidationError (msg : string)   (* pydantic.ValidationError *)
| RequestError (msg : string)      (* httpx.RequestError *)
| OtherException (msg : string).   (* any other subclass of Exception *)

Inductive Result (A : Type) : Type :=
| Ok (a : A)
| Raise (e : PyExc).
Arguments Ok {A} a.
Arguments Raise {A} e.

Definition bind {A B} (m : Result A) (k : A -> Result B) : Result B :=
  match m with
  | Ok a => k a
  | Raise e => Raise e
  end.

Notation "'let!' x ':=' m 'in' k" := (bind m (fun x => k))
  (at level 10, x name, m at level 100, k at level 200).

(** A loop that appends what each round finds to one list; a round that
    raises ends the loop and loses the list. *)
Fixpoint collect {A B} (body : A -> Result (option B)) (xs : list A)
  : Result (list B) :=
  match xs with
  | [] => Ok []
  | x :: later =>
      let! found := body x in
      let! rest := collect body later in
      Ok (match found with Some y => y :: rest | None => rest end)
  end.

(** [float(n)] for a non-negative int (exact below 2^53). *)
Definition float_of_nat (n : nat) : float :=
  PrimFloat.of_uint63 (Uint63.of_Z (Z.of_nat n)).

(** [min(a, b)]: the first argument unless the second is strictly smaller. *)
Definition float_min (a b : float) : float :=
  if PrimFloat.ltb b a then b else a.

(** [a >= b] on floats. *)
Definition float_ge (a b : float) : bool := PrimFloat.leb b a.

(** [str.lower()] on ASCII text. *)
Definition lower_char (c : ascii) : ascii :=
  let n := nat_of_ascii c in
  if (65 <=? n)%nat && (n <=? 90)%nat then ascii_of_nat (n + 32) else c.

Fixpoint lower (s : string) : string :=
  match s with
  | EmptyString => EmptyString
  | String c s' => String (lower_char c) (lower s')
  end.

(** [str.isspace()] on one ASCII character: TAB..CR, FS..US and SPACE. *)
Definition isspace (c : ascii) : bool :=
  let n := nat_of_ascii c in
  ((9 <=? n)%nat && (n <=? 13)%nat) || ((28 <=? n)%nat && (n <=? 32)%nat).

(** [str.split()] with no separator: maximal runs of non-whitespace.
    [cur] is the token being read, in reverse. *)
Fixpoint split_go (cur : list ascii) (s : string) : list string :=
  let flush (rest : list string) :=
    match cur with
    | [] => rest
    | _ :: _ => string_of_list_ascii (rev cur) :: rest
    end in
  match s with
  | EmptyString => flush []
  | String c s' =>
      if isspace c then flush (split_go [] s') else split_go (c :: cur) s'
  end.

Definition split (s : string) : list string := split_go [] s.

(** [sep.join(xs)]. *)
Definition join (sep : string) (xs : list string) : string :=
  String.concat sep xs.

(** [set(xs)] for a list of str. *)
Definition set_of (xs : list string) : gset string := list_to_set xs.

(** [str.upper()] on ASCII text. *)
Definition upper_char (c : ascii) : ascii :=
  let n := nat_of_ascii c in
  if (97 <=? n)%nat && (n <=? 122)%nat then ascii_of_nat (n - 32) else c.

Fixpoint upper (s : string) : string :=
  match s with
  | EmptyString => EmptyString
  | String c s' => String (upper_char c) (upper s')
  end.

(** The line feed. *)
Definition LF : string := String (ascii_of_nat 10) EmptyString.

(** [range(n)]. *)
Definition range (n : Z) : list Z := map Z.of_nat (seq 0 (Z.to_nat n)).

(** [xs[:n]]. *)
Definition slice_to {A} (n : nat) (xs : list A) : list A := firstn n xs.

End Py.

Import Py.

(* ===================================================================== *)
(** ** schemas.py                                                         *)
(* ===================================================================== *)

Module Schemas.

Inductive ProcessingStatus : Type :=
| PENDING | IN_PROGRESS | COMPLETED | FAILED | PARTIAL.

Inductive FactType : Type :=
| PERSON | ORGANIZATION | LOCATION | EVENT | CONCEPT
| RELATIONSHIP | TEMPORAL | NUMERIC | OTHER.

(** [FactType.value]. *)
Definition FactType_value (t : FactType) : string :=
  match t with
  | PERSON => "person" | ORGANIZATION => "organization"
  | LOCATION => "location" | EVENT => "event" | CONCEPT => "concept"
  | RELATIONSHIP => "relationship" | TEMPORAL => "temporal"
  | NUMERIC => "numeric" | OTHER => "other"
  end.

Record ExtractedFact : Type := {
  fact : string;
  confidence : float;
  fact_type : FactType;
  entities : list string;
  source_context : option string
}.

Record ConnectionScore : Type := {
  score : float;
  score_confidence : float;
  reasoning : string;
  connection_type : string
}.

(** [Field(ge=0.0, le=1.0)] *)
Definition in_unit_interval (x : float) : bool :=
  PrimFloat.leb 0 x && PrimFloat.leb x 1.

(** [ConnectionScore(...)]: the constructor validates both bounded fields. *)
Definition new_ConnectionScore (score confidence : float)
    (reasoning connection_type : string) : Result ConnectionScore :=
  if in_unit_interval score && in_unit_interval confidence then
    Ok {| score := score; score_confidence := confidence;
          reasoning := reasoning; connection_type := connection_type |}
  else Raise (ValidationError "ConnectionScore").

(** The [metadata] dict of a connection.  Every connection built by the
    detector carries a ["detection_method"] key; the constructor is that
    key and the argument is the other entry of the dict. *)
Inductive ConnectionMetadata : Type :=
| entity_overlap (common_entities : list string)
| semantic_similarity (shared_concepts : list string)
| temporal_analysis (temporal_entities : list (list string)).

Definition detection_method (m : ConnectionMetadata) : string :=
  match m with
  | entity_overlap _ => "entity_overlap"
  | semantic_similarity _ => "semantic_similarity"
  | temporal_analysis _ => "temporal_analysis"
  end.

Record DetectedConnection : Type := {
  source_fact : string;
  target_fact : string;
  relationship : string;
  conn_score : ConnectionScore;
  evidence : list string;
  metadata : ConnectionMetadata
}.

Record ConnectionDetectionOutput : Type := {
  connections : list DetectedConnection;
  total_connections : nat;
  high_relevance_connections : list DetectedConnection;
  threshold_used : float;
  processing_time : float;
  status : ProcessingStatus
}.

(** [ConnectionDetectionOutput(...)]: the constructor runs
    [validate_total_connections]. *)
Definition new_ConnectionDetectionOutput
    (conns : list DetectedConnection) (total : nat)
    (high : list DetectedConnection) (threshold time : float)
    (st : ProcessingStatus) : Result ConnectionDetectionOutput :=
  if Nat.eqb total (length conns) then
    Ok {| connections := conns; total_connections := total;
          high_relevance_connections := high; threshold_used := threshold;
          processing_time := time; status := st |}
  else
    Raise (ValidationError
             "total_connections must match the length of connections list").

(** The recognised keys of the [options] dict of [detect_connections],
    each absent or of its documented type.  ([Dyn.Options], further down,
    holds any value under ["threshold"].) *)
Record Options : Type := {
  opt_threshold : option float;
  opt_max_connections : option Z;
  opt_connection_types : option (list string)
}.

(** A [datetime], by the two renderings the channels take of it. *)
Record datetime : Type := {
  isoformat : string;
  strftime_ymd_hms : string   (* [strftime("%Y-%m-%d %H:%M:%S")] *)
}.

Record NotificationEvent : Type := {
  event_id : string;
  event_type : string;
  message : string;
  severity : string;
  data : option DetectedConnection;   (* [{}] or the connection reported *)
  timestamp : datetime;
  channels : list string;
  sent : bool
}.

End Schemas.

Import Schemas.

(** What the interpreter and the standard library contribute. *)
Class PyRuntime : Type := {
  (** builtin [hash] on a str (salted per process) *)
  str_hash : string -> Z;
  (** [hashlib.md5(s.encode()).hexdigest()] *)
  md5_hexdigest : string -> string;
  (** [json.dumps(options, sort_keys=True)] *)
  json_dumps_sorted : Options -> string;
  (** [repr(s)] of a str *)
  str_repr : string -> string;
  (** [json.dumps(notification_data)] of the file channel's record *)
  json_dumps_record : NotificationEvent -> Result string;
  (** [json.dumps(event.data, indent=2)] *)
  json_dumps_data : NotificationEvent -> Result string;
  (** the order in which a set of str is iterated *)
  set_iter : gset string -> list string;
  set_iter_perm : forall s, set_iter s ≡ₚ elements s
}.

(* ===================================================================== *)
(** ** connection_detector.py                                             *)
(* ===================================================================== *)

Module Detector.

(** [self.stats] of [ConnectionDetectionSystem]. *)
Record DetectorStats : Type := {
  total_detections : nat;
  connections_found : nat;
  stat_high_relevance_connections : nat;
  cached_results : nat;
  average_processing_time : float;
  last_detection : option string
}.

Record ConnectionDetectionSystem : Type := {
  threshold : float;
  connection_cache : gmap string ConnectionDetectionOutput;
  stats : DetectorStats
}.

(** [ConnectionDetectionSystem.__init__]: [threshold or config...]; a
    missing threshold and a zero one both fall back to the configuration. *)
Definition new_system (threshold : option float) (config_threshold : float)
  : ConnectionDetectionSystem :=
  {| threshold :=
       match threshold with
       | Some t => if PrimFloat.eqb t 0%float then config_threshold else t
       | None => config_threshold
       end;
     connection_cache := ∅;
     stats := {| total_detections := 0; connections_found := 0;
                 stat_high_relevance_connections := 0; cached_results := 0;
                 average_processing_time := 0%float;
                 last_detection := None |} |}.

Definition stop_words : gset string :=
  list_to_set ["the"; "a"; "an"; "and"; "or"; "but"; "in"; "on"; "at"; "to";
               "for"; "of"; "with"; "by"; "is"; "are"; "was"; "were"].

(** The clock readings of one call. *)
Record CallEnv : Type := {
  start_iso : string;   (* [start_time.isoformat()] *)
  elapsed : float       (* [(datetime.now() - start_time).total_seconds()] *)
}.

Section WithRuntime.
Context `{R : PyRuntime}.

(** [repr] of a non-empty set of str. *)
Definition set_repr (s : gset string) : string :=
  ("{" ++ join ", " (map str_repr (set_iter s)) ++ "}")%string.

(** Body of the inner loop over pairs (lines 247-269). *)
Definition entity_overlap_connection (fact1 fact2 : ExtractedFact)
  : Result (option DetectedConnection) :=
  let common_entities := set_of (entities fact1) ∩ set_of (entities fact2) in
  if Nat.eqb (size common_entities) 0 then Ok None
  else
    let score_value :=
      (0.7 + float_of_nat (size common_entities) * 0.1)%float in
    let score_value := float_min score_value 1.0%float in
    let! connection_score :=
      new_ConnectionScore score_value 0.85%float
        ("Facts share entities " ++ set_repr common_entities
         ++ " which indicates a relationship")%string
        "factual" in
    Ok (Some {|
      source_fact := fact fact1;
      target_fact := fact fact2;
      relationship :=
        ("Share common entities: "
         ++ join ", " (set_iter common_entities))%string;
      conn_score := connection_score;
      evidence :=
        [("Both facts mention: "
          ++ join ", " (set_iter common_entities))%string];
      metadata := entity_overlap (set_iter common_entities) |}).

(** [for i, fact1 in enumerate(new_facts):
       for j, fact2 in enumerate(new_facts[i+1:], i+1): ...] *)
Fixpoint entity_overlap_pass (new_facts : list ExtractedFact)
  : Result (list DetectedConnection) :=
  match new_facts with
  | [] => Ok []
  | fact1 :: later =>
      let! here := collect (entity_overlap_connection fact1) later in
      let! rest := entity_overlap_pass later in
      Ok (here ++ rest)
  end.

(** Body of the loop against existing knowledge (lines 273-302). *)
Definition semantic_connection (existing_knowledge : string)
    (f : ExtractedFact) : Result (option DetectedConnection) :=
  let fact_words := set_of (split (lower (fact f))) in
  let knowledge_words := set_of (split (lower existing_knowledge)) in
  let common_words := fact_words ∩ knowledge_words in
  let meaningful_words := common_words ∖ stop_words in
  if (2 <=? size meaningful_words)%nat then
    let score_value :=
      (0.5 + float_of_nat (size meaningful_words) * 0.05)%float in
    let score_value := float_min score_value 0.9%float in
    let! connection_score :=
      new_ConnectionScore score_value 0.70%float
        ("Shares " ++ pretty (size meaningful_words)
         ++ " meaningful concepts with existing knowledge")%string
        "semantic" in
    Ok (Some {|
      source_fact := fact f;
      target_fact := "Existing knowledge in the knowledge base";
      relationship :=
        ("Semantic similarity through shared concepts: "
         ++ join ", " (slice_to 3 (set_iter meaningful_words)))%string;
      conn_score := connection_score;
      evidence :=
        [("Shared concepts: "
          ++ join ", " (slice_to 5 (set_iter meaningful_words)))%string];
      metadata := semantic_similarity (set_iter meaningful_words) |})
  else Ok None.

Definition semantic_pass (new_facts : list ExtractedFact)
    (existing_knowledge : string) : Result (list DetectedConnection) :=
  collect (semantic_connection existing_knowledge) new_facts.

(** Lines 305-323. *)
Definition temporal_pass (new_facts : list ExtractedFact)
  : Result (list DetectedConnection) :=
  let temporal_facts :=
    filter (fun f => FactType_value (fact_type f) = "temporal") new_facts in
  match temporal_facts with
  | t0 :: t1 :: _ =>
      let! connection_score :=
        new_ConnectionScore 0.75%float 0.80%float
          "Both facts contain temporal information suggesting a timeline relationship"
          "temporal" in
      Ok [ {| source_fact := fact t0;
              target_fact := fact t1;
              relationship :=
                "Temporal relationship - events occurring in related time periods";
              conn_score := connection_score;
              evidence := ["Both facts contain time-related information"];
              metadata := temporal_analysis (map entities temporal_facts) |} ]
  | _ => Ok []
  end.

(** The three loops append to one list, in this order. *)
Definition _simulate_connection_detection (new_facts : list ExtractedFact)
    (existing_knowledge : string) (threshold : float)
  : Result (list DetectedConnection) :=
  let! between_facts := entity_overlap_pass new_facts in
  let! with_knowledge := semantic_pass new_facts existing_knowledge in
  let! temporal := temporal_pass new_facts in
  Ok (between_facts ++ with_knowledge ++ temporal).

Definition _generate_cache_key (new_facts : list ExtractedFact)
    (existing_knowledge : string) (options : Options) : string :=
  let content :=
    (pretty (length new_facts) ++ "-"
     ++ pretty (str_hash existing_knowledge) ++ "-"
     ++ json_dumps_sorted options)%string in
  md5_hexdigest content.

(** The call on line 181.  The shipped system calls
    [_simulate_connection_detection]; the production path the comment
    announces is an agent call. *)
Definition Scorer : Type :=
  list ExtractedFact -> string -> float -> Result (list DetectedConnection).

Definition empty_options : Options :=
  {| opt_threshold := None; opt_max_connections := None;
     opt_connection_types := None |}.

Definition with_stats (self : ConnectionDetectionSystem)
    (s : DetectorStats) : ConnectionDetectionSystem :=
  {| threshold := threshold self;
     connection_cache := connection_cache self;
     stats := s |}.

(** Lines 183-218: everything in the [try] block after the scorer
    returned.  State written before a [raise] stays written. *)
Definition finish_detection (self : ConnectionDetectionSystem)
    (cache_key : string) (threshold : float) (env : CallEnv)
    (conns : list DetectedConnection)
  : Result ConnectionDetectionOutput * ConnectionDetectionSystem :=
  let high :=
    List.filter (fun conn => float_ge (score (conn_score conn)) threshold)
                conns in
  let processing_time := elapsed env in
  match new_ConnectionDetectionOutput conns (length conns) high threshold
          processing_time COMPLETED with
  | Raise e => (Raise e, self)
  | Ok detection_output =>
      let st := stats self in
      (* the divisor was incremented on entry, so it is at least 1 *)
      let total_time :=
        (average_processing_time st
           * float_of_nat (total_detections st - 1)
         + processing_time)%float in
      (Ok detection_output,
       {| threshold := Detector.threshold self;
          connection_cache :=
            <[cache_key := detection_output]> (connection_cache self);
          stats := {|
            total_detections := total_detections st;
            connections_found := connections_found st + length conns;
            stat_high_relevance_connections :=
              stat_high_relevance_connections st + length high;
            cached_results := cached_results st;
            average_processing_time :=
              (total_time / float_of_nat (total_detections st))%float;
            last_detection := Some (start_iso env) |} |})
  end.

(** [detect_connections], with the scorer it awaits on line 181, on
    options of their documented types: the threshold, when given, is a
    float, so the result the handler builds is always valid.
    [Dyn.detect_connections], further down, is the call on any dict. *)
Definition detect_connections_with (scorer : Scorer)
    (self : ConnectionDetectionSystem)
    (new_facts : list ExtractedFact) (existing_knowledge : string)
    (options : option Options) (env : CallEnv)
  : Result ConnectionDetectionOutput * ConnectionDetectionSystem :=
  (* line 134, before the [try] *)
  let st := stats self in
  let self := with_stats self {|
    total_detections := total_detections st + 1;
    connections_found := connections_found st;
    stat_high_relevance_connections := stat_high_relevance_connections st;
    cached_results := cached_results st;
    average_processing_time := average_processing_time st;
    last_detection := last_detection st |} in
  let options := default empty_options options in
  let threshold := default (Detector.threshold self) (opt_threshold options) in
  (* read here and used only in the prompt text of lines 158-177 *)
  let max_connections := default 50%Z (opt_max_connections options) in
  let connection_types := default ["all"] (opt_connection_types options) in
  let cache_key := _generate_cache_key new_facts existing_knowledge options in
  match connection_cache self !! cache_key with
  | Some cached_result =>
      let st := stats self in
      (Ok cached_result,
       with_stats self {|
         total_detections := total_detections st;
         connections_found := connections_found st;
         stat_high_relevance_connections :=
           stat_high_relevance_connections st;
         cached_results := cached_results st + 1;
         average_processing_time := average_processing_time st;
         last_detection := last_detection st |})
  | None =>
      let attempt :=
        match scorer new_facts existing_knowledge threshold with
        | Raise e => (Raise e, self)
        | Ok conns => finish_detection self cache_key threshold env conns
        end in
      match attempt with
      | (Ok detection_output, self') => (Ok detection_output, self')
      | (Raise e, self') =>
          (* [except Exception] on lines 220-230 *)
          (new_ConnectionDetectionOutput [] 0 [] threshold (elapsed env)
             FAILED,
           self')
      end
  end.

Definition detect_connections :=
  detect_connections_with _simulate_connection_detection.

Definition clear_cache (self : ConnectionDetectionSystem)
  : ConnectionDetectionSystem :=
  {| threshold := threshold self; connection_cache := ∅;
     stats := stats self |}.

Definition set_threshold (self : ConnectionDetectionSystem) (t : float)
  : Result unit * ConnectionDetectionSystem :=
  if PrimFloat.leb 0%float t && PrimFloat.leb t 1%float then
    (Ok tt, {| threshold := t; connection_cache := connection_cache self;
               stats := stats self |})
  else (Raise (ValueError "Threshold must be between 0.0 and 1.0"), self).

End WithRuntime.

End Detector.

(* ===================================================================== *)
(** ** notification_manager.py: the channels                              *)
(* ===================================================================== *)

Module Channels.

(** *** What the channels act on *)

(** Regular files by path; the content of a file is its bytes. *)
Abbreviation FileSystem := (gmap string string).

(** What the operating system does to the file channel during one send. *)
Record FileFaults : Type := {
  stat_fails : bool;     (* [exists()] / [stat()] raises *)
  rename_fails : bool;   (* [rename] raises *)
  open_fails : bool;     (* [aiofiles.open(..., 'a')] raises *)
  write_fails : bool     (* [f.write] raises *)
}.

Inductive PostOutcome : Type :=
| Response (status_code : Z) (text : string)
| PostRaises (e : PyExc).

Inductive NetEffect : Type :=
| POST (url : string)
| SLEEP (seconds : Z).

(** The HTTP side: [server n] is what the [n]-th POST of the run meets. *)
Record Network : Type := {
  server : nat -> PostOutcome;
  requests : nat;
  trace : list NetEffect      (* oldest first *)
}.

Record World : Type := {
  stdout : list string;       (* lines printed, oldest first *)
  stdout_closed : bool;       (* [print] raises *)
  files : FileSystem;
  faults : FileFaults;
  backup_stamp : string;      (* [datetime.now().strftime('%Y%m%d_%H%M%S')] *)
  network : Network
}.

Definition with_stdout (w : World) (out : list string) : World :=
  {| stdout := out; stdout_closed := stdout_closed w; files := files w;
     faults := faults w; backup_stamp := backup_stamp w;
     network := network w |}.

Definition with_files (w : World) (fs : FileSystem) : World :=
  {| stdout := stdout w; stdout_closed := stdout_closed w; files := fs;
     faults := faults w; backup_stamp := backup_stamp w;
     network := network w |}.

Definition with_network (w : World) (n : Network) : World :=
  {| stdout := stdout w; stdout_closed := stdout_closed w; files := files w;
     faults := faults w; backup_stamp := backup_stamp w; network := n |}.

(** *** ConsoleNotificationChannel *)

Record ConsoleNotificationChannel : Type := { colored : bool }.

Definition ESC : string := String (ascii_of_nat 27) EmptyString.

(** [self.colors.get(severity, "")] *)
Definition colors_get (sev : string) : string :=
  if String.eqb sev "info" then ESC ++ "[94m"
  else if String.eqb sev "warning" then ESC ++ "[93m"
  else if String.eqb sev "error" then ESC ++ "[91m"
  else if String.eqb sev "critical" then ESC ++ "[95m"
  else if String.eqb sev "reset" then ESC ++ "[0m"
  else "".

Section WithRuntime.
Context `{R : PyRuntime}.

Definition print (line : string) (w : World) : Result unit * World :=
  if stdout_closed w then (Raise (OSError "print"), w)
  else (Ok tt, with_stdout w (stdout w ++ [line])).

Definition console_send_notification (self : ConsoleNotificationChannel)
    (event : NotificationEvent) (w : World) : bool * World :=
  let ts := strftime_ymd_hms (timestamp event) in
  let head :=
    ("[" ++ ts ++ "] " ++ upper (severity event) ++ ": "
     ++ message event)%string in
  let line :=
    if colored self
    then (colors_get (severity event) ++ head ++ colors_get "reset")%string
    else head in
  match print line w with
  | (Raise _, w1) => (false, w1)
  | (Ok _, w1) =>
      match data event with
      | None => (true, w1)
      | Some _ =>
          match json_dumps_data event with
          | Raise _ => (false, w1)
          | Ok formatted_data =>
              match print ("  Data: " ++ formatted_data)%string w1 with
              | (Raise _, w2) => (false, w2)
              | (Ok _, w2) => (true, w2)
              end
          end
      end
  end.

(** *** FileNotificationChannel *)

Record FileNotificationChannel : Type := {
  file_path : string;
  (** [file_path.with_suffix(suffix)], as pathlib computes it *)
  with_suffix : string -> string;
  max_size_mb : Z;
  max_size_bytes : Z
}.

Definition new_FileNotificationChannel (file_path : string)
    (with_suffix : string -> string) (max_size_mb : Z)
  : FileNotificationChannel :=
  {| file_path := file_path; with_suffix := with_suffix;
     max_size_mb := max_size_mb;
     max_size_bytes := max_size_mb * 1024 * 1024 |}.

(** [st_size] *)
Definition st_size (content : string) : Z := Z.of_nat (String.length content).

(** [Path.rename]: the target is replaced if it exists. *)
Definition rename (src dst : string) (fs : FileSystem) : FileSystem :=
  match fs !! src with
  | Some content => <[dst := content]> (delete src fs)
  | None => fs
  end.

(** [_rotate_if_needed]: whatever is raised inside is logged and dropped. *)
Definition _rotate_if_needed (self : FileNotificationChannel) (w : World)
  : World :=
  if stat_fails (faults w) then w
  else
    match files w !! file_path self with
    | None => w
    | Some content =>
        if (st_size content >? max_size_bytes self)%Z then
          let backup_path :=
            with_suffix self ("." ++ backup_stamp w ++ ".log")%string in
          if rename_fails (faults w) then w
          else with_files w (rename (file_path self) backup_path (files w))
        else w
    end.

(** [open(path, 'a')] creates the file; the record is rendered after the
    file is open and written last. *)
Definition file_send_notification (self : FileNotificationChannel)
    (event : NotificationEvent) (w : World) : bool * World :=
  let w := _rotate_if_needed self w in
  if open_fails (faults w) then (false, w)
  else
    let old := default "" (files w !! file_path self) in
    let opened := with_files w (<[file_path self := old]> (files w)) in
    match json_dumps_record event with
    | Raise _ => (false, opened)
    | Ok record =>
        if write_fails (faults w) then (false, opened)
        else
          (true,
           with_files w
             (<[file_path self := (old ++ record ++ LF)%string]> (files w)))
    end.

(** *** WebhookNotificationChannel *)

Record WebhookNotificationChannel : Type := {
  webhook_url : string;
  timeout : Z;
  retries : Z
}.

Definition client_post (url : string) (n : Network)
  : PostOutcome * Network :=
  (server n (requests n),
   {| server := server n; requests := S (requests n);
      trace := trace n ++ [POST url] |}).

Definition sleep (seconds : Z) (n : Network) : Network :=
  {| server := server n; requests := requests n;
     trace := trace n ++ [SLEEP seconds] |}.

(** [response.status_code in [200, 201, 202]] *)
Definition status_accepted (status_code : Z) : bool :=
  existsb (Z.eqb status_code) [200; 201; 202]%Z.

(** The [for attempt in range(self.retries)] loop of lines 185-204;
    [attempts] is what is left of the range. *)
Fixpoint post_with_retries (self : WebhookNotificationChannel)
    (attempts : list Z) (n : Network) : Result bool * Network :=
  match attempts with
  | [] => (Ok false, n)
  | attempt :: later =>
      let '(outcome, n) := client_post (webhook_url self) n in
      match outcome with
      | Response status_code _ =>
          if status_accepted status_code then (Ok true, n)
          else post_with_retries self later n
      | PostRaises (RequestError msg) =>
          if (attempt =? retries self - 1)%Z
          then (Raise (RequestError msg), n)
          else post_with_retries self later (sleep (2 ^ attempt) n)
      | PostRaises e => (Raise e, n)
      end
  end.

Definition webhook_send (self : WebhookNotificationChannel) (n : Network)
  : bool * Network :=
  match post_with_retries self (range (retries self)) n with
  | (Ok b, n') => (b, n')
  | (Raise _, n') => (false, n')     (* the outer [except Exception] *)
  end.

Definition webhook_send_notification (self : WebhookNotificationChannel)
    (event : NotificationEvent) (w : World) : bool * World :=
  let '(b, n) := webhook_send self (network w) in
  (b, with_network w n).

End WithRuntime.

End Channels.

(* ===================================================================== *)
(** ** notification_manager.py: the manager                               *)
(* ===================================================================== *)

Module Manager.
Import Channels.

(** The [NotificationChannel] interface, over a world [W] the channels
    act on: [send_notification] may return or raise.  ([test_connection]
    and [channel_name] play no part in dispatch and are left out.) *)
Record NotificationChannel (W : Type) : Type := {
  send_notification : NotificationEvent -> W -> Result bool * W
}.
Arguments send_notification {W} _ _ _.

Record ManagerStats : Type := {
  notifications_sent : nat;
  notifications_failed : nat;
  channels_active : nat;
  last_notification : option string
}.

Record HistoryEntry : Type := {
  h_timestamp : string;
  h_event_type : string;
  h_message : string;
  channels_sent : nat;
  total_channels : nat
}.

Section WithWorld.
Context {W : Type}.

(** [self.channels] is a dict: keys are unique and iteration follows
    insertion order. *)
Record NotificationManager : Type := {
  threshold : float;
  channels : list (string * NotificationChannel W);
  enabled_channels : gset string;
  notification_history : list HistoryEntry;
  stats : ManagerStats
}.

(** The [for channel_name, channel in self.channels.items()] loop of
    lines 365-375, with its counter. *)
Fixpoint dispatch (chs : list (string * NotificationChannel W))
    (event : NotificationEvent) (success_count : nat) (w : W) : nat * W :=
  match chs with
  | [] => (success_count, w)
  | (channel_name, channel) :: later =>
      match send_notification channel event w with
      | (Ok true, w') => dispatch later event (success_count + 1) w'
      | (Ok false, w') => dispatch later event success_count w'
      | (Raise _, w') => dispatch later event success_count w'
      end
  end.

(** [list.pop(0)] on a non-empty list. *)
Definition pop0 {A} (l : list A) : list A := tail l.

(** [NotificationManager.send_notification]; [now_iso] is
    [datetime.now().isoformat()] read on line 380. *)
Definition manager_send_notification (self : NotificationManager)
    (event : NotificationEvent) (now_iso : string) (w : W)
  : bool * NotificationManager * W :=
  match channels self with
  | [] => (false, self, w)
  | _ :: _ =>
      let total_channels := length (channels self) in
      let '(success_count, w') := dispatch (channels self) event 0 w in
      let st := stats self in
      if (0 <? success_count)%nat then
        let history :=
          notification_history self
          ++ [ {| h_timestamp := isoformat (timestamp event);
                  h_event_type := event_type event;
                  h_message := message event;
                  channels_sent := success_count;
                  total_channels := total_channels |} ] in
        let history :=
          if (100 <? length history)%nat then pop0 history else history in
        (true,
         {| threshold := threshold self;
            channels := channels self;
            enabled_channels := enabled_channels self;
            notification_history := history;
            stats := {|
              notifications_sent := notifications_sent st + 1;
              notifications_failed := notifications_failed st;
              channels_active := channels_active st;
              last_notification := Some now_iso |} |},
         w')
      else
        (false,
         {| threshold := threshold self;
            channels := channels self;
            enabled_channels := enabled_channels self;
            notification_history := notification_history self;
            stats := {|
              notifications_sent := notifications_sent st;
              notifications_failed := notifications_failed st + 1;
              channels_active := channels_active st;
              last_notification := last_notification st |} |},
         w')
  end.

(** [self.channels[name] = channel]: an existing key keeps its place. *)
Fixpoint dict_set (name : string) (channel : NotificationChannel W)
    (chs : list (string * NotificationChannel W))
  : list (string * NotificationChannel W) :=
  match chs with
  | [] => [(name, channel)]
  | (k, c) :: later =>
      if String.eqb k name then (k, channel) :: later
      else (k, c) :: dict_set name channel later
  end.

Definition with_channels (self : NotificationManager)
    (chs : list (string * NotificationChannel W)) : NotificationManager :=
  {| threshold := threshold self; channels := chs;
     enabled_channels := enabled_channels self;
     notification_history := notification_history self;
     stats := stats self |}.

Definition add_channel (self : NotificationManager) (name : string)
    (channel : NotificationChannel W) : NotificationManager :=
  with_channels self (dict_set name channel (channels self)).

Definition remove_channel (self : NotificationManager) (name : string)
  : NotificationManager :=
  with_channels self
    (List.filter (fun kc => negb (String.eqb (fst kc) name)) (channels self)).

End WithWorld.

Arguments NotificationManager W : clear implicits.

(** The three shipped channels as [NotificationChannel World]; each one
    catches what it raises, so none of them ever raises. *)
Section Shipped.
Context `{R : PyRuntime}.

Definition never_raises {A} (f : A -> World -> bool * World)
    (a : A) (w : World) : Result bool * World :=
  let '(b, w') := f a w in (Ok b, w').

Definition console_channel (c : ConsoleNotificationChannel)
  : NotificationChannel World :=
  {| send_notification := never_raises (console_send_notification c) |}.

Definition file_channel (c : FileNotificationChannel)
  : NotificationChannel World :=
  {| send_notification := never_raises (file_send_notification c) |}.

Definition webhook_channel (c : WebhookNotificationChannel)
  : NotificationChannel World :=
  {| send_notification := never_raises (webhook_send_notification c) |}.

End Shipped.

End Manager.

(* ===================================================================== *)
(** ** Specification vocabulary and sample inputs                         *)
(* ===================================================================== *)

Import Detector Channels.

(** All index pairs [(i, j)] with [i < j < n], first index first. *)
Definition index_pairs (n : nat) : list (nat * nat) :=
  flat_map (fun i => map (fun j => (i, j)) (seq (S i) (n - S i))) (seq 0 n).

(** The entities two facts share. *)
Definition shared_entities (f1 f2 : ExtractedFact) : gset string :=
  set_of (entities f1) ∩ set_of (entities f2).

(** The lowercase tokens a fact shares with the corpus, stop words apart. *)
Definition shared_tokens (f : ExtractedFact) (corpus : string) : gset string :=
  (set_of (split (lower (fact f))) ∩ set_of (split (lower corpus)))
  ∖ stop_words.

(** The connection a round of a loop adds, if it adds one. *)
Definition found {A} (r : Result (option A)) : option A :=
  match r with
  | Ok o => o
  | Raise _ => None
  end.

Definition is_entity_overlap (c : DetectedConnection) : Prop :=
  detection_method (metadata c) = "entity_overlap".

Definition is_semantic_similarity (c : DetectedConnection) : Prop :=
  detection_method (metadata c) = "semantic_similarity".

#[local] Instance is_entity_overlap_dec c : Decision (is_entity_overlap c).
Proof. unfold is_entity_overlap. apply _. Defined.

#[local] Instance is_semantic_similarity_dec c :
  Decision (is_semantic_similarity c).
Proof. unfold is_semantic_similarity. apply _. Defined.

Definition is_temporal_analysis (c : DetectedConnection) : Prop :=
  detection_method (metadata c) = "temporal_analysis".

#[local] Instance is_temporal_analysis_dec c :
  Decision (is_temporal_analysis c).
Proof. unfold is_temporal_analysis. apply _. Defined.

(** The facts the temporal strategy looks at. *)
Definition temporal_facts_of (facts : list ExtractedFact) : list ExtractedFact :=
  filter (fun f => FactType_value (fact_type f) = "temporal") facts.

(** A result whose derived fields agree with its connections: the count is
    the length and the high-relevance list is the connections that reach
    the threshold the result records. *)
Definition consistent (out : ConnectionDetectionOutput) : Prop :=
  total_connections out = length (connections out)
  /\ high_relevance_connections out
     = List.filter
         (fun c => float_ge (score (conn_score c)) (threshold_used out))
         (connections out).

(** The statistics after line 134 has counted the call. *)
Definition counted (st : DetectorStats) : DetectorStats :=
  {| total_detections := total_detections st + 1;
     connections_found := connections_found st;
     stat_high_relevance_connections := stat_high_relevance_connections st;
     cached_results := cached_results st;
     average_processing_time := average_processing_time st;
     last_detection := last_detection st |}.

(** The threshold a call works with. *)
Definition resolved_threshold (self : ConnectionDetectionSystem)
    (options : option Options) : float :=
  default (Detector.threshold self) (opt_threshold (default empty_options options)).

(** [n] bytes of padding: a log file of a given size. *)
Fixpoint padding (n : nat) : string :=
  match n with
  | 0 => EmptyString
  | S n' => String "x" (padding n')
  end.

(** The size test of [_rotate_if_needed] on the file a send finds. *)
Definition over_ceiling (self : FileNotificationChannel) (w : World) : bool :=
  match files w !! file_path self with
  | Some content => (st_size content >? max_size_bytes self)%Z
  | None => false
  end.

Section DispatchVocabulary.
Import Manager.
Context {W : Type}.

(** The world one channel leaves behind. *)
Definition run_channel (event : NotificationEvent) (w : W)
    (c : string * NotificationChannel W) : W :=
  (send_notification c.2 event w).2.

(** The world after each channel of [chs] ran in turn, whatever each
    returned or raised. *)
Definition world_after (chs : list (string * NotificationChannel W))
    (event : NotificationEvent) (w : W) : W :=
  fold_left (run_channel event) chs w.

(** The channel at position [i] is called in the world its predecessors
    left, and returns [True]. *)
Definition delivered (chs : list (string * NotificationChannel W))
    (event : NotificationEvent) (w : W) (i : nat) : Prop :=
  exists c,
    chs !! i = Some c
    /\ (send_notification c.2 event (world_after (take i chs) event w)).1
       = Ok true.

End DispatchVocabulary.

Section Vocabulary.
Context `{R : PyRuntime}.

(** What the pair of facts at indices [(i, j)] contributes to the
    entity-overlap strategy. *)
Definition pair_connection (facts : list ExtractedFact) (ij : nat * nat)
  : option DetectedConnection :=
  match facts !! ij.1, facts !! ij.2 with
  | Some f1, Some f2 => found (entity_overlap_connection f1 f2)
  | _, _ => None
  end.

(** What a fact contributes to the lexical strategy. *)
Definition corpus_connection (kb : string) (f : ExtractedFact)
  : option DetectedConnection :=
  found (semantic_connection kb f).

End Vocabulary.

Module Samples.

(** A runtime to evaluate examples on: the digest is the identity and the
    serialisers print a short rendering.  The theorems hold for every
    runtime; the examples only need one to compute with. *)
#[local] Instance toy_runtime : PyRuntime := {|
  str_hash := fun s => Z.of_nat (String.length s);
  md5_hexdigest := fun s => s;
  json_dumps_sorted := fun o =>
    match opt_max_connections o with
    | Some n => ("{max_connections: " ++ pretty n ++ "}")%string
    | None => "{}"
    end;
  json_dumps_record := fun e => Ok ("{event_id: " ++ event_id e ++ "}")%string;
  json_dumps_data := fun e => Ok "{}";
  str_repr := fun s => ("'" ++ s ++ "'")%string;
  set_iter := elements;
  set_iter_perm := fun s => Permutation_refl (elements s)
|}.

Definition mk_fact (text : string) (t : FactType) (ents : list string)
  : ExtractedFact :=
  {| fact := text; confidence := 0.9%float; fact_type := t;
     entities := ents; source_context := None |}.

Definition alice_engineer : ExtractedFact :=
  mk_fact "Alice is an engineer" PERSON ["Alice"].
Definition alice_acme : ExtractedFact :=
  mk_fact "Alice works at Acme" PERSON ["Alice"; "Acme"].
Definition acme_hired : ExtractedFact :=
  mk_fact "Acme hired Alice" ORGANIZATION ["Acme"; "Alice"].
Definition bob_paris : ExtractedFact :=
  mk_fact "Bob lives in Paris" PERSON ["Bob"; "Paris"].
Definition carol_rome : ExtractedFact :=
  mk_fact "Carol visited Rome" PERSON ["Carol"; "Rome"].

Definition clock0 : CallEnv :=
  {| start_iso := "2025-01-01T12:00:00"; elapsed := 0.25%float |}.
Definition clock1 : CallEnv :=
  {| start_iso := "2025-01-01T12:00:05"; elapsed := 0.5%float |}.

Definition fresh_system : ConnectionDetectionSystem :=
  new_system None 0.7%float.

(** Two facts with a shared entity, two facts with none. *)
Definition related_facts : list ExtractedFact := [alice_engineer; alice_acme].
Definition unrelated_facts : list ExtractedFact := [bob_paris; carol_rome].

(** Three facts, every pair of which shares an entity. *)
Definition three_facts : list ExtractedFact :=
  [alice_engineer; alice_acme; acme_hired].

Definition at_most_two : Options :=
  {| opt_threshold := None; opt_max_connections := Some 2%Z;
     opt_connection_types := None |}.

(** The file channel as the manager builds it (10 MiB ceiling), with
    pathlib's [with_suffix] on its path. *)
Definition log_channel : FileNotificationChannel :=
  new_FileNotificationChannel "logs/notifications.log"
    (fun suffix => ("logs/notifications" ++ suffix)%string) 10.

(** A file channel whose ceiling is zero bytes. *)
Definition tiny_channel : FileNotificationChannel :=
  new_FileNotificationChannel "n.log" (fun suffix => ("n" ++ suffix)%string) 0.

(** A log file of exactly 10 MiB. *)
Definition full_log : string := padding (Z.to_nat 10485760).

Definition no_faults : FileFaults :=
  {| stat_fails := false; rename_fails := false; open_fails := false;
     write_fails := false |}.

Definition rename_denied : FileFaults :=
  {| stat_fails := false; rename_fails := true; open_fails := false;
     write_fails := false |}.

Definition network_of (server : nat -> PostOutcome) : Network :=
  {| server := server; requests := 0; trace := [] |}.

Definition unreachable : nat -> PostOutcome :=
  fun _ => PostRaises (RequestError "connection refused").

Definition world_of (fs : FileSystem) (f : FileFaults) (n : Network) : World :=
  {| stdout := []; stdout_closed := false; files := fs; faults := f;
     backup_stamp := "20250101_120000"; network := n |}.

Definition event1 : NotificationEvent :=
  {| event_id := "e1"; event_type := "high_relevance_connection";
     message := "High relevance connection detected"; severity := "warning";
     data := None;
     timestamp := {| isoformat := "2025-01-01T12:00:00";
                     strftime_ymd_hms := "2025-01-01 12:00:00" |};
     channels := []; sent := false |}.

Definition hook (retries : Z) : WebhookNotificationChannel :=
  {| webhook_url := "https://example.invalid/hook"; timeout := 30;
     retries := retries |}.

(** Two network errors, then the given status. *)
Definition fails_twice_then (status_code : Z) : nat -> PostOutcome :=
  fun n =>
    match n with
    | 0 | 1 => PostRaises (RequestError "connection reset")
    | _ => Response status_code ""
    end.

(** A manager whose webhook comes first and never gets through, followed
    by the console and a file channel. *)
Definition three_channel_manager : Manager.NotificationManager World :=
  {| Manager.threshold := 0.7%float;
     Manager.channels :=
       [("webhook", Manager.webhook_channel (hook 3));
        ("console",
         Manager.console_channel (R := toy_runtime) {| colored := false |});
        ("file", Manager.file_channel (R := toy_runtime) tiny_channel)];
     Manager.enabled_channels := list_to_set ["webhook"; "console"; "file"];
     Manager.notification_history := [];
     Manager.stats := {| Manager.notifications_sent := 0;
                         Manager.notifications_failed := 0;
                         Manager.channels_active := 0;
                         Manager.last_notification := None |} |}.

(** An agent call that fails. *)
Definition failing_scorer : Scorer :=
  fun _ _ _ => Raise (OtherException "agent unavailable").

End Samples.

(* ===================================================================== *)
(** ** The rest of connection_detector.py and notification_manager.py     *)
(* ===================================================================== *)

Module Analysis.

(** [needle in hay] on str: [needle] occurs in [hay] as a substring. *)
Fixpoint str_in (needle hay : string) : bool :=
  String.prefix needle hay
  || match hay with
     | EmptyString => false
     | String _ rest => str_in needle rest
     end.

(** *** SemanticAnalyzer *)

(** [analyze_semantic_similarity]; [format_3f] is the [:.3f] rendering of
    a float.  The quotient of the two lengths is the float division of
    their conversions (the same value as Python's int division below
    2^53). *)
Definition analyze_semantic_similarity (format_3f : float -> string)
    (text1 text2 : string) : float * string :=
  let words1 := set_of (split (lower text1)) in
  let words2 := set_of (split (lower text2)) in
  let intersection := words1 ∩ words2 in
  let union := words1 ∪ words2 in
  if Nat.eqb (size union) 0 then (0.0%float, "No common vocabulary")
  else
    let jaccard_similarity :=
      (float_of_nat (size intersection) / float_of_nat (size union))%float in
    (jaccard_similarity,
     ("Jaccard similarity: " ++ format_3f jaccard_similarity ++ " ("
      ++ pretty (size intersection) ++ " common words out of "
      ++ pretty (size union) ++ " total)")%string).

(** *** GraphTraverser *)

(** One entry of the list [find_graph_paths] returns. *)
Record GraphPath : Type := {
  path_source : string;
  path_target : string;
  path_length : nat;
  path_relationship : string;
  path_confidence : float
}.

(** [find_graph_paths]: [max_depth] is accepted and not read. *)
Definition find_graph_paths (source_entities target_entities : list string)
    (max_depth : Z) : list GraphPath :=
  flat_map
    (fun source =>
       flat_map
         (fun target =>
            if str_in (lower source) (lower target)
               || str_in (lower target) (lower source)
            then [ {| path_source := source; path_target := target;
                      path_length := 1;
                      path_relationship := "direct_mention";
                      path_confidence := 0.9%float |} ]
            else [])
         target_entities)
    source_entities.

End Analysis.

Module ManagerOps.
Import Channels Manager.

(** [xs[start:]] for any int [start]. *)
Definition slice_from {A} (start : Z) (xs : list A) : list A :=
  let len := Z.of_nat (length xs) in
  let first := if (start <? 0)%Z then Z.max 0 (len + start) else Z.min start len in
  drop (Z.to_nat first) xs.

(** What [process_connections] returns: the dict with ["status"]
    ["no_notifications"] or ["notifications_sent"].  Nothing in its [try]
    block raises, so the ["error"] dict is never built. *)
Inductive ProcessingReport : Type :=
| no_notifications (connections_processed : nat) (threshold : float)
| notifications_sent_report (connections_processed : nat)
    (high_relevance_connections : nat) (notifications_sent : nat)
    (threshold : float).

Definition report_sent (r : ProcessingReport) : nat :=
  match r with
  | no_notifications _ _ => 0
  | notifications_sent_report _ _ n _ => n
  end.

Section WithWorld.
Context {W : Type} `{R : PyRuntime}.
(** the [:.2f] rendering of a float *)
Variable format_2f : float -> string.
(** the clock: for the [i]-th event built, the [datetime.now()] that
    stamps it and the [datetime.now().isoformat()] read when it is sent *)
Variable clock : nat -> datetime * string.

Definition _create_connection_event (connection : DetectedConnection)
    (now : datetime) : NotificationEvent :=
  let s := score (conn_score connection) in
  let severity :=
    if float_ge s 0.9%float then "critical"
    else if float_ge s 0.8%float then "warning"
    else "info" in
  {| event_id :=
       ("conn_" ++ pretty (str_hash (source_fact connection
                                      ++ target_fact connection)))%string;
     event_type := "high_relevance_connection";
     message :=
       ("High relevance connection detected (score: " ++ format_2f s ++ "): "
        ++ relationship connection)%string;
     severity := severity;
     data := Some connection;
     timestamp := now;
     Schemas.channels := [];
     sent := false |}.

(** The [for connection in high_relevance] loop of lines 299-303. *)
Fixpoint notify_each (self : NotificationManager W)
    (high_relevance : list DetectedConnection) (i : nat)
    (notifications_sent : nat) (w : W)
  : nat * NotificationManager W * W :=
  match high_relevance with
  | [] => (notifications_sent, self, w)
  | connection :: later =>
      let event := _create_connection_event connection (clock i).1 in
      let '(success, self, w) :=
        manager_send_notification self event (clock i).2 w in
      notify_each self later (S i)
        (if success then notifications_sent + 1 else notifications_sent) w
  end.

Definition process_connections (self : NotificationManager W)
    (connections : list DetectedConnection) (w : W)
  : ProcessingReport * NotificationManager W * W :=
  let high_relevance :=
    List.filter
      (fun conn => float_ge (score (conn_score conn)) (Manager.threshold self))
      connections in
  match high_relevance with
  | [] =>
      (no_notifications (length connections) (Manager.threshold self), self, w)
  | _ :: _ =>
      let '(notifications_sent, self', w') :=
        notify_each self high_relevance 0 0 w in
      (notifications_sent_report (length connections) (length high_relevance)
         notifications_sent (Manager.threshold self),
       self', w')
  end.

(** [get_notification_history(limit)]: [self.notification_history[-limit:]] *)
Definition get_notification_history (self : NotificationManager W)
    (limit : Z) : list HistoryEntry :=
  slice_from (- limit) (notification_history self).

(** [test_all_channels], over the [test_connection] of each channel in
    registry order; the report is the dict it returns. *)
Fixpoint test_all_channels (probes : list (string * (W -> Result bool * W)))
    (w : W) : list (string * bool) * W :=
  match probes with
  | [] => ([], w)
  | (channel_name, test_connection) :: later =>
      let '(outcome, w) := test_connection w in
      let success := match outcome with Ok b => b | Raise _ => false end in
      let '(results, w) := test_all_channels later w in
      ((channel_name, success) :: results, w)
  end.

End WithWorld.

(** [get_statistics]: the dict it returns. *)
Record ManagerStatistics : Type := {
  statistics : ManagerStats;                  (* [**self.stats] *)
  channels_configured : nat;
  statistics_enabled_channels : list string;
  current_threshold : float;
  recent_notifications : list HistoryEntry
}.

Definition get_statistics {W : Type} `{R : PyRuntime}
    (self : NotificationManager W) : ManagerStatistics :=
  {| statistics := Manager.stats self;
     channels_configured := length (channels self);
     statistics_enabled_channels := set_iter (enabled_channels self);
     current_threshold := Manager.threshold self;
     recent_notifications := slice_from (-10) (notification_history self) |}.

Section Shipped.
Context `{R : PyRuntime}.

(** The three channel classes of the module. *)
Inductive ShippedChannel : Type :=
| Console (c : ConsoleNotificationChannel)
| File (c : FileNotificationChannel)
| Webhook (c : WebhookNotificationChannel).

Definition as_channel (c : ShippedChannel) : NotificationChannel World :=
  match c with
  | Console c => console_channel c
  | File c => file_channel c
  | Webhook c => webhook_channel c
  end.

(** [ConsoleNotificationChannel.test_connection] *)
Definition console_test_connection (w : World) : Result bool * World :=
  match print "Console notification channel test - OK" w with
  | (Ok _, w') => (Ok true, w')
  | (Raise _, w') => (Ok false, w')
  end.

(** [FileNotificationChannel.test_connection]; [now] stamps the test
    event. *)
Definition file_test_connection (self : FileNotificationChannel)
    (now : datetime) (w : World) : Result bool * World :=
  let test_event :=
    {| event_id := "test"; event_type := "test";
       message := "File notification channel test"; severity := "info";
       data := None; timestamp := now; Schemas.channels := [];
       sent := false |} in
  let '(b, w') := file_send_notification self test_event w in
  (Ok b, w').

(** [WebhookNotificationChannel.test_connection]: one POST, no retry. *)
Definition webhook_test_connection (self : WebhookNotificationChannel)
    (w : World) : Result bool * World :=
  let '(outcome, n) := client_post (webhook_url self) (network w) in
  (Ok match outcome with
      | Response status_code _ => status_accepted status_code
      | PostRaises _ => false
      end,
   with_network w n).

Definition test_connection (now : datetime) (c : ShippedChannel)
  : World -> Result bool * World :=
  match c with
  | Console _ => console_test_connection
  | File c => file_test_connection c now
  | Webhook c => webhook_test_connection c
  end.

(** [_initialize_default_channels], from [config.notifications]: the
    enabled channel names and the webhook URL.  [mkdir] is what the
    [parent.mkdir(parents=True, exist_ok=True)] of the file channel's
    constructor does; what it raises leaves [__init__]. *)
Definition _initialize_default_channels (enabled : gset string)
    (webhook_url : option string) (mkdir : Result unit)
  : Result (list (string * ShippedChannel)) :=
  let console :=
    if bool_decide ("console" ∈ enabled)
    then [("console", Console {| colored := true |})] else [] in
  let! file :=
    if bool_decide ("file" ∈ enabled) then
      let! _ := mkdir in
      Ok [("file",
           File (new_FileNotificationChannel "logs/notifications.log"
                   (fun suffix => ("logs/notifications" ++ suffix)%string)
                   10))]
    else Ok [] in
  let webhook :=
    match webhook_url with
    | Some (String c url) =>
        if bool_decide ("webhook" ∈ enabled)
        then [("webhook",
               Webhook {| Channels.webhook_url := String c url;
                          timeout := 30; retries := 3 |})]
        else []
    | _ => []
    end in
  Ok (console ++ file ++ webhook).

(** [NotificationManager.__init__]: [threshold or config threshold],
    the registry of the default channels, empty history and counters. *)
Definition new_manager (threshold : option float) (config_threshold : float)
    (config_channels : list string) (webhook_url : option string)
    (mkdir : Result unit) : Result (NotificationManager World) :=
  let enabled := list_to_set config_channels in
  let! defaults := _initialize_default_channels enabled webhook_url mkdir in
  Ok {| Manager.threshold :=
          match threshold with
          | Some t => if PrimFloat.eqb t 0%float then config_threshold else t
          | None => config_threshold
          end;
        channels := map (fun nc => (nc.1, as_channel nc.2)) defaults;
        enabled_channels := enabled;
        notification_history := [];
        Manager.stats := {| notifications_sent := 0;
                            notifications_failed := 0;
                            channels_active := 0;
                            last_notification := None |} |}.

End Shipped.

End ManagerOps.



(** [self.channels[name]], if the key is there. *)
Fixpoint dict_get {V} (name : string) (d : list (string * V)) : option V :=
  match d with
  | [] => None
  | (k, v) :: later => if String.eqb k name then Some v else dict_get name later
  end.

(** [list(d.keys())] *)
Definition dict_keys {V} (d : list (string * V)) : list string := map fst d.

(** [if name in d: del d[name]] *)
Definition drop_key {V} (name : string) (d : list (string * V))
  : list (string * V) :=
  List.filter (fun kc => negb (String.eqb (fst kc) name)) d.

(** [needle] occurs in [hay]: somewhere in it, as a contiguous run. *)
Definition occurs (needle hay : string) : Prop :=
  exists before after, hay = (before ++ needle ++ after)%string.

(** The path [find_graph_paths] reports between two entities. *)
Definition direct_mention (source target : string) : Analysis.GraphPath :=
  {| Analysis.path_source := source; Analysis.path_target := target;
     Analysis.path_length := 1;
     Analysis.path_relationship := "direct_mention";
     Analysis.path_confidence := 0.9%float |}.

(** The probes of a list of shipped channels, as [test_all_channels]
    runs them. *)
Definition probes `{R : PyRuntime} (now : datetime)
    (chs : list (string * ManagerOps.ShippedChannel))
  : list (string * (World -> Result bool * World)) :=
  map (fun nc => (nc.1, ManagerOps.test_connection now nc.2)) chs.

(** The history entry a send of [event] appends when [sent] of [total]
    channels took it. *)
Definition entry_of (event : NotificationEvent) (sent total : nat)
  : Manager.HistoryEntry :=
  {| Manager.h_timestamp := isoformat (timestamp event);
     Manager.h_event_type := event_type event;
     Manager.h_message := message event;
     Manager.channels_sent := sent;
     Manager.total_channels := total |}.

(* ===================================================================== *)
(** ** detect_connections on the dict a caller passes                      *)
(* ===================================================================== *)

(** [options] is a [Dict[str, Any]]: nothing makes the value under
    ["threshold"] a float.  [Detector.detect_connections_with] above is
    the call on options whose threshold, when present, is one; here the
    value is whatever the caller put there, and the two agree on the
    former (lemma [typed_options_agree]). *)
Module Dyn.

(** The value under ["threshold"], by what the call does with it: it is
    compared with a score on line 186 and handed to the float field
    [threshold_used] of the result on lines 196 and 227.  An int or a bool
    acts as the float it converts to. *)
Inductive ThresholdValue : Type :=
| a_float (t : float)
| a_numeral (text : string) (t : float)
    (* a str the schema reads as the float [t]; no float compares with it *)
| no_number (repr : string).
    (* [None], any other str, a list, ...: no float compares with it and
       the schema rejects it *)

(** [score >= threshold] *)
Definition score_ge (s : float) (threshold : ThresholdValue) : Result bool :=
  match threshold with
  | a_float t => Ok (float_ge s t)
  | a_numeral _ _ =>
      Raise (TypeError "'>=' not supported between 'float' and 'str'")
  | no_number _ =>
      Raise (TypeError "'>=' not supported between these instances")
  end.

(** What the float field [threshold_used] makes of the value. *)
Definition as_threshold_used (threshold : ThresholdValue) : Result float :=
  match threshold with
  | a_float t => Ok t
  | a_numeral _ t => Ok t
  | no_number _ => Raise (ValidationError "threshold_used")
  end.

(** The [options] dict; the other two keys are only rendered (in the
    prompt text and in the cache key). *)
Record Options : Type := {
  get_threshold : option ThresholdValue;
  get_max_connections : option Z;
  get_connection_types : option (list string)
}.

Definition empty : Options :=
  {| get_threshold := None; get_max_connections := None;
     get_connection_types := None |}.

(** The dict of a [Schemas.Options]. *)
Definition of_typed (o : Schemas.Options) : Options :=
  {| get_threshold := option_map a_float (opt_threshold o);
     get_max_connections := opt_max_connections o;
     get_connection_types := opt_connection_types o |}.

(** The call on line 181 is given the value as it is. *)
Definition Scorer : Type :=
  list ExtractedFact -> string -> ThresholdValue
  -> Result (list DetectedConnection).

(** The shipped scorer does not read its threshold. *)
Definition shipped `{R : PyRuntime} : Scorer :=
  fun new_facts existing_knowledge _ =>
    _simulate_connection_detection new_facts existing_knowledge 0%float.

(** [[conn for conn in connections if conn.score.score >= threshold]]:
    the first comparison that raises ends the comprehension. *)
Fixpoint keep_high (threshold : ThresholdValue)
    (connections : list DetectedConnection)
  : Result (list DetectedConnection) :=
  match connections with
  | [] => Ok []
  | conn :: later =>
      let! reaches := score_ge (score (conn_score conn)) threshold in
      let! others := keep_high threshold later in
      Ok (if reaches then conn :: others else others)
  end.

(** [ConnectionDetectionOutput(..., threshold_used=threshold, ...)] *)
Definition new_output (conns : list DetectedConnection) (total : nat)
    (high : list DetectedConnection) (threshold : ThresholdValue)
    (time : float) (st : ProcessingStatus)
  : Result ConnectionDetectionOutput :=
  let! threshold_used := as_threshold_used threshold in
  new_ConnectionDetectionOutput conns total high threshold_used time st.

Section WithRuntime.
Context `{R : PyRuntime}.
(** [json.dumps(options, sort_keys=True)]; it raises on a value that is
    not serialisable *)
Variable json_dumps : Options -> Result string.

Definition _generate_cache_key (new_facts : list ExtractedFact)
    (existing_knowledge : string) (options : Options) : Result string :=
  let! rendered := json_dumps options in
  Ok (md5_hexdigest
        (pretty (length new_facts) ++ "-"
         ++ pretty (str_hash existing_knowledge) ++ "-" ++ rendered)%string).

(** Lines 183-218, after the scorer returned. *)
Definition finish_detection (self : ConnectionDetectionSystem)
    (cache_key : string) (threshold : ThresholdValue) (env : CallEnv)
    (conns : list DetectedConnection)
  : Result ConnectionDetectionOutput * ConnectionDetectionSystem :=
  match keep_high threshold conns with
  | Raise e => (Raise e, self)
  | Ok high =>
      let processing_time := elapsed env in
      match new_output conns (length conns) high threshold processing_time
              COMPLETED with
      | Raise e => (Raise e, self)
      | Ok detection_output =>
          let st := Detector.stats self in
          let total_time :=
            (average_processing_time st
               * float_of_nat (total_detections st - 1)
             + processing_time)%float in
          (Ok detection_output,
           {| Detector.threshold := Detector.threshold self;
              connection_cache :=
                <[cache_key := detection_output]> (connection_cache self);
              Detector.stats := {|
                total_detections := total_detections st;
                connections_found := connections_found st + length conns;
                stat_high_relevance_connections :=
                  stat_high_relevance_connections st + length high;
                cached_results := cached_results st;
                average_processing_time :=
                  (total_time / float_of_nat (total_detections st))%float;
                last_detection := Some (start_iso env) |} |})
      end
  end.

(** [detect_connections], with the scorer it awaits on line 181.  What
    the [except] block of lines 220-230 raises leaves the call. *)
Definition detect_connections (scorer : Scorer)
    (self : ConnectionDetectionSystem)
    (new_facts : list ExtractedFact) (existing_knowledge : string)
    (options : option Options) (env : CallEnv)
  : Result ConnectionDetectionOutput * ConnectionDetectionSystem :=
  (* line 134, before the [try] *)
  let self := with_stats self (counted (Detector.stats self)) in
  let options := default empty options in
  let threshold :=
    default (a_float (Detector.threshold self)) (get_threshold options) in
  let attempt :=
    match _generate_cache_key new_facts existing_knowledge options with
    | Raise e => (Raise e, self)
    | Ok cache_key =>
        match connection_cache self !! cache_key with
        | Some cached_result =>
            let st := Detector.stats self in
            (Ok cached_result,
             with_stats self {|
               total_detections := total_detections st;
               connections_found := connections_found st;
               stat_high_relevance_connections :=
                 stat_high_relevance_connections st;
               cached_results := cached_results st + 1;
               average_processing_time := average_processing_time st;
               last_detection := last_detection st |})
        | None =>
            match scorer new_facts existing_knowledge threshold with
            | Raise e => (Raise e, self)
            | Ok conns =>
                finish_detection self cache_key threshold env conns
            end
        end
    end in
  match attempt with
  | (Ok detection_output, self') => (Ok detection_output, self')
  | (Raise e, self') =>
      (* [except Exception] on lines 220-230 *)
      (new_output [] 0 [] threshold (elapsed env) FAILED, self')
  end.

End WithRuntime.

End Dyn.

(** The threshold a call on a dict works with. *)
Definition threshold_in_effect (self : ConnectionDetectionSystem)
    (options : option Dyn.Options) : Dyn.ThresholdValue :=
  default (Dyn.a_float (Detector.threshold self))
    (Dyn.get_threshold (default Dyn.empty options)).

(** More sample inputs. *)
Module Examples.

Definition strong_connection : DetectedConnection :=
  {| source_fact := "Alice works at Acme"; target_fact := "Acme hired Alice";
     relationship := "Shared entities: Acme, Alice";
     conn_score := {| score := 0.85%float; score_confidence := 0.8%float;
                      reasoning := "Facts share 2 common entities";
                      connection_type := "entity_overlap" |};
     evidence := ["Common entity: Acme"; "Common entity: Alice"];
     metadata := entity_overlap ["Acme"; "Alice"] |}.

(** A rendering to evaluate examples with. *)
Definition fixed_format (x : float) : string := "0.85".

Definition noon (i : nat) : datetime * string :=
  (timestamp Samples.event1, "2025-01-01T12:00:01").

(** A manager whose registry has been emptied. *)
Definition unplugged_manager : Manager.NotificationManager World :=
  Manager.with_channels Samples.three_channel_manager [].

Definition quiet_world : World :=
  Samples.world_of ∅ Samples.no_faults
    (Samples.network_of Samples.unreachable).

(** [{"threshold": None}] *)
Definition threshold_none : Dyn.Options :=
  {| Dyn.get_threshold := Some (Dyn.no_number "None");
     Dyn.get_max_connections := None; Dyn.get_connection_types := None |}.

End Examples.

(* ===================================================================== *)
(** ** Properties                                                         *)
(* ===================================================================== *)

(* --------------------------------------------------------------------- *)
(** *** Scores stay within the bounds of [ConnectionScore]                  *)
(* --------------------------------------------------------------------- *)

(** Not a NaN and not negative. *)
Definition sf_nonneg (x : spec_float) : Prop :=
  match x with
  | S754_zero false | S754_infinity false | S754_finite false _ _ => True
  | _ => False
  end.

(** A positive finite float. *)
Definition pos_finite (x : float) : Prop :=
  exists m e, Prim2SF x = S754_finite false m e.

Section FloatFacts.

Lemma shr_1_nonneg mrs : (0 <= shr_m mrs)%Z -> (0 <= shr_m (shr_1 mrs))%Z.
Proof.
  destruct mrs as [m r s]. simpl. destruct m as [|[p|p|]|[p|p|]]; simpl; lia.
Qed.

Lemma iter_pos_shr_1_nonneg p mrs :
  (0 <= shr_m mrs)%Z -> (0 <= shr_m (SpecFloat.iter_pos shr_1 p mrs))%Z.
Proof.
  revert mrs. induction p as [p IH|p IH|]; intros mrs H; simpl.
  - apply IH, IH, shr_1_nonneg, H.
  - apply IH, IH, H.
  - apply shr_1_nonneg, H.
Qed.

Lemma shr_fexp_nonneg prec emax m e l :
  (0 <= m)%Z -> (0 <= shr_m (fst (shr_fexp prec emax m e l)))%Z.
Proof.
  intros H. unfold shr_fexp, shr.
  assert (H0 : (0 <= shr_m (shr_record_of_loc m l))%Z)
    by (destruct l as [|[| |]]; exact H).
  destruct (_ - e)%Z; simpl; try exact H0.
  now apply iter_pos_shr_1_nonneg.
Qed.

Lemma round_nearest_even_nonneg m l :
  (0 <= m)%Z -> (0 <= round_nearest_even m l)%Z.
Proof.
  intros H. destruct l as [|[| |]]; simpl; try lia.
  destruct (Z.even m); lia.
Qed.

(** Rounding a non-negative mantissa never produces a NaN or a sign. *)
Lemma binary_round_aux_nonneg prec emax m e l :
  (0 <= m)%Z -> sf_nonneg (binary_round_aux prec emax false m e l).
Proof.
  intros H. unfold binary_round_aux.
  pose proof (shr_fexp_nonneg prec emax m e l H) as H1.
  destruct (shr_fexp prec emax m e l) as [mrs' e']. simpl in H1.
  pose proof (shr_fexp_nonneg prec emax _ e' loc_Exact
                (round_nearest_even_nonneg _ (loc_of_shr_record mrs') H1))
    as H2.
  destruct (shr_fexp prec emax _ e' loc_Exact) as [mrs'' e'']. simpl in H2.
  destruct (shr_m mrs'') as [|p|p]; simpl; try lia; try exact I.
  destruct (e'' <=? emax - prec)%Z; exact I.
Qed.

Lemma binary_normalize_nonneg prec emax m e :
  (0 <= m)%Z -> sf_nonneg (binary_normalize prec emax m e false).
Proof.
  intros H. destruct m as [|p|p]; simpl; try lia; try exact I.
  unfold binary_round. destruct (shl_align _ _ _) as [mz ez].
  apply binary_round_aux_nonneg. lia.
Qed.

Lemma SFmul_nonneg prec emax x m e :
  sf_nonneg x -> sf_nonneg (SFmul prec emax x (S754_finite false m e)).
Proof.
  destruct x as [[|]|[|]| |[|] mx ex]; try (simpl; tauto).
  intros _. unfold SFmul. cbn [xorb]. apply binary_round_aux_nonneg. lia.
Qed.

Lemma SFadd_nonneg prec emax m e y :
  sf_nonneg y -> sf_nonneg (SFadd prec emax (S754_finite false m e) y).
Proof.
  destruct y as [[|]|[|]| |[|] my ey]; try (simpl; tauto).
  intros _. unfold SFadd, cond_Zopp. apply binary_normalize_nonneg. lia.
Qed.

Lemma compare_cont_Eq_antisym p q :
  Pos.compare_cont Eq q p = CompOpp (Pos.compare_cont Eq p q).
Proof. now rewrite Pos.compare_cont_antisym. Qed.

Lemma SFcompare_antisym x y c :
  SFcompare x y = Some c -> SFcompare y x = Some (CompOpp c).
Proof.
  destruct x as [sx|sx| |sx mx ex], y as [sy|sy| |sy my ey]; simpl;
    try discriminate; intros [= <-]; f_equal;
    repeat match goal with b : bool |- _ => destruct b end;
    try reflexivity;
    rewrite (Z.compare_antisym ex ey), (compare_cont_Eq_antisym mx my);
    destruct (ex ?= ey)%Z; simpl; try reflexivity.
Qed.

Lemma sf_nonneg_compare x y :
  sf_nonneg x -> y <> S754_nan -> exists c, SFcompare y x = Some c.
Proof.
  destruct x as [[|]|[|]| |[|] mx ex]; simpl; try tauto; intros _ Hy;
    destruct y as [sy|sy| |sy my ey]; simpl; try tauto; eauto.
Qed.

Lemma SFleb_zero_nonneg x : sf_nonneg x -> SFleb (S754_zero false) x = true.
Proof. destruct x as [[|]|[|]| |[|] mx ex]; simpl; tauto. Qed.

Lemma SFleb_trans_nonneg x ma ea mb eb :
  sf_nonneg x ->
  SFleb x (S754_finite false ma ea) = true ->
  SFleb (S754_finite false ma ea) (S754_finite false mb eb) = true ->
  SFleb x (S754_finite false mb eb) = true.
Proof.
  destruct x as [[|]|[|]| |[|] mx ex]; try (simpl; tauto); intros _.
  all: try (cbn; intros H; discriminate H).
  unfold SFleb, SFcompare.
  change (Pos.compare_cont Eq mx ma) with (mx ?= ma)%positive.
  change (Pos.compare_cont Eq ma mb) with (ma ?= mb)%positive.
  change (Pos.compare_cont Eq mx mb) with (mx ?= mb)%positive.
  destruct (Z.compare_spec ex ea), (Z.compare_spec ea eb),
    (Z.compare_spec ex eb); try lia; try discriminate; try reflexivity;
    destruct (Pos.compare_spec mx ma), (Pos.compare_spec ma mb),
      (Pos.compare_spec mx mb); try lia; try discriminate; try reflexivity.
Qed.

Lemma not_ltb_leb x y :
  Prim2SF x <> S754_nan -> sf_nonneg (Prim2SF y) ->
  PrimFloat.ltb x y = false -> PrimFloat.leb y x = true.
Proof.
  intros Hx Hy. rewrite FloatAxioms.ltb_spec, FloatAxioms.leb_spec.
  unfold SFltb, SFleb.
  destruct (sf_nonneg_compare _ _ Hy Hx) as [c Hc].
  rewrite Hc, (SFcompare_antisym _ _ _ Hc). destruct c; simpl; congruence.
Qed.

Lemma float_of_nat_nonneg n : sf_nonneg (Prim2SF (float_of_nat n)).
Proof.
  unfold float_of_nat. rewrite FloatAxioms.of_uint63_spec.
  apply binary_normalize_nonneg. apply Uint63.to_Z_bounded.
Qed.

(** [min(c + n * d, cap)], for positive [c] and [d] and a positive
    [cap <= 1], lies between 0 and 1 whatever [n] is. *)
Lemma capped_score_in_range (c d cap : float) (n : nat) :
  pos_finite c -> pos_finite d -> pos_finite cap ->
  PrimFloat.leb cap 1 = true ->
  in_unit_interval (float_min (c + float_of_nat n * d)%float cap) = true.
Proof.
  intros (mc & ec & Hc) (md & ed & Hd) (mp & ep & Hp) Hcap.
  set (x := (c + float_of_nat n * d)%float).
  assert (Hx : sf_nonneg (Prim2SF x)).
  { unfold x. rewrite FloatAxioms.add_spec, FloatAxioms.mul_spec, Hc, Hd.
    apply SFadd_nonneg, SFmul_nonneg, float_of_nat_nonneg. }
  assert (H0 : forall y, sf_nonneg (Prim2SF y) -> PrimFloat.leb 0 y = true).
  { intros y Hy. rewrite FloatAxioms.leb_spec.
    change (Prim2SF 0) with (S754_zero false).
    now apply SFleb_zero_nonneg. }
  unfold in_unit_interval, float_min.
  destruct (PrimFloat.ltb cap x) eqn:Hlt; apply andb_true_intro; split.
  - apply H0. rewrite Hp. exact I.
  - exact Hcap.
  - apply H0, Hx.
  - assert (Hle : PrimFloat.leb x cap = true).
    { apply not_ltb_leb; [rewrite Hp; discriminate|exact Hx|exact Hlt]. }
    rewrite FloatAxioms.leb_spec in Hle, Hcap |- *. rewrite Hp in Hle, Hcap.
    revert Hcap.
    change (Prim2SF 1) with (S754_finite false 4503599627370496 (-52)).
    intros Hcap. now apply (SFleb_trans_nonneg _ mp ep).
Qed.

Lemma overlap_score_in_range n :
  in_unit_interval
    (float_min (0.7 + float_of_nat n * 0.1)%float 1.0%float) = true.
Proof.
  apply capped_score_in_range; try (eexists _, _; vm_compute; reflexivity).
  reflexivity.
Qed.

Lemma lexical_score_in_range n :
  in_unit_interval
    (float_min (0.5 + float_of_nat n * 0.05)%float 0.9%float) = true.
Proof.
  apply capped_score_in_range; try (eexists _, _; vm_compute; reflexivity).
  reflexivity.
Qed.

End FloatFacts.

(* --------------------------------------------------------------------- *)
(** *** The scoring strategies                                             *)
(* --------------------------------------------------------------------- *)

Section ListFacts.

Lemma omap_map {A B C} (g : A -> B) (f : B -> option C) (l : list A) :
  omap f (map g l) = omap (fun a => f (g a)) l.
Proof.
  induction l as [|a l IH]; simpl; [reflexivity|].
  destruct (f (g a)); [f_equal|]; exact IH.
Qed.

Lemma omap_ext_in {A B} (f g : A -> option B) (l : list A) :
  (forall a, a ∈ l -> f a = g a) -> omap f l = omap g l.
Proof.
  induction l as [|a l IH]; intros H; simpl; [reflexivity|].
  rewrite (H a) by constructor.
  assert (IH' : omap f l = omap g l).
  { apply IH. intros b Hb. apply H. now constructor. }
  destruct (g a); [f_equal|]; exact IH'.
Qed.

(** Reading a list through its indices visits every element once. *)
Lemma omap_lookup_seq {A B} (f : A -> option B) (l : list A) :
  omap (fun j => match l !! j with Some a => f a | None => None end)
       (seq 0 (length l))
  = omap f l.
Proof.
  induction l as [|a l IH]; [reflexivity|].
  cbn [length seq]. rewrite <- seq_shift.
  change (omap ?g (0 :: ?t)) with
    (match g 0 with Some y => y :: omap g t | None => omap g t end).
  cbn [lookup list_lookup].
  rewrite omap_map.
  change (omap f (a :: l)) with
    (match f a with Some y => y :: omap f l | None => omap f l end).
  destruct (f a); [f_equal|]; exact IH.
Qed.

Lemma index_pairs_S n :
  index_pairs (S n)
  = map (fun j => (0, j)) (seq 1 n)
    ++ map (fun ij => (S ij.1, S ij.2)) (index_pairs n).
Proof.
  unfold index_pairs. simpl. rewrite Nat.sub_0_r. f_equal.
  rewrite <- seq_shift, flat_map_concat_map, map_map.
  rewrite flat_map_concat_map, concat_map, map_map.
  f_equal. apply map_ext. intros i.
  rewrite <- seq_shift, !map_map. reflexivity.
Qed.

Lemma filter_all {A} (P : A -> Prop) `{forall a, Decision (P a)} (l : list A) :
  Forall P l -> filter P l = l.
Proof.
  induction 1 as [|a l Ha _ IH]; [reflexivity|].
  rewrite filter_cons_True by assumption. now rewrite IH.
Qed.

Lemma filter_none {A} (P : A -> Prop) `{forall a, Decision (P a)} (l : list A) :
  Forall (fun a => ~ P a) l -> filter P l = [].
Proof.
  induction 1 as [|a l Ha _ IH]; [reflexivity|].
  rewrite filter_cons_False by assumption. exact IH.
Qed.

Lemma length_omap_le {A B} (f : A -> option B) (l : list A) :
  length (omap f l) <= length l.
Proof.
  induction l as [|a l IH]; [reflexivity|].
  change (omap f (a :: l)) with
    (match f a with Some y => y :: omap f l | None => omap f l end).
  destruct (f a); simpl; lia.
Qed.

(** A loop none of whose rounds raises returns what the rounds found. *)
Lemma collect_found {A B} (body : A -> Result (option B)) (xs : list A) :
  (forall a, exists o, body a = Ok o) ->
  collect body xs = Ok (omap (fun a => found (body a)) xs).
Proof.
  intros Hok. induction xs as [|x later IH]; [reflexivity|].
  cbn [collect]. destruct (Hok x) as [o Ho]. rewrite Ho, IH.
  change (omap ?g (x :: later)) with
    (match g x with Some y => y :: omap g later | None => omap g later end).
  cbn beta. rewrite Ho. destruct o; reflexivity.
Qed.

End ListFacts.

Section IndexPairs.

Lemma in_index_pairs n i j :
  In (i, j) (index_pairs n) <-> i < j /\ j < n.
Proof.
  unfold index_pairs. rewrite in_flat_map. split.
  - intros (i' & Hi & Hj). apply in_map_iff in Hj as (j' & [= <- <-] & Hj).
    apply in_seq in Hi, Hj. lia.
  - intros [Hij Hj]. exists i. split; [apply in_seq; lia|].
    apply in_map_iff. exists j. split; [reflexivity|]. apply in_seq. lia.
Qed.

Lemma NoDup_index_pairs n : List.NoDup (index_pairs n).
Proof.
  induction n as [|n IH]; [constructor|].
  rewrite index_pairs_S. apply List.NoDup_app.
  - apply Stdlib.Lists.Finite.Injective_map_NoDup; [|apply seq_NoDup].
    intros a b [= ->]. reflexivity.
  - apply Stdlib.Lists.Finite.Injective_map_NoDup; [|exact IH].
    intros [a b] [c d] [= -> ->]. reflexivity.
  - intros [a b] H1 H2.
    apply in_map_iff in H1 as (j & [= <- <-] & _).
    apply in_map_iff in H2 as ([c d] & [= ] & _).
Qed.

End IndexPairs.

Section Strategies.
Context `{R : PyRuntime}.

Lemma entity_overlap_connection_none f1 f2 :
  size (shared_entities f1 f2) = 0 ->
  entity_overlap_connection f1 f2 = Ok None.
Proof.
  unfold entity_overlap_connection, shared_entities. intros ->. reflexivity.
Qed.

Lemma entity_overlap_connection_some f1 f2 :
  1 <= size (shared_entities f1 f2) ->
  entity_overlap_connection f1 f2
  = Ok (Some {|
      source_fact := fact f1;
      target_fact := fact f2;
      relationship :=
        ("Share common entities: "
         ++ join ", " (set_iter (shared_entities f1 f2)))%string;
      conn_score := {|
        score :=
          float_min
            (0.7 + float_of_nat (size (shared_entities f1 f2)) * 0.1)%float
            1.0%float;
        score_confidence := 0.85%float;
        reasoning :=
          ("Facts share entities " ++ set_repr (shared_entities f1 f2)
           ++ " which indicates a relationship")%string;
        connection_type := "factual" |};
      evidence :=
        [("Both facts mention: "
          ++ join ", " (set_iter (shared_entities f1 f2)))%string];
      metadata := entity_overlap (set_iter (shared_entities f1 f2)) |}).
Proof.
  unfold entity_overlap_connection, shared_entities. intros Hk.
  destruct (size _) as [|k] eqn:E; [lia|]. cbn [Nat.eqb].
  unfold new_ConnectionScore. rewrite overlap_score_in_range. reflexivity.
Qed.

Lemma semantic_connection_none kb f :
  size (shared_tokens f kb) < 2 -> semantic_connection kb f = Ok None.
Proof.
  unfold semantic_connection. fold (shared_tokens f kb). intros Hlt.
  destruct (Nat.leb_spec 2 (size (shared_tokens f kb))); [lia|reflexivity].
Qed.

Lemma semantic_connection_some kb f :
  2 <= size (shared_tokens f kb) ->
  semantic_connection kb f
  = Ok (Some {|
      source_fact := fact f;
      target_fact := "Existing knowledge in the knowledge base";
      relationship :=
        ("Semantic similarity through shared concepts: "
         ++ join ", " (slice_to 3 (set_iter (shared_tokens f kb))))%string;
      conn_score := {|
        score :=
          float_min
            (0.5 + float_of_nat (size (shared_tokens f kb)) * 0.05)%float
            0.9%float;
        score_confidence := 0.70%float;
        reasoning :=
          ("Shares " ++ pretty (size (shared_tokens f kb))
           ++ " meaningful concepts with existing knowledge")%string;
        connection_type := "semantic" |};
      evidence :=
        [("Shared concepts: "
          ++ join ", " (slice_to 5 (set_iter (shared_tokens f kb))))%string];
      metadata := semantic_similarity (set_iter (shared_tokens f kb)) |}).
Proof.
  unfold semantic_connection. fold (shared_tokens f kb). intros Hle.
  destruct (Nat.leb_spec 2 (size (shared_tokens f kb))); [|lia].
  unfold new_ConnectionScore. rewrite lexical_score_in_range. reflexivity.
Qed.

(** Neither loop body raises. *)
Lemma entity_overlap_connection_returns f1 f2 :
  exists o, entity_overlap_connection f1 f2 = Ok o.
Proof.
  destruct (size (shared_entities f1 f2)) as [|k] eqn:E.
  - rewrite entity_overlap_connection_none by exact E. eauto.
  - rewrite entity_overlap_connection_some by lia. eauto.
Qed.

Lemma semantic_connection_returns kb f :
  exists o, semantic_connection kb f = Ok o.
Proof.
  destruct (Nat.leb_spec 2 (size (shared_tokens f kb))).
  - rewrite semantic_connection_some by assumption. eauto.
  - rewrite semantic_connection_none by assumption. eauto.
Qed.

Lemma pair_connection_method facts ij c :
  pair_connection facts ij = Some c -> is_entity_overlap c.
Proof.
  unfold pair_connection.
  destruct (facts !! ij.1) as [f1|]; [|discriminate].
  destruct (facts !! ij.2) as [f2|]; [|discriminate].
  destruct (size (shared_entities f1 f2)) as [|k] eqn:E.
  - rewrite entity_overlap_connection_none by exact E. discriminate.
  - rewrite entity_overlap_connection_some by lia. intros [= <-]. reflexivity.
Qed.

Lemma corpus_connection_method kb f c :
  corpus_connection kb f = Some c -> is_semantic_similarity c.
Proof.
  unfold corpus_connection.
  destruct (Nat.leb_spec 2 (size (shared_tokens f kb))).
  - rewrite semantic_connection_some by assumption. intros [= <-]. reflexivity.
  - rewrite semantic_connection_none by assumption. discriminate.
Qed.

(** The nested loops visit the index pairs [i < j] in order, and return. *)
Lemma entity_overlap_pass_by_index facts :
  entity_overlap_pass facts
  = Ok (omap (pair_connection facts) (index_pairs (length facts))).
Proof.
  induction facts as [|f later IH]; [reflexivity|].
  cbn [entity_overlap_pass length].
  rewrite (collect_found _ _ (entity_overlap_connection_returns f)), IH.
  cbn [bind]. f_equal.
  rewrite index_pairs_S, omap_app, !omap_map.
  apply (f_equal2 app).
  - rewrite <- seq_shift, omap_map.
    rewrite <- (omap_lookup_seq
                  (fun f2 => found (entity_overlap_connection f f2)) later).
    apply omap_ext_in. intros j _. unfold pair_connection. simpl.
    destruct (later !! j); reflexivity.
  - apply omap_ext_in. intros [i j] _. reflexivity.
Qed.

Lemma semantic_pass_by_fact facts kb :
  semantic_pass facts kb = Ok (omap (corpus_connection kb) facts).
Proof.
  unfold semantic_pass.
  apply (collect_found _ _ (semantic_connection_returns kb)).
Qed.

Lemma temporal_pass_returns facts :
  exists conns,
    temporal_pass facts = Ok conns
    /\ length conns <= 1
    /\ Forall (fun c => detection_method (metadata c) = "temporal_analysis")
              conns.
Proof.
  unfold temporal_pass.
  destruct (filter _ facts) as [|t0 [|t1 ts]].
  - exists []. repeat split; [simpl; lia|constructor].
  - exists []. repeat split; [simpl; lia|constructor].
  - eexists. split; [reflexivity|]. split; [simpl; lia|].
    repeat constructor.
Qed.

(** The scorer returns, with the three strategies' finds in order. *)
Lemma simulate_returns facts kb th :
  exists temporal,
    _simulate_connection_detection facts kb th
    = Ok (omap (pair_connection facts) (index_pairs (length facts))
          ++ omap (corpus_connection kb) facts ++ temporal)
    /\ length temporal <= 1
    /\ Forall (fun c => detection_method (metadata c) = "temporal_analysis")
              temporal.
Proof.
  destruct (temporal_pass_returns facts) as (temporal & Ht & Hlen & Hm).
  exists temporal. split; [|split; assumption].
  unfold _simulate_connection_detection.
  rewrite entity_overlap_pass_by_index, semantic_pass_by_fact, Ht.
  reflexivity.
Qed.

Lemma pair_connections_method facts ps :
  Forall is_entity_overlap (omap (pair_connection facts) ps).
Proof.
  apply Forall_forall. intros c Hc.
  apply list_elem_of_omap in Hc as (ij & _ & Hc).
  eauto using pair_connection_method.
Qed.

Lemma corpus_connections_method facts kb :
  Forall is_semantic_similarity (omap (corpus_connection kb) facts).
Proof.
  apply Forall_forall. intros c Hc.
  apply list_elem_of_omap in Hc as (f & _ & Hc).
  eauto using corpus_connection_method.
Qed.

Lemma simulate_length_le facts kb th conns :
  _simulate_connection_detection facts kb th = Ok conns ->
  length conns <= length (index_pairs (length facts)) + length facts + 1.
Proof.
  destruct (simulate_returns facts kb th) as (temporal & -> & Hlen & _).
  intros [= <-]. rewrite !length_app.
  pose proof (length_omap_le (pair_connection facts)
                (index_pairs (length facts))).
  pose proof (length_omap_le (corpus_connection kb) facts).
  lia.
Qed.

End Strategies.

(** C8. Entity-overlap strategy.  The scorer returns, and the connections
    it tags [entity_overlap] are, in order, what the index pairs [i < j] of
    the input contribute; every such pair is listed exactly once; a pair
    whose facts share no entity contributes nothing, and a pair sharing
    [k >= 1] entities contributes exactly one connection, from the first
    fact to the second, of type "factual", scored [min(0.7 + k * 0.1, 1.0)]
    and whose evidence is the single line naming the shared entities. *)
Theorem entity_overlap_strategy `{R : PyRuntime}
    (facts : list ExtractedFact) (kb : string) (th : float) :
  (exists conns,
     _simulate_connection_detection facts kb th = Ok conns
     /\ filter is_entity_overlap conns
        = omap (pair_connection facts) (index_pairs (length facts)))
  /\ List.NoDup (index_pairs (length facts))
  /\ (forall i j, In (i, j) (index_pairs (length facts))
                  <-> i < j /\ j < length facts)
  /\ (forall i j f1 f2,
        facts !! i = Some f1 -> facts !! j = Some f2 ->
        let shared := shared_entities f1 f2 in
        (size shared = 0 ->
         entity_overlap_connection f1 f2 = Ok None
         /\ pair_connection facts (i, j) = None)
        /\ (1 <= size shared ->
            exists c,
              entity_overlap_connection f1 f2 = Ok (Some c)
              /\ pair_connection facts (i, j) = Some c
              /\ source_fact c = fact f1
              /\ target_fact c = fact f2
              /\ score (conn_score c)
                 = float_min
                     (0.7 + float_of_nat (size shared) * 0.1)%float 1.0%float
              /\ connection_type (conn_score c) = "factual"
              /\ evidence c
                 = [("Both facts mention: "
                     ++ join ", " (set_iter shared))%string]
              /\ set_iter shared ≡ₚ elements shared)).
Proof.
  split; [|split; [|split]].
  - destruct (simulate_returns facts kb th) as (temporal & Hs & _ & Ht).
    eexists. split; [exact Hs|].
    rewrite !filter_app.
    rewrite (filter_all is_entity_overlap)
      by apply pair_connections_method.
    rewrite (filter_none is_entity_overlap (omap (corpus_connection kb) _)).
    2:{ eapply Forall_impl; [apply corpus_connections_method|].
        unfold is_semantic_similarity, is_entity_overlap.
        intros c -> ; discriminate. }
    rewrite (filter_none is_entity_overlap temporal).
    2:{ eapply Forall_impl; [exact Ht|].
        unfold is_entity_overlap. intros c -> ; discriminate. }
    now rewrite !app_nil_r.
  - apply NoDup_index_pairs.
  - intros i j. apply in_index_pairs.
  - intros i j f1 f2 H1 H2 shared. unfold pair_connection. simpl.
    rewrite H1, H2. split.
    + intros Hk. rewrite (entity_overlap_connection_none f1 f2 Hk).
      split; reflexivity.
    + intros Hk. rewrite (entity_overlap_connection_some f1 f2 Hk).
      eexists. split; [reflexivity|]. simpl.
      repeat split. apply set_iter_perm.
Qed.

(** The spec's scenario: two facts about Alice give one factual
    connection; [0.7 + 1 * 0.1] is the float just below 0.8. *)
Lemma entity_overlap_scenario :
  let facts := [Samples.alice_engineer; Samples.alice_acme] in
  size (shared_entities Samples.alice_engineer Samples.alice_acme) = 1
  /\ exists c,
       pair_connection (R := Samples.toy_runtime) facts (0, 1) = Some c
       /\ (exists conns,
             _simulate_connection_detection (R := Samples.toy_runtime)
               facts "" 0.7%float = Ok conns
             /\ filter is_entity_overlap conns = [c])
       /\ score (conn_score c) = 0.79999999999999993%float
       /\ connection_type (conn_score c) = "factual"
       /\ evidence c = ["Both facts mention: Alice"].
Proof.
  cbv zeta.
  assert (Hk : size (shared_entities Samples.alice_engineer Samples.alice_acme)
               = 1) by (vm_compute; reflexivity).
  split; [exact Hk|].
  destruct (entity_overlap_strategy (R := Samples.toy_runtime)
              [Samples.alice_engineer; Samples.alice_acme] "" 0.7%float)
    as ((conns & Hs & Hall) & _ & _ & Hpair).
  destruct (Hpair 0 1 _ _ eq_refl eq_refl) as [_ Hsome].
  destruct Hsome as (c & _ & Hc & _ & _ & Hscore & Ht & He & _).
  { rewrite Hk. constructor. }
  exists c. split; [exact Hc|]. split; [|split; [|split]].
  - exists conns. split; [exact Hs|]. rewrite Hall.
    change (index_pairs _) with [(0, 1)].
    change (omap ?g [(0, 1)]) with
      (match g (0, 1) with Some y => [y] | None => [] end).
    rewrite Hc. reflexivity.
  - rewrite Hscore, Hk. vm_compute. reflexivity.
  - exact Ht.
  - rewrite He. vm_compute. reflexivity.
Defined.

(** C9. Lexical-similarity strategy.  The scorer returns, and the
    connections it tags [semantic_similarity] are, in order, what each input
    fact contributes against the corpus, at most one per fact: a fact
    sharing fewer than two non-stop-word lowercase tokens with the corpus
    contributes nothing, and a fact sharing [m >= 2] of them contributes
    exactly one connection, of type "semantic", scored
    [min(0.5 + m * 0.05, 0.9)]. *)
Theorem lexical_similarity_strategy `{R : PyRuntime}
    (facts : list ExtractedFact) (kb : string) (th : float) :
  (exists conns,
     _simulate_connection_detection facts kb th = Ok conns
     /\ filter is_semantic_similarity conns
        = omap (corpus_connection kb) facts)
  /\ (forall f,
        let shared := shared_tokens f kb in
        (size shared < 2 ->
         semantic_connection kb f = Ok None /\ corpus_connection kb f = None)
        /\ (2 <= size shared ->
            exists c,
              semantic_connection kb f = Ok (Some c)
              /\ corpus_connection kb f = Some c
              /\ source_fact c = fact f
              /\ target_fact c = "Existing knowledge in the knowledge base"
              /\ score (conn_score c)
                 = float_min
                     (0.5 + float_of_nat (size shared) * 0.05)%float 0.9%float
              /\ connection_type (conn_score c) = "semantic"
              /\ metadata c = semantic_similarity (set_iter shared)
              /\ set_iter shared ≡ₚ elements shared)).
Proof.
  split.
  - destruct (simulate_returns facts kb th) as (temporal & Hs & _ & Ht).
    eexists. split; [exact Hs|].
    rewrite !filter_app.
    rewrite (filter_all is_semantic_similarity (omap (corpus_connection kb) _))
      by apply corpus_connections_method.
    rewrite (filter_none is_semantic_similarity
               (omap (pair_connection facts) _)).
    2:{ eapply Forall_impl; [apply pair_connections_method|].
        unfold is_semantic_similarity, is_entity_overlap.
        intros c -> ; discriminate. }
    rewrite (filter_none is_semantic_similarity temporal).
    2:{ eapply Forall_impl; [exact Ht|].
        unfold is_semantic_similarity. intros c -> ; discriminate. }
    now rewrite app_nil_r.
  - intros f shared. unfold corpus_connection. split.
    + intros Hlt. rewrite (semantic_connection_none kb f Hlt).
      split; reflexivity.
    + intros Hle. rewrite (semantic_connection_some kb f Hle).
      eexists. split; [reflexivity|]. simpl.
      repeat split. apply set_iter_perm.
Qed.

(** A fact sharing "graph" and "databases" with the corpus scores
    [0.5 + 2 * 0.05]; one sharing only a stop word gives nothing. *)
Lemma lexical_similarity_scenario :
  let f := Samples.mk_fact "Graph databases are fast" CONCEPT [] in
  let g := Samples.mk_fact "The cat is fast" CONCEPT [] in
  let kb := "The team adopted GRAPH databases" in
  size (shared_tokens f kb) = 2
  /\ size (shared_tokens g kb) = 0
  /\ corpus_connection (R := Samples.toy_runtime) kb g = None
  /\ exists c,
       corpus_connection (R := Samples.toy_runtime) kb f = Some c
       /\ (exists conns,
             _simulate_connection_detection (R := Samples.toy_runtime)
               [g; f] kb 0.7%float = Ok conns
             /\ filter is_semantic_similarity conns = [c])
       /\ score (conn_score c) = 0.6%float
       /\ connection_type (conn_score c) = "semantic".
Proof.
  cbv zeta.
  set (f := Samples.mk_fact "Graph databases are fast" CONCEPT []).
  set (g := Samples.mk_fact "The cat is fast" CONCEPT []).
  set (kb := "The team adopted GRAPH databases").
  assert (Hf : size (shared_tokens f kb) = 2) by (vm_compute; reflexivity).
  assert (Hg : size (shared_tokens g kb) = 0) by (vm_compute; reflexivity).
  destruct (lexical_similarity_strategy (R := Samples.toy_runtime)
              [g; f] kb 0.7%float) as ((conns & Hsim & Hall) & Hone).
  destruct (Hone g) as [Hnone _].
  destruct (Hone f) as [_ Hsome].
  destruct Hsome as (c & _ & Hc & _ & _ & Hs & Ht & _);
    [rewrite Hf; constructor|].
  destruct Hnone as [_ Hgn]; [rewrite Hg; lia|].
  split; [exact Hf|]. split; [exact Hg|]. split; [exact Hgn|].
  exists c. split; [exact Hc|]. split; [|split].
  - exists conns. split; [exact Hsim|]. rewrite Hall.
    change (omap ?h [g; f]) with
      (match h g with
       | Some y => y :: match h f with Some z => [z] | None => [] end
       | None => match h f with Some z => [z] | None => [] end
       end).
    rewrite Hgn, Hc. reflexivity.
  - rewrite Hs, Hf. vm_compute. reflexivity.
  - exact Ht.
Defined.

(* --------------------------------------------------------------------- *)
(** *** The detection run                                                  *)
(* --------------------------------------------------------------------- *)

Section DetectionRun.
Context `{R : PyRuntime}.
Variable scorer : Scorer.
Variable self : ConnectionDetectionSystem.
Variable facts : list ExtractedFact.
Variable kb : string.
Variable options : option Options.
Variable env : CallEnv.

Let key := _generate_cache_key facts kb (default empty_options options).
Let th := resolved_threshold self options.

Lemma new_output_valid conns high t time st :
  new_ConnectionDetectionOutput conns (length conns) high t time st
  = Ok {| connections := conns; total_connections := length conns;
          high_relevance_connections := high; threshold_used := t;
          processing_time := time; status := st |}.
Proof. unfold new_ConnectionDetectionOutput. now rewrite Nat.eqb_refl. Qed.

Lemma detect_on_hit cached :
  connection_cache self !! key = Some cached ->
  detect_connections_with scorer self facts kb options env
  = (Ok cached,
     {| Detector.threshold := Detector.threshold self;
        connection_cache := connection_cache self;
        Detector.stats := {|
          total_detections := total_detections (Detector.stats self) + 1;
          connections_found := connections_found (Detector.stats self);
          stat_high_relevance_connections :=
            stat_high_relevance_connections (Detector.stats self);
          cached_results := cached_results (Detector.stats self) + 1;
          average_processing_time :=
            average_processing_time (Detector.stats self);
          last_detection := last_detection (Detector.stats self) |} |}).
Proof.
  intros Hhit. unfold detect_connections_with. cbn.
  fold key. rewrite Hhit. reflexivity.
Qed.

Lemma detect_on_raise e :
  connection_cache self !! key = None ->
  scorer facts kb th = Raise e ->
  detect_connections_with scorer self facts kb options env
  = (Ok {| connections := []; total_connections := 0;
           high_relevance_connections := []; threshold_used := th;
           processing_time := elapsed env; status := FAILED |},
     with_stats self (counted (Detector.stats self))).
Proof.
  intros Hmiss Hraise. unfold detect_connections_with. cbn.
  fold key. rewrite Hmiss.
  fold (resolved_threshold self options). fold th. rewrite Hraise.
  reflexivity.
Qed.

Lemma detect_on_miss conns :
  connection_cache self !! key = None ->
  scorer facts kb th = Ok conns ->
  let high :=
    List.filter (fun c => float_ge (score (conn_score c)) th) conns in
  let out :=
    {| connections := conns; total_connections := length conns;
       high_relevance_connections := high; threshold_used := th;
       processing_time := elapsed env; status := COMPLETED |} in
  detect_connections_with scorer self facts kb options env
  = (Ok out,
     {| Detector.threshold := Detector.threshold self;
        connection_cache := <[key := out]> (connection_cache self);
        Detector.stats := {|
          total_detections := total_detections (Detector.stats self) + 1;
          connections_found :=
            connections_found (Detector.stats self) + length conns;
          stat_high_relevance_connections :=
            stat_high_relevance_connections (Detector.stats self)
            + length high;
          cached_results := cached_results (Detector.stats self);
          average_processing_time :=
            ((average_processing_time (Detector.stats self)
              * float_of_nat (total_detections (Detector.stats self) + 1 - 1)
              + elapsed env)
             / float_of_nat (total_detections (Detector.stats self) + 1))%float;
          last_detection := Some (start_iso env) |} |}).
Proof.
  intros Hmiss Hok high out. unfold detect_connections_with. cbn.
  fold key. rewrite Hmiss.
  fold (resolved_threshold self options). fold th. rewrite Hok.
  unfold finish_detection. rewrite new_output_valid. reflexivity.
Qed.

End DetectionRun.

(** The cache key reads the fact list through its length only. *)
Lemma cache_key_reads_length_only `{R : PyRuntime}
    (facts1 facts2 : list ExtractedFact) (kb : string) (options : Options) :
  length facts1 = length facts2 ->
  _generate_cache_key facts1 kb options = _generate_cache_key facts2 kb options.
Proof. unfold _generate_cache_key. intros ->. reflexivity. Qed.

Section DetectionExamples.
Context `{R : PyRuntime}.

Lemma fresh_cache_misses key :
  connection_cache Samples.fresh_system !! key = None.
Proof. apply lookup_empty. Qed.

Lemma related_facts_connections th :
  exists conns,
    _simulate_connection_detection Samples.related_facts "" th = Ok conns
    /\ length conns = 1.
Proof. eexists. split; [vm_compute; reflexivity|reflexivity]. Qed.

Lemma unrelated_facts_connections th :
  _simulate_connection_detection Samples.unrelated_facts "" th = Ok [].
Proof. vm_compute. reflexivity. Qed.

Lemma three_facts_connections th :
  exists conns,
    _simulate_connection_detection Samples.three_facts "" th = Ok conns
    /\ length conns = 3.
Proof. eexists. split; [vm_compute; reflexivity|reflexivity]. Qed.

(** The first call on a fresh system, and an identical or same-length
    second call. *)
Lemma miss_then_hit facts1 facts2 conns env1 env2 :
  length facts1 = length facts2 ->
  _simulate_connection_detection facts1 ""
    (resolved_threshold Samples.fresh_system None) = Ok conns ->
  let first := detect_connections Samples.fresh_system facts1 "" None env1 in
  let second := detect_connections first.2 facts2 "" None env2 in
  second.1 = first.1
  /\ (exists out, second.1 = Ok out /\ connections out = conns)
  /\ cached_results (Detector.stats first.2) = 0
  /\ cached_results (Detector.stats second.2) = 1
  /\ total_detections (Detector.stats first.2) = 1
  /\ total_detections (Detector.stats second.2) = 2.
Proof.
  intros Hlen Hconns first second.
  pose proof (detect_on_miss _simulate_connection_detection
                Samples.fresh_system facts1 "" None env1 conns
                (fresh_cache_misses _) Hconns) as H1.
  cbv zeta in H1.
  fold (detect_connections Samples.fresh_system facts1 "" None env1) in H1.
  fold first in H1.
  match type of H1 with _ = (Ok ?o, _) => set (out1 := o) in H1 end.
  assert (Hhit : connection_cache first.2
                 !! _generate_cache_key facts2 ""
                      (default empty_options None)
                 = Some out1).
  { rewrite H1. cbn [fst snd connection_cache default].
    rewrite <- (cache_key_reads_length_only facts1 facts2 "" _ Hlen).
    apply lookup_insert_eq. }
  pose proof (detect_on_hit _simulate_connection_detection first.2 facts2
                "" None env2 _ Hhit) as H2.
  fold (detect_connections first.2 facts2 "" None env2) in H2.
  fold second in H2.
  rewrite H2. cbn [fst snd Detector.stats cached_results total_detections].
  rewrite H1. cbn [fst snd Detector.stats cached_results total_detections].
  repeat split. exists out1. split; reflexivity.
Qed.

End DetectionExamples.

(** C1. Two requests whose fact lists have the same length but different
    content, with the same corpus and options, get the same cache key: the
    call on two unrelated facts, made after a call on two facts about
    Alice, is answered from the cache with the connection found between the
    facts about Alice, although the scorer finds no connection between the
    facts it was given. *)
Theorem same_length_facts_share_cache_entry :
  length Samples.related_facts = length Samples.unrelated_facts
  /\ Samples.related_facts <> Samples.unrelated_facts
  /\ forall (R : PyRuntime) (env1 env2 : CallEnv),
       let first :=
         detect_connections Samples.fresh_system Samples.related_facts ""
           None env1 in
       let second :=
         detect_connections first.2 Samples.unrelated_facts "" None env2 in
       _generate_cache_key Samples.related_facts "" empty_options
       = _generate_cache_key Samples.unrelated_facts "" empty_options
       /\ second.1 = first.1
       /\ (exists out, second.1 = Ok out /\ length (connections out) = 1)
       /\ _simulate_connection_detection Samples.unrelated_facts ""
            (resolved_threshold first.2 None) = Ok [].
Proof.
  split; [reflexivity|]. split; [discriminate|].
  intros R env1 env2 first second.
  destruct (related_facts_connections
              (resolved_threshold Samples.fresh_system None))
    as (conns & Hconns & Hlen).
  destruct (miss_then_hit Samples.related_facts Samples.unrelated_facts conns
              env1 env2 eq_refl Hconns) as (Hsame & (out & Hout & Hc) & _).
  fold first in Hsame, Hout. fold second in Hsame, Hout.
  split; [apply cache_key_reads_length_only; reflexivity|].
  split; [exact Hsame|]. split.
  - exists out. split; [exact Hout|]. now rewrite Hc.
  - apply unrelated_facts_connections.
Qed.

(** C2, as stated, fails: with [max_connections = 2] a first call on three
    facts that pairwise share an entity returns three connections. *)
Lemma max_connections_exceeded :
  opt_max_connections Samples.at_most_two = Some 2%Z
  /\ forall (R : PyRuntime) (env : CallEnv),
       exists out,
         (detect_connections Samples.fresh_system Samples.three_facts ""
            (Some Samples.at_most_two) env).1 = Ok out
         /\ status out = COMPLETED
         /\ length (connections out) = 3.
Proof.
  split; [reflexivity|]. intros R env.
  destruct (three_facts_connections
              (resolved_threshold Samples.fresh_system
                 (Some Samples.at_most_two))) as (conns & Hconns & Hlen).
  pose proof (detect_on_miss _simulate_connection_detection
                Samples.fresh_system Samples.three_facts ""
                (Some Samples.at_most_two) env conns
                (fresh_cache_misses _) Hconns) as H.
  cbv zeta in H. unfold detect_connections. rewrite H.
  eexists. split; [reflexivity|]. split; [reflexivity|exact Hlen].
Qed.

(** C2, amended.  On a cache miss the result is completed and its
    connections are the whole list the scorer built, in the order it built
    them: [max_connections] takes no part, and the length is bounded only by
    the number of candidates (one per pair of facts, one per fact, one
    temporal). *)
Theorem connections_are_not_truncated `{R : PyRuntime}
    (self : ConnectionDetectionSystem) (facts : list ExtractedFact)
    (kb : string) (options : option Options) (env : CallEnv) :
  connection_cache self
    !! _generate_cache_key facts kb (default empty_options options) = None ->
  exists out,
    (detect_connections self facts kb options env).1 = Ok out
    /\ status out = COMPLETED
    /\ _simulate_connection_detection facts kb
         (resolved_threshold self options) = Ok (connections out)
    /\ total_connections out = length (connections out)
    /\ length (connections out)
       <= length (index_pairs (length facts)) + length facts + 1.
Proof.
  intros Hmiss.
  destruct (simulate_returns facts kb (resolved_threshold self options))
    as (temporal & Hs & _).
  pose proof (detect_on_miss _simulate_connection_detection self facts kb
                options env _ Hmiss Hs) as H.
  cbv zeta in H. unfold detect_connections. rewrite H.
  eexists. split; [reflexivity|]. cbn [status connections total_connections].
  split; [reflexivity|]. split; [exact Hs|]. split; [reflexivity|].
  exact (simulate_length_le _ _ _ _ Hs).
Qed.

Lemma connections_are_not_truncated_witness :
  exists out,
    (detect_connections (R := Samples.toy_runtime) Samples.fresh_system
       Samples.three_facts "" (Some Samples.at_most_two) Samples.clock0).1
    = Ok out
    /\ status out = COMPLETED
    /\ _simulate_connection_detection (R := Samples.toy_runtime)
         Samples.three_facts ""
         (resolved_threshold Samples.fresh_system (Some Samples.at_most_two))
       = Ok (connections out)
    /\ total_connections out = length (connections out)
    /\ length (connections out)
       <= length (index_pairs (length Samples.three_facts))
          + length Samples.three_facts + 1.
Proof.
  apply (connections_are_not_truncated (R := Samples.toy_runtime)).
  reflexivity.
Defined.

(** C3, as stated, fails: a call answered from the cache also adds one to
    [total_detections]. *)
Lemma cache_hit_counts_a_detection :
  total_detections (Detector.stats Samples.fresh_system) = 0
  /\ forall (R : PyRuntime) (env1 env2 : CallEnv),
       let first :=
         detect_connections Samples.fresh_system Samples.related_facts ""
           None env1 in
       let second :=
         detect_connections first.2 Samples.related_facts "" None env2 in
       second.1 = first.1
       /\ cached_results (Detector.stats first.2) = 0
       /\ cached_results (Detector.stats second.2) = 1
       /\ total_detections (Detector.stats first.2) = 1
       /\ total_detections (Detector.stats second.2) = 2.
Proof.
  split; [reflexivity|]. intros R env1 env2 first second.
  destruct (related_facts_connections
              (resolved_threshold Samples.fresh_system None))
    as (conns & Hconns & _).
  destruct (miss_then_hit Samples.related_facts Samples.related_facts conns
              env1 env2 eq_refl Hconns) as (Hsame & _ & Hrest).
  split; [exact Hsame|exact Hrest].
Qed.

(** C3, amended.  On a cache hit the call returns the cached result as it
    is stored and adds one to [cached_results] and one to
    [total_detections]; [connections_found], [high_relevance_connections],
    [average_processing_time] and [last_detection] keep their values, and so
    do the cache and the threshold. *)
Theorem cache_hit_frame `{R : PyRuntime} (scorer : Scorer)
    (self : ConnectionDetectionSystem) (facts : list ExtractedFact)
    (kb : string) (options : option Options) (env : CallEnv)
    (cached : ConnectionDetectionOutput) :
  connection_cache self
    !! _generate_cache_key facts kb (default empty_options options)
  = Some cached ->
  let run := detect_connections_with scorer self facts kb options env in
  let before := Detector.stats self in
  let after := Detector.stats run.2 in
  run.1 = Ok cached
  /\ cached_results after = cached_results before + 1
  /\ total_detections after = total_detections before + 1
  /\ connections_found after = connections_found before
  /\ stat_high_relevance_connections after
     = stat_high_relevance_connections before
  /\ average_processing_time after = average_processing_time before
  /\ last_detection after = last_detection before
  /\ connection_cache run.2 = connection_cache self
  /\ Detector.threshold run.2 = Detector.threshold self.
Proof.
  intros Hhit run before after. subst run before after.
  rewrite (detect_on_hit scorer self facts kb options env _ Hhit).
  cbn. repeat split.
Qed.

(** A system whose cache already answers the request for the two facts
    about Alice. *)
Lemma cache_hit_frame_witness :
  let warm :=
    (detect_connections (R := Samples.toy_runtime) Samples.fresh_system
       Samples.related_facts "" None Samples.clock0).2 in
  exists cached,
    connection_cache warm
      !! _generate_cache_key (R := Samples.toy_runtime)
           Samples.related_facts "" empty_options = Some cached
    /\ let run :=
         detect_connections (R := Samples.toy_runtime) warm
           Samples.related_facts "" None Samples.clock1 in
       run.1 = Ok cached
       /\ cached_results (Detector.stats run.2) = 1
       /\ total_detections (Detector.stats run.2) = 2
       /\ connections_found (Detector.stats run.2) = 1
       /\ last_detection (Detector.stats run.2)
          = Some (start_iso Samples.clock0).
Proof.
  cbv zeta.
  set (warm := (detect_connections (R := Samples.toy_runtime)
                  Samples.fresh_system Samples.related_facts "" None
                  Samples.clock0).2).
  assert (Hw : exists cached,
             connection_cache warm
               !! _generate_cache_key (R := Samples.toy_runtime)
                    Samples.related_facts "" empty_options = Some cached).
  { eexists. vm_compute. reflexivity. }
  destruct Hw as [cached Hc]. exists cached. split; [exact Hc|].
  destruct (cache_hit_frame (R := Samples.toy_runtime)
              (_simulate_connection_detection (R := Samples.toy_runtime)) warm
              Samples.related_facts "" None Samples.clock1 cached Hc)
    as (Hr & Hcr & Htd & Hcf & _ & _ & Hld & _).
  split; [exact Hr|].
  unfold detect_connections.
  rewrite Hcr, Htd, Hcf, Hld. vm_compute. repeat split.
Defined.

(* --------------------------------------------------------------------- *)
(** *** The webhook channel                                                *)
(* --------------------------------------------------------------------- *)

Section Webhook.
Variable self : WebhookNotificationChannel.

Lemma length_range (n : Z) : length (range n) = Z.to_nat n.
Proof. unfold range. now rewrite length_map, length_seq. Qed.

(** Statuses the channel does not accept make the loop run to its end:
    one POST per attempt left and nothing else. *)
Lemma post_with_retries_rejected (attempts : list Z) (n : Network) :
  (forall i, i < length attempts ->
             exists st txt, server n (requests n + i) = Response st txt
                            /\ status_accepted st = false) ->
  post_with_retries self attempts n
  = (Ok false,
     {| server := server n;
        requests := requests n + length attempts;
        trace := trace n
                 ++ replicate (length attempts) (POST (webhook_url self)) |}).
Proof.
  revert n. induction attempts as [|a later IH]; intros n H.
  - simpl. rewrite Nat.add_0_r, app_nil_r. destruct n; reflexivity.
  - destruct (H 0) as (st & txt & Hs & Hr); [simpl; lia|].
    rewrite Nat.add_0_r in Hs.
    cbn [post_with_retries client_post]. rewrite Hs, Hr.
    rewrite IH.
    + cbn [server requests trace length replicate].
      f_equal. f_equal; [lia|]. now rewrite <- app_assoc.
    + intros i Hi. cbn [server requests].
      destruct (H (S i)) as (st' & txt' & Hs' & Hr'); [simpl; lia|].
      exists st', txt'. split; [|exact Hr'].
      rewrite <- Hs'. f_equal. lia.
Qed.

Lemma not_2xx_rejected (st : Z) :
  ~ (200 <= st < 300)%Z -> status_accepted st = false.
Proof.
  intros H. unfold status_accepted. cbn [existsb].
  destruct (Z.eqb_spec st 200), (Z.eqb_spec st 201), (Z.eqb_spec st 202);
    try lia; reflexivity.
Qed.

Lemma status_accepted_iff (st : Z) :
  status_accepted st = true <-> (st = 200 \/ st = 201 \/ st = 202)%Z.
Proof.
  unfold status_accepted. cbn [existsb].
  destruct (Z.eqb_spec st 200), (Z.eqb_spec st 201), (Z.eqb_spec st 202);
    cbn; intuition (try lia; try discriminate).
Qed.

End Webhook.

(** C10. When every POST of a send completes with a status outside 2xx,
    the webhook channel makes one attempt per value of [range(retries)]
    ([retries] of them when [retries >= 0]), sleeps between none of them and
    returns [False]. *)
Theorem webhook_rejected_statuses_are_not_backed_off
    (self : WebhookNotificationChannel) (n : Network) :
  (forall i, i < Z.to_nat (retries self) ->
             exists st txt, server n (requests n + i) = Response st txt
                            /\ ~ (200 <= st < 300)%Z) ->
  let run := webhook_send self n in
  run.1 = false
  /\ requests run.2 = requests n + Z.to_nat (retries self)
  /\ trace run.2
     = trace n ++ replicate (Z.to_nat (retries self)) (POST (webhook_url self)).
Proof.
  intros H run. subst run. unfold webhook_send.
  rewrite post_with_retries_rejected.
  - rewrite length_range. cbn. repeat split.
  - rewrite length_range. intros i Hi.
    destruct (H i Hi) as (st & txt & Hs & Hr).
    exists st, txt. split; [exact Hs|]. now apply not_2xx_rejected.
Qed.

Lemma webhook_rejected_statuses_witness :
  let n := Samples.network_of (fun _ => Response 503 "unavailable") in
  let run := webhook_send (Samples.hook 3) n in
  run.1 = false
  /\ requests run.2 = 3
  /\ trace run.2 = [POST "https://example.invalid/hook";
                    POST "https://example.invalid/hook";
                    POST "https://example.invalid/hook"].
Proof.
  cbv zeta.
  destruct (webhook_rejected_statuses_are_not_backed_off (Samples.hook 3)
              (Samples.network_of (fun _ => Response 503 "unavailable")))
    as (Hr & Hq & Ht).
  - intros i _. exists 503%Z, "unavailable". split; [reflexivity|lia].
  - rewrite Hr, Hq, Ht. repeat split.
Defined.

(** C7, as stated, fails: 204 is a 2xx status, and a server that fails
    twice and then answers 204 makes the send return [False]. *)
Lemma webhook_204_is_not_success :
  (200 <= 204 < 300)%Z
  /\ let run :=
       webhook_send (Samples.hook 3)
         (Samples.network_of (Samples.fails_twice_then 204)) in
     run.1 = false /\ requests run.2 = 3.
Proof. split; [lia|]. vm_compute. split; reflexivity. Qed.

(** C7, amended.  With [retries = 3], when the first two POSTs raise a
    network error the channel makes exactly three attempts, sleeping 1 s
    ([2 ** 0]) after the first and 2 s ([2 ** 1]) after the second and not
    after the third; the send returns [True] exactly when the third POST
    answers 200, 201 or 202, and [False] when the third POST raises a
    network error too. *)
Theorem webhook_two_failures_then_third_attempt
    (self : WebhookNotificationChannel) (n : Network) (m1 m2 : string) :
  retries self = 3%Z ->
  server n (requests n) = PostRaises (RequestError m1) ->
  server n (requests n + 1) = PostRaises (RequestError m2) ->
  let url := webhook_url self in
  let third := server n (requests n + 2) in
  let run := webhook_send self n in
  requests run.2 = requests n + 3
  /\ trace run.2
     = trace n ++ [POST url; SLEEP 1; POST url; SLEEP 2; POST url]
  /\ (forall st txt, third = Response st txt ->
        (run.1 = true <-> (st = 200 \/ st = 201 \/ st = 202)%Z))
  /\ (forall m3, third = PostRaises (RequestError m3) -> run.1 = false).
Proof.
  intros Hret H0 H1 url third run.
  assert (Hrun : run
                 = (match third with
                    | Response st _ => status_accepted st
                    | PostRaises _ => false
                    end,
                    {| server := server n; requests := requests n + 3;
                       trace := trace n ++ [POST url; SLEEP 1; POST url;
                                            SLEEP 2; POST url] |})).
  { subst run third url. unfold webhook_send. rewrite Hret.
    change (range 3) with [0; 1; 2]%Z.
    cbn [post_with_retries client_post]. rewrite H0, Hret.
    cbn [Z.eqb Z.sub Z.add Z.opp Z.pos_sub Pos.eqb sleep server requests trace
         Z.pow Z.pow_pos Pos.iter Z.mul Pos.mul].
    replace (S (requests n)) with (requests n + 1) by lia. rewrite H1.
    cbn [Z.eqb Z.sub Z.add Z.opp Z.pos_sub Pos.eqb sleep server requests trace
         Z.pow Z.pow_pos Pos.iter Z.mul Pos.mul Pos.pred_double Z.succ_double
         Z.pred_double Z.double].
    replace (S (requests n + 1)) with (requests n + 2) by lia.
    replace (S (requests n + 2)) with (requests n + 3) by lia.
    rewrite <- !app_assoc. cbn [app].
    destruct (server n (requests n + 2)) as [st txt|e].
    - destruct (status_accepted st); reflexivity.
    - destruct e; reflexivity. }
  rewrite Hrun. cbn [fst snd requests trace].
  split; [reflexivity|]. split; [reflexivity|]. split.
  - intros st txt Ht. rewrite Ht. apply status_accepted_iff.
  - intros m3 Ht. rewrite Ht. reflexivity.
Qed.

Lemma webhook_two_failures_then_200_witness :
  let run :=
    webhook_send (Samples.hook 3)
      (Samples.network_of (Samples.fails_twice_then 200)) in
  run.1 = true
  /\ requests run.2 = 3
  /\ trace run.2 = [POST "https://example.invalid/hook"; SLEEP 1;
                    POST "https://example.invalid/hook"; SLEEP 2;
                    POST "https://example.invalid/hook"].
Proof.
  cbv zeta.
  destruct (webhook_two_failures_then_third_attempt (Samples.hook 3)
              (Samples.network_of (Samples.fails_twice_then 200))
              "connection reset" "connection reset"
              eq_refl eq_refl eq_refl) as (Hq & Ht & Hthird & _).
  split; [|split; [exact Hq|exact Ht]].
  apply (Hthird 200%Z ""); [reflexivity|]. left. reflexivity.
Defined.

(* --------------------------------------------------------------------- *)
(** *** The manager's fan-out                                              *)
(* --------------------------------------------------------------------- *)

Section FanOut.
Import Manager.
Context {W : Type}.
Implicit Types (chs : list (string * NotificationChannel W)) (w : W).

(** The loop runs every channel, in order, from the world the previous
    one left. *)
Lemma dispatch_world chs event k w :
  (dispatch chs event k w).2 = world_after chs event w.
Proof.
  revert k w. induction chs as [|[name ch] later IH]; intros k w;
    [reflexivity|].
  cbn [dispatch world_after fold_left]. unfold run_channel at 2. cbn [snd].
  destruct (send_notification ch event w) as [[[|]|e] w']; apply IH.
Qed.

Lemma dispatch_count_ge chs event k w :
  k <= (dispatch chs event k w).1.
Proof.
  revert k w. induction chs as [|[name ch] later IH]; intros k w;
    [reflexivity|].
  cbn [dispatch].
  destruct (send_notification ch event w) as [[[|]|e] w'];
    try apply IH.
  etransitivity; [|apply IH]. lia.
Qed.

(** The counter moves exactly when some channel returns [True]. *)
Lemma dispatch_count_moves chs event k w :
  k < (dispatch chs event k w).1 <-> exists i, delivered chs event w i.
Proof.
  revert k w. induction chs as [|[name ch] later IH]; intros k w.
  - cbn [dispatch fst]. split; [lia|].
    intros (i & c & Hc & _). rewrite lookup_nil in Hc. discriminate.
  - cbn [dispatch].
    destruct (send_notification ch event w) as [r w'] eqn:Hsend.
    assert (Hshift : (exists i, delivered later event w' i)
                     <-> exists i, delivered ((name, ch) :: later) event w (S i)).
    { unfold delivered.
      assert (Hw : w' = run_channel event w (name, ch))
        by (unfold run_channel; cbn [snd]; now rewrite Hsend).
      split; intros (i & c & Hc & Hok); exists i, c; (split; [exact Hc|]).
      - cbn [take world_after fold_left]. rewrite <- Hw. exact Hok.
      - cbn [take world_after fold_left] in Hok. rewrite <- Hw in Hok.
        exact Hok. }
    assert (Hhead : delivered ((name, ch) :: later) event w 0 <-> r = Ok true).
    { unfold delivered. cbn [take world_after fold_left].
      split.
      - intros (c & [= <-] & Hok). cbn [snd] in Hok.
        now rewrite Hsend in Hok.
      - intros ->. exists (name, ch). split; [reflexivity|].
        cbn [snd]. now rewrite Hsend. }
    destruct r as [[|]|e].
    + split.
      * intros _. exists 0. now apply Hhead.
      * intros _. pose proof (dispatch_count_ge later event (k + 1) w'). lia.
    + rewrite IH, Hshift. split.
      * intros [i H]. eauto.
      * intros [[|i] H]; [apply Hhead in H; discriminate|eauto].
    + rewrite IH, Hshift. split.
      * intros [i H]. eauto.
      * intros [[|i] H]; [apply Hhead in H; discriminate|eauto].
Qed.

End FanOut.

(** C6. [NotificationManager.send_notification] returns [True] exactly
    when some configured channel, called in the world its predecessors left,
    returns [True]; with no channel configured it returns [False] and
    changes nothing; and the world it leaves is the one reached by running
    every configured channel in turn, whether the others returned [True],
    returned [False] or raised.  The call itself has no exceptional outcome:
    what a channel raises is caught in the loop. *)
Theorem manager_send_reaches_every_channel {W : Type}
    (self : Manager.NotificationManager W) (event : NotificationEvent)
    (now_iso : string) (w : W) :
  let run := Manager.manager_send_notification self event now_iso w in
  (run.1.1 = true <-> exists i, delivered (Manager.channels self) event w i)
  /\ (Manager.channels self = [] -> run = (false, self, w))
  /\ run.2 = world_after (Manager.channels self) event w
  /\ Manager.channels run.1.2 = Manager.channels self.
Proof.
  intros run. subst run. unfold Manager.manager_send_notification.
  destruct (Manager.channels self) as [|c later] eqn:Hchs.
  - cbn. repeat split; try discriminate; try assumption.
    intros (i & c & Hc & _). rewrite lookup_nil in Hc. discriminate.
  - pose proof (dispatch_world (c :: later) event 0 w) as Hw.
    pose proof (dispatch_count_moves (c :: later) event 0 w) as Hn.
    destruct (Manager.dispatch (c :: later) event 0 w) as [count w'].
    cbn [fst snd] in Hw, Hn.
    destruct (Nat.ltb_spec 0 count) as [Hpos|Hzero]; cbn [fst snd].
    + repeat split; try discriminate; try assumption.
      intros _. now apply Hn.
    + repeat split; try discriminate; try assumption.
      intros H. apply Hn in H. lia.
Qed.

(* --------------------------------------------------------------------- *)
(** *** The file channel                                                   *)
(* --------------------------------------------------------------------- *)

Lemma length_padding n : String.length (padding n) = n.
Proof. induction n as [|n IH]; [reflexivity|]. simpl. f_equal. exact IH. Qed.

Lemma string_length_app (a b : string) :
  String.length (a ++ b) = String.length a + String.length b.
Proof. induction a as [|c a IH]; [reflexivity|]. simpl. f_equal. exact IH. Qed.

Section FileChannel.
Context `{R : PyRuntime}.
Variable self : FileNotificationChannel.

Lemma rotate_not_due w :
  over_ceiling self w = false -> _rotate_if_needed self w = w.
Proof.
  unfold over_ceiling, _rotate_if_needed. intros H.
  destruct (stat_fails (faults w)); [reflexivity|].
  destruct (files w !! file_path self); [|reflexivity].
  rewrite H. reflexivity.
Qed.

Lemma rotate_fails w :
  stat_fails (faults w) || rename_fails (faults w) = true ->
  _rotate_if_needed self w = w.
Proof.
  unfold _rotate_if_needed. intros H.
  destruct (stat_fails (faults w)); [reflexivity|]. cbn in H. rewrite H.
  destruct (files w !! file_path self) as [c|]; [|reflexivity].
  destruct (st_size c >? max_size_bytes self)%Z; reflexivity.
Qed.

Lemma rotate_due w content :
  files w !! file_path self = Some content ->
  (st_size content > max_size_bytes self)%Z ->
  stat_fails (faults w) = false -> rename_fails (faults w) = false ->
  _rotate_if_needed self w
  = with_files w
      (<[with_suffix self ("." ++ backup_stamp w ++ ".log")%string := content]>
         (delete (file_path self) (files w))).
Proof.
  unfold _rotate_if_needed, rename. intros Hf Hgt -> ->. rewrite Hf.
  destruct (Z.gtb_spec (st_size content) (max_size_bytes self)); [|lia].
  reflexivity.
Qed.

Lemma rotate_keeps_faults w :
  faults (_rotate_if_needed self w) = faults w.
Proof.
  unfold _rotate_if_needed.
  destruct (stat_fails (faults w)); [reflexivity|].
  destruct (files w !! file_path self) as [c|]; [|reflexivity].
  destruct (st_size c >? max_size_bytes self)%Z; [|reflexivity].
  destruct (rename_fails (faults w)); reflexivity.
Qed.

(** The write, on a world in which opening and writing succeed: the
    record goes to the end of the file the rotation step left. *)
Lemma send_writes event record w :
  json_dumps_record event = Ok record ->
  open_fails (faults w) = false -> write_fails (faults w) = false ->
  file_send_notification self event w
  = (true,
     let w' := _rotate_if_needed self w in
     with_files w'
       (<[file_path self :=
            (default "" (files w' !! file_path self) ++ record ++ LF)%string]>
          (files w'))).
Proof.
  intros Hrec Hopen Hwrite. unfold file_send_notification.
  rewrite rotate_keeps_faults, Hopen, Hrec, Hwrite. reflexivity.
Qed.

End FileChannel.

Section ExceedingWrite.
Context `{R : PyRuntime}.

(** A write to a log file of exactly the ceiling's size. *)
Lemma write_at_the_ceiling (full : string) (event : NotificationEvent)
    (record : string) :
  st_size full = 10485760%Z ->
  json_dumps_record event = Ok record ->
  let w :=
    Samples.world_of {[ "logs/notifications.log" := full ]}
      Samples.no_faults (Samples.network_of Samples.unreachable) in
  let run := file_send_notification Samples.log_channel event w in
  run.1 = true
  /\ files run.2
     = {[ "logs/notifications.log" := (full ++ record ++ LF)%string ]}
  /\ (st_size (full ++ record ++ LF)
      > max_size_bytes Samples.log_channel)%Z.
Proof.
  intros Hfull Hrec w run.
  assert (Hfile : files w !! file_path Samples.log_channel = Some full)
    by apply lookup_singleton_eq.
  assert (Hover : over_ceiling Samples.log_channel w = false).
  { unfold over_ceiling. rewrite Hfile, Hfull. reflexivity. }
  subst run.
  rewrite (send_writes Samples.log_channel event record w Hrec eq_refl eq_refl).
  cbv zeta. rewrite (rotate_not_due Samples.log_channel w Hover).
  rewrite Hfile. split; [reflexivity|]. split.
  - apply insert_singleton_eq.
  - unfold st_size in *. rewrite !string_length_app.
    change (max_size_bytes Samples.log_channel) with 10485760%Z.
    change (String.length LF) with 1. lia.
Qed.

End ExceedingWrite.

(** C4, as stated, fails: on a log file of exactly 10 MiB the send that
    takes the size over the ceiling is appended to that file; no rotation
    precedes it, and the log file is still the only file. *)
Lemma no_rotation_before_the_exceeding_write :
  max_size_bytes Samples.log_channel = 10485760%Z
  /\ st_size Samples.full_log = 10485760%Z
  /\ forall (R : PyRuntime) (event : NotificationEvent) (record : string),
       json_dumps_record event = Ok record ->
       let w :=
         Samples.world_of {[ "logs/notifications.log" := Samples.full_log ]}
           Samples.no_faults (Samples.network_of Samples.unreachable) in
       let run := file_send_notification Samples.log_channel event w in
       run.1 = true
       /\ files run.2
          = {[ "logs/notifications.log"
               := (Samples.full_log ++ record ++ LF)%string ]}
       /\ (st_size (Samples.full_log ++ record ++ LF)
           > max_size_bytes Samples.log_channel)%Z.
Proof.
  assert (Hfull : st_size Samples.full_log = 10485760%Z).
  { unfold st_size, Samples.full_log. rewrite length_padding.
    apply Z2Nat.id. discriminate. }
  split; [reflexivity|]. split; [exact Hfull|].
  intros R event record Hrec.
  exact (write_at_the_ceiling Samples.full_log event record Hfull Hrec).
Qed.

(** C4, amended.  A send whose record renders and whose open and write
    succeed returns [True], and rotates exactly when the file it finds is
    already larger than the ceiling and the rotation itself succeeds.  A
    file within the ceiling is appended to in place, also by the write that
    takes it over the ceiling: the rotation comes with the next send.  A
    file over the ceiling is renamed to the timestamped backup and the log
    file then holds the new record alone.  When the rotation fails the
    record is still appended to the file as it was. *)
Theorem file_rotation_follows_the_size_found `{R : PyRuntime}
    (self : FileNotificationChannel) (event : NotificationEvent)
    (record : string) (w : World) :
  json_dumps_record event = Ok record ->
  open_fails (faults w) = false ->
  write_fails (faults w) = false ->
  let path := file_path self in
  let backup := with_suffix self ("." ++ backup_stamp w ++ ".log")%string in
  let appended :=
    <[path := (default "" (files w !! path) ++ record ++ LF)%string]>
      (files w) in
  let rotation_fails := stat_fails (faults w) || rename_fails (faults w) in
  let run := file_send_notification self event w in
  run.1 = true
  /\ (over_ceiling self w = false -> files run.2 = appended)
  /\ (over_ceiling self w = true -> rotation_fails = true ->
      files run.2 = appended)
  /\ (over_ceiling self w = true -> rotation_fails = false ->
      backup <> path ->
      forall content,
        files w !! path = Some content ->
        files run.2
        = <[path := (record ++ LF)%string]>
            (<[backup := content]> (delete path (files w)))).
Proof.
  intros Hrec Hopen Hwrite path backup appended rotation_fails run.
  subst run. rewrite (send_writes self event record w Hrec Hopen Hwrite).
  cbv zeta. cbn [fst snd]. split; [reflexivity|]. split; [|split].
  - intros Hover. rewrite (rotate_not_due self w Hover). reflexivity.
  - intros _ Hfail. rewrite (rotate_fails self w Hfail). reflexivity.
  - intros Hover Hok Hne content Hfile.
    apply orb_false_iff in Hok as [Hstat Hren].
    unfold over_ceiling in Hover. fold path in Hover. rewrite Hfile in Hover.
    rewrite (rotate_due self w content Hfile) by (try assumption; lia).
    cbn [files with_files]. fold backup. fold path.
    rewrite lookup_insert_ne by exact Hne.
    rewrite lookup_delete_eq. reflexivity.
Qed.

(** A log file over a zero ceiling is rotated; the same send with the
    rename denied appends to it. *)
Lemma file_rotation_witness :
  let fs : FileSystem := {[ "n.log" := "old" ]} in
  let net := Samples.network_of Samples.unreachable in
  let rotated :=
    file_send_notification (R := Samples.toy_runtime) Samples.tiny_channel
      Samples.event1 (Samples.world_of fs Samples.no_faults net) in
  let denied :=
    file_send_notification (R := Samples.toy_runtime) Samples.tiny_channel
      Samples.event1 (Samples.world_of fs Samples.rename_denied net) in
  rotated.1 = true
  /\ files rotated.2 !! "n.20250101_120000.log" = Some "old"
  /\ files rotated.2 !! "n.log" = Some ("{event_id: e1}" ++ LF)%string
  /\ denied.1 = true
  /\ files denied.2 !! "n.20250101_120000.log" = None
  /\ files denied.2 !! "n.log" = Some ("old{event_id: e1}" ++ LF)%string.
Proof.
  cbv zeta.
  destruct (file_rotation_follows_the_size_found (R := Samples.toy_runtime)
              Samples.tiny_channel Samples.event1 "{event_id: e1}"
              (Samples.world_of {[ "n.log" := "old" ]} Samples.no_faults
                 (Samples.network_of Samples.unreachable))
              eq_refl eq_refl eq_refl) as (Hr & _ & _ & Hrot).
  destruct (file_rotation_follows_the_size_found (R := Samples.toy_runtime)
              Samples.tiny_channel Samples.event1 "{event_id: e1}"
              (Samples.world_of {[ "n.log" := "old" ]} Samples.rename_denied
                 (Samples.network_of Samples.unreachable))
              eq_refl eq_refl eq_refl) as (Hd & _ & Hfail & _).
  rewrite Hr, Hd.
  rewrite (Hrot eq_refl eq_refl ltac:(discriminate) "old" eq_refl).
  rewrite (Hfail eq_refl eq_refl).
  repeat split; vm_compute; reflexivity.
Defined.

(** A webhook that exhausts its retries holds back neither the console nor
    the file channel: the send succeeds through the second channel, and
    all three have run. *)
Lemma manager_send_witness :
  let w :=
    Samples.world_of ∅ Samples.no_faults
      (Samples.network_of Samples.unreachable) in
  let run :=
    Manager.manager_send_notification Samples.three_channel_manager
      Samples.event1 "2025-01-01T12:00:01" w in
  run.1.1 = true
  /\ delivered (Manager.channels Samples.three_channel_manager)
       Samples.event1 w 1
  /\ requests (network run.2) = 3
  /\ stdout run.2
     = ["[2025-01-01 12:00:00] WARNING: High relevance connection detected"]
  /\ files run.2 !! "n.log" = Some ("{event_id: e1}" ++ LF)%string.
Proof.
  cbv zeta.
  set (w := Samples.world_of ∅ Samples.no_faults
              (Samples.network_of Samples.unreachable)).
  destruct (manager_send_reaches_every_channel Samples.three_channel_manager
              Samples.event1 "2025-01-01T12:00:01" w)
    as (Hiff & _ & Hworld & _).
  assert (Hd : delivered (Manager.channels Samples.three_channel_manager)
                 Samples.event1 w 1).
  { eexists. split; [reflexivity|]. vm_compute. reflexivity. }
  split; [apply Hiff; eauto|]. split; [exact Hd|].
  rewrite Hworld. vm_compute. repeat split.
Defined.

(* --------------------------------------------------------------------- *)
(** *** Further properties                                                 *)
(* --------------------------------------------------------------------- *)

(** X1. The shipped scorer never raises: every [ConnectionScore] it builds
    passes the bounds of the schema, however many entities or tokens are
    shared, and it returns at most one connection per pair of facts, one
    per fact and one temporal connection. *)
Theorem shipped_scorer_always_returns `{R : PyRuntime}
    (facts : list ExtractedFact) (kb : string) (th : float) :
  exists conns,
    _simulate_connection_detection facts kb th = Ok conns
    /\ length conns
       <= length (index_pairs (length facts)) + length facts + 1.
Proof.
  destruct (simulate_returns facts kb th) as (temporal & Hs & _).
  eexists. split; [exact Hs|]. exact (simulate_length_le _ _ _ _ Hs).
Qed.

(** X3. Idempotence.  Repeating a call with the same facts, corpus and
    options on the system the first call left returns the same result,
    adds one to [cached_results] and leaves the cache as it is. *)
Theorem repeated_detection_is_served_from_cache `{R : PyRuntime}
    (self : ConnectionDetectionSystem) (facts : list ExtractedFact)
    (kb : string) (options : option Options) (env1 env2 : CallEnv) :
  let first := detect_connections self facts kb options env1 in
  let second := detect_connections first.2 facts kb options env2 in
  second.1 = first.1
  /\ cached_results (Detector.stats second.2)
     = cached_results (Detector.stats first.2) + 1
  /\ connection_cache second.2 = connection_cache first.2.
Proof.
  intros first second.
  assert (Hfirst : exists out,
             first.1 = Ok out
             /\ connection_cache first.2
                !! _generate_cache_key facts kb
                     (default empty_options options) = Some out).
  { subst first. unfold detect_connections.
    destruct (connection_cache self
                !! _generate_cache_key facts kb
                     (default empty_options options)) as [cached|] eqn:Hc.
    - rewrite (detect_on_hit _ self facts kb options env1 _ Hc).
      exists cached. split; [reflexivity|exact Hc].
    - destruct (simulate_returns facts kb (resolved_threshold self options))
        as (temporal & Hs & _).
      pose proof (detect_on_miss _ self facts kb options env1 _ Hc Hs) as H.
      cbv zeta in H. rewrite H. eexists. split; [reflexivity|].
      cbn [snd connection_cache]. apply lookup_insert_eq. }
  destruct Hfirst as (out & Hout & Hhit).
  subst second. unfold detect_connections at 1 2 3.
  rewrite (detect_on_hit _ first.2 facts kb options env2 _ Hhit).
  cbn. rewrite Hout. repeat split. 
Qed.

(** X4. Every result the detector returns or caches is consistent: when
    the cached results are, the returned one is and so is the cache the
    call leaves.  In a consistent result [total_connections] is the length
    of [connections], and [high_relevance_connections] holds, in order,
    the connections whose score reaches [threshold_used]. *)
Theorem detection_results_are_consistent `{R : PyRuntime} (scorer : Scorer)
    (self : ConnectionDetectionSystem) (facts : list ExtractedFact)
    (kb : string) (options : option Options) (env : CallEnv) :
  (forall k o, connection_cache self !! k = Some o -> consistent o) ->
  let run := detect_connections_with scorer self facts kb options env in
  (forall out, run.1 = Ok out ->
     consistent out
     /\ (forall c, In c (high_relevance_connections out) ->
           In c (connections out)
           /\ float_ge (score (conn_score c)) (threshold_used out) = true))
  /\ (forall k o, connection_cache run.2 !! k = Some o -> consistent o).
Proof.
  intros Hinv run.
  assert (Hsub : forall out, consistent out ->
            forall c, In c (high_relevance_connections out) ->
              In c (connections out)
              /\ float_ge (score (conn_score c)) (threshold_used out) = true).
  { intros out [_ Hh] c Hc. rewrite Hh in Hc.
    now apply List.filter_In in Hc. }
  subst run.
  destruct (connection_cache self
              !! _generate_cache_key facts kb (default empty_options options))
    as [cached|] eqn:Hc.
  - rewrite (detect_on_hit scorer self facts kb options env _ Hc).
    cbn [fst snd connection_cache]. split; [|exact Hinv].
    intros out [= <-]. split; [eauto|]. apply Hsub. eauto.
  - destruct (scorer facts kb (resolved_threshold self options))
      as [conns|e] eqn:Hs.
    + pose proof (detect_on_miss scorer self facts kb options env _ Hc Hs)
        as H. cbv zeta in H. rewrite H. cbn [fst snd connection_cache].
      match goal with
      | |- context [Ok ?o] =>
          assert (Ho : consistent o) by (split; reflexivity)
      end.
      split.
      * intros out [= <-]. split; [exact Ho|]. now apply Hsub.
      * intros k o. rewrite lookup_insert. case_decide.
        -- intros [= <-]. exact Ho.
        -- apply Hinv.
    + rewrite (detect_on_raise scorer self facts kb options env _ Hc Hs).
      cbn [fst snd connection_cache with_stats]. split; [|exact Hinv].
      intros out [= <-].
      assert (Ho : consistent
                {| connections := []; total_connections := 0;
                   high_relevance_connections := [];
                   threshold_used := resolved_threshold self options;
                   processing_time := elapsed env; status := FAILED |})
        by (split; reflexivity).
      split; [exact Ho|]. now apply Hsub.
Qed.

Lemma detection_results_are_consistent_witness :
  let run :=
    detect_connections (R := Samples.toy_runtime) Samples.fresh_system
      Samples.three_facts "" None Samples.clock0 in
  exists out,
    run.1 = Ok out
    /\ consistent out
    /\ length (connections out) = 3
    /\ length (high_relevance_connections out) = 3.
Proof.
  cbv zeta.
  destruct (detection_results_are_consistent (R := Samples.toy_runtime)
              (_simulate_connection_detection (R := Samples.toy_runtime))
              Samples.fresh_system Samples.three_facts "" None Samples.clock0)
    as [Hout _].
  { intros k o Hk. rewrite fresh_cache_misses in Hk. discriminate. }
  eexists. split; [vm_compute; reflexivity|].
  split; [apply Hout; vm_compute; reflexivity|].
  split; reflexivity.
Defined.

(** X5. [set_threshold] accepts exactly the thresholds within [0, 1]: an
    accepted threshold replaces the old one and nothing else changes; a
    rejected one raises [ValueError] and leaves the system as it was, as in
    the scenario [set_threshold(1.5)]. *)
Theorem set_threshold_validates (self : ConnectionDetectionSystem) (t : float) :
  let run := set_threshold self t in
  (in_unit_interval t = true ->
   run.1 = Ok tt
   /\ Detector.threshold run.2 = t
   /\ connection_cache run.2 = connection_cache self
   /\ Detector.stats run.2 = Detector.stats self)
  /\ (in_unit_interval t = false ->
      run.1 = Raise (ValueError "Threshold must be between 0.0 and 1.0")
      /\ run.2 = self)
  /\ (set_threshold self 1.5%float).2 = self
  /\ (set_threshold self 1.5%float).1
     = Raise (ValueError "Threshold must be between 0.0 and 1.0").
Proof.
  unfold set_threshold, in_unit_interval. cbv zeta.
  split; [|split; [|split; reflexivity]].
  - intros ->. repeat split.
  - intros ->. repeat split.
Qed.

Section Temporal.
Context `{R : PyRuntime}.

Lemma simulate_temporal_part facts kb th temporal :
  temporal_pass facts = Ok temporal ->
  Forall is_temporal_analysis temporal ->
  exists conns,
    _simulate_connection_detection facts kb th = Ok conns
    /\ filter is_temporal_analysis conns = temporal.
Proof.
  intros Ht Hall. unfold _simulate_connection_detection.
  rewrite entity_overlap_pass_by_index, semantic_pass_by_fact, Ht.
  eexists. split; [reflexivity|].
  rewrite !filter_app.
  rewrite (filter_none is_temporal_analysis (omap (pair_connection facts) _)).
  2:{ eapply Forall_impl; [apply pair_connections_method|].
      unfold is_temporal_analysis, is_entity_overlap.
      intros c -> ; discriminate. }
  rewrite (filter_none is_temporal_analysis (omap (corpus_connection kb) _)).
  2:{ eapply Forall_impl; [apply corpus_connections_method|].
      unfold is_temporal_analysis, is_semantic_similarity.
      intros c -> ; discriminate. }
  now rewrite (filter_all is_temporal_analysis temporal).
Qed.

End Temporal.

(** X6. Temporal strategy.  When at least two input facts have type
    [temporal], the scorer returns exactly one connection tagged
    [temporal_analysis], from the first of them to the second, scored 0.75
    and of type "temporal"; with fewer than two it returns none. *)
Theorem temporal_strategy `{R : PyRuntime}
    (facts : list ExtractedFact) (kb : string) (th : float) :
  exists conns,
    _simulate_connection_detection facts kb th = Ok conns
    /\ match temporal_facts_of facts with
       | t0 :: t1 :: _ =>
           exists c,
             filter is_temporal_analysis conns = [c]
             /\ source_fact c = fact t0
             /\ target_fact c = fact t1
             /\ score (conn_score c) = 0.75%float
             /\ connection_type (conn_score c) = "temporal"
       | _ => filter is_temporal_analysis conns = []
       end.
Proof.
  unfold temporal_facts_of.
  destruct (filter _ facts) as [|t0 [|t1 ts]] eqn:Hf.
  - destruct (simulate_temporal_part facts kb th []) as (conns & Hs & Hc).
    + unfold temporal_pass. rewrite Hf. reflexivity.
    + constructor.
    + eauto.
  - destruct (simulate_temporal_part facts kb th []) as (conns & Hs & Hc).
    + unfold temporal_pass. rewrite Hf. reflexivity.
    + constructor.
    + eauto.
  - edestruct (simulate_temporal_part facts kb th) as (conns & Hs & Hc).
    + unfold temporal_pass. rewrite Hf. reflexivity.
    + repeat constructor.
    + exists conns. split; [exact Hs|]. eexists. split; [exact Hc|].
      repeat split.
Qed.

Section ManagerBookkeeping.
Import Manager.
Context {W : Type}.

Lemma length_pop0_bound {A} (l : list A) (x : A) :
  length l <= 100 ->
  length (if (100 <? length (l ++ [x]))%nat then pop0 (l ++ [x]) else l ++ [x])
  <= 100.
Proof.
  intros H. destruct (Nat.ltb_spec 100 (length (l ++ [x]))) as [Hgt|Hle].
  - unfold pop0. rewrite length_app in Hgt. simpl in Hgt.
    destruct l as [|a l]; simpl in *; [lia|].
    rewrite length_app. simpl. lia.
  - exact Hle.
Qed.

End ManagerBookkeeping.

Section WebhookBound.
Variable self : WebhookNotificationChannel.

Lemma post_with_retries_bound (attempts : list Z) (n : Network) :
  let run := post_with_retries self attempts n in
  requests n <= requests run.2 <= requests n + length attempts
  /\ server run.2 = server n.
Proof.
  revert n. induction attempts as [|a later IH]; intros n; cbv zeta.
  - cbn. split; [lia|reflexivity].
  - cbn [post_with_retries client_post length].
    destruct (server n (requests n)) as [st txt|e].
    + destruct (status_accepted st).
      * cbn. split; [lia|reflexivity].
      * match goal with
        | |- context [post_with_retries self later ?m] =>
            destruct (IH m) as [Hb Hs]
        end.
        cbn [requests server] in Hb, Hs. split; [lia|exact Hs].
    + destruct e; try (cbn; split; [lia|reflexivity]).
      destruct (a =? retries self - 1)%Z.
      * cbn. split; [lia|reflexivity].
      * match goal with
        | |- context [post_with_retries self later ?m] =>
            destruct (IH m) as [Hb Hs]
        end.
        cbn [requests server sleep] in Hb, Hs. split; [lia|exact Hs].
Qed.

End WebhookBound.

(** X8. Whatever the server does, one webhook send makes at most
    [retries] POSTs (none when [retries <= 0]) and returns a boolean: the
    retry loop is bounded and nothing it raises leaves the channel. *)
Theorem webhook_attempts_are_bounded (self : WebhookNotificationChannel)
    (n : Network) :
  let run := webhook_send self n in
  requests n <= requests run.2 <= requests n + Z.to_nat (retries self)
  /\ server run.2 = server n.
Proof.
  cbv zeta. unfold webhook_send.
  pose proof (post_with_retries_bound self (range (retries self)) n) as H.
  cbv zeta in H. rewrite length_range in H.
  destruct (post_with_retries self (range (retries self)) n) as [[b|e] n'];
    exact H.
Qed.

(* --------------------------------------------------------------------- *)
(** *** The rest of the two modules                                        *)
(* --------------------------------------------------------------------- *)

Section ProcessConnections.
Import Manager ManagerOps.
Context {W : Type} `{R : PyRuntime}.
Variable format_2f : float -> string.
Variable clock : nat -> datetime * string.
Implicit Types (self : NotificationManager W) (w : W).

Lemma dispatch_count_le (chs : list (string * NotificationChannel W))
    event k w :
  k <= (dispatch chs event k w).1 <= k + length chs.
Proof.
  revert k w. induction chs as [|[name c] later IH]; intros k w; cbn.
  - lia.
  - destruct (send_notification c event w) as [[[|]|e] w'];
      match goal with |- context [dispatch later event ?j ?v] =>
        specialize (IH j v) end; lia.
Qed.

(** One send: what it keeps, what it counts and what it records. *)
Lemma send_step self event now_iso w :
  let run := manager_send_notification self event now_iso w in
  let st := Manager.stats self in
  let st' := Manager.stats run.1.2 in
  channels run.1.2 = channels self
  /\ Manager.threshold run.1.2 = Manager.threshold self
  /\ (channels self = [] -> run = (false, self, w))
  /\ (channels self <> [] ->
      notifications_sent st'
      = notifications_sent st + (if run.1.1 then 1 else 0)
      /\ notifications_failed st'
         = notifications_failed st + (if run.1.1 then 0 else 1))
  /\ ((run.1.1 = true
       /\ exists sent,
            1 <= sent <= length (channels self)
            /\ notification_history run.1.2
               = let history :=
                   notification_history self
                   ++ [entry_of event sent (length (channels self))] in
                 if (100 <? length history)%nat then pop0 history
                 else history)
      \/ (run.1.1 = false
          /\ notification_history run.1.2 = notification_history self)).
Proof.
  cbv zeta. unfold manager_send_notification.
  destruct (channels self) as [|c later] eqn:Hchs.
  - cbn. repeat split; try congruence. right. split; reflexivity.
  - pose proof (dispatch_count_le (c :: later) event 0 w) as Hle.
    destruct (dispatch (c :: later) event 0 w) as [count w'].
    cbn [fst] in Hle.
    destruct (Nat.ltb_spec 0 count) as [Hpos|Hzero];
      cbn [fst snd channels Manager.threshold Manager.stats
           notifications_sent notifications_failed notification_history].
    + split; [reflexivity|]. split; [reflexivity|].
      split; [intros [=]|]. split; [intros _; split; lia|].
      left. split; [reflexivity|]. exists count. split; [lia|]. reflexivity.
    + split; [reflexivity|]. split; [reflexivity|].
      split; [intros [=]|]. split; [intros _; split; lia|].
      right. split; reflexivity.
Qed.

(** The loop keeps the registry and the threshold. *)
Lemma notify_each_registry self high i k w :
  let run := notify_each format_2f clock self high i k w in
  channels run.1.2 = channels self
  /\ Manager.threshold run.1.2 = Manager.threshold self.
Proof.
  revert self i k w. induction high as [|c later IH]; intros self i k w;
    cbv zeta; cbn [notify_each]; [split; reflexivity|].
  destruct (send_step self (_create_connection_event format_2f c (clock i).1)
              (clock i).2 w) as (Hc & Ht & _).
  destruct (manager_send_notification self _ (clock i).2 w)
    as [[ok self1] w1].
  cbn [fst snd] in Hc, Ht.
  destruct (IH self1 (S i) (if ok then k + 1 else k) w1) as [Hc' Ht'].
  split; congruence.
Qed.

(** The loop counts every event once: as sent or as failed. *)
Lemma notify_each_counts self high i k w :
  let run := notify_each format_2f clock self high i k w in
  let st := Manager.stats self in
  let st' := Manager.stats run.1.2 in
  k <= run.1.1 <= k + length high
  /\ (channels self <> [] ->
      notifications_sent st' = notifications_sent st + (run.1.1 - k)
      /\ notifications_failed st'
         = notifications_failed st + (length high - (run.1.1 - k)))
  /\ (channels self = [] -> run = (k, self, w)).
Proof.
  revert self i k w. induction high as [|c later IH]; intros self i k w;
    cbv zeta; cbn [notify_each length].
  - cbn. repeat split; lia.
  - destruct (send_step self (_create_connection_event format_2f c (clock i).1)
                (clock i).2 w) as (Hc & _ & Hnone & Hsome & _).
    destruct (manager_send_notification self _ (clock i).2 w)
      as [[ok self1] w1].
    cbn [fst snd] in Hc, Hnone, Hsome.
    destruct (IH self1 (S i) (if ok then k + 1 else k) w1)
      as (Hk & Hst & Hno).
    rewrite Hc in Hst, Hno.
    split; [destruct ok; lia|]. split.
    + intros Hne. destruct (Hsome Hne) as [Hs Hf].
      destruct (Hst Hne) as [Hs' Hf']. destruct ok; lia.
    + intros Hnil. specialize (Hnone Hnil). injection Hnone as -> -> ->.
      exact (Hno Hnil).
Qed.

Lemma pop0_drops_at_most_one {A} (l : list A) :
  exists dropped,
    dropped ++ (if (100 <? length l)%nat then pop0 l else l) = l
    /\ length dropped <= 1.
Proof.
  destruct (100 <? length l)%nat.
  - destruct l as [|a l]; [exists []|exists [a]]; cbn; split; auto.
  - exists []. cbn. split; [reflexivity|lia].
Qed.

(** What the loop leaves in the history: one entry per event sent, after
    the entries that were there, less the oldest ones dropped. *)
Lemma notify_each_history self high i k w :
  let run := notify_each format_2f clock self high i k w in
  exists added dropped,
    dropped ++ notification_history run.1.2
    = notification_history self ++ added
    /\ length added = run.1.1 - k
    /\ length dropped <= length added
    /\ Forall (fun e =>
                h_event_type e = "high_relevance_connection"
                /\ 1 <= channels_sent e <= total_channels e
                /\ total_channels e = length (channels self)) added
    /\ (length (notification_history self) <= 100 ->
        length (notification_history run.1.2) <= 100).
Proof.
  revert self i k w. induction high as [|c later IH]; intros self i k w;
    cbv zeta; cbn [notify_each].
  - exists [], []. cbn. rewrite app_nil_r, Nat.sub_diag.
    repeat split; auto.
  - pose proof (notify_each_counts self (c :: later) i k w) as Hcount.
    cbv zeta in Hcount. cbn [notify_each] in Hcount.
    destruct Hcount as (Hk & _).
    destruct (send_step self (_create_connection_event format_2f c (clock i).1)
                (clock i).2 w) as (Hc & _ & _ & _ & Hh).
    destruct (manager_send_notification self _ (clock i).2 w)
      as [[ok self1] w1].
    cbn [fst snd] in Hc, Hh.
    pose proof (notify_each_counts self1 later (S i)
                  (if ok then k + 1 else k) w1) as Hk1.
    cbv zeta in Hk1. destruct Hk1 as (Hk1 & _).
    destruct (IH self1 (S i) (if ok then k + 1 else k) w1)
      as (added & dropped & Heq & Hlen & Hdrop & Hall & Hbound).
    rewrite Hc in Hall.
    destruct Hh as [(-> & sent & Hsent & Hh)|(-> & Hh)].
    + cbv zeta in Hh.
      set (e := entry_of (_create_connection_event format_2f c (clock i).1)
                  sent (length (channels self))) in *.
      destruct (pop0_drops_at_most_one (notification_history self ++ [e]))
        as (d1 & Hd1 & Hd1len).
      rewrite <- Hh in Hd1.
      exists (e :: added), (d1 ++ dropped).
      split.
      { rewrite <- app_assoc, Heq, app_assoc, Hd1, <- app_assoc.
        reflexivity. }
      split; [cbn [length]; lia|].
      split; [rewrite length_app; cbn [length]; lia|].
      split.
      { constructor; [|exact Hall]. subst e. cbn. repeat split; lia. }
      intros Hle. apply Hbound. rewrite Hh.
      apply length_pop0_bound. exact Hle.
    + exists added, dropped. rewrite <- Hh.
      split; [exact Heq|]. split; [lia|]. split; [exact Hdrop|].
      split; [exact Hall|]. exact Hbound.
Qed.

End ProcessConnections.

(** X9. Accounting of [process_connections].  When no connection reaches
    the manager's threshold the report is [no_notifications] and neither
    the manager nor the world changes.  Otherwise the report counts the
    connections given, those that reach the threshold and the
    notifications sent, never more than the latter; with a channel
    configured every event is counted once in the statistics, as sent or
    as failed.  The registry and the threshold are left as they were. *)
Theorem process_connections_accounting {W : Type} `{R : PyRuntime}
    (format_2f : float -> string) (clock : nat -> datetime * string)
    (self : Manager.NotificationManager W)
    (connections : list DetectedConnection) (w : W) :
  let run :=
    ManagerOps.process_connections format_2f clock self connections w in
  let high :=
    List.filter
      (fun c => float_ge (score (conn_score c)) (Manager.threshold self))
      connections in
  let before := Manager.stats self in
  let after := Manager.stats run.1.2 in
  (high = [] ->
   run = (ManagerOps.no_notifications (length connections)
            (Manager.threshold self), self, w))
  /\ (high <> [] ->
      exists sent,
        run.1.1 = ManagerOps.notifications_sent_report (length connections)
                    (length high) sent (Manager.threshold self)
        /\ sent <= length high
        /\ (Manager.channels self <> [] ->
            Manager.notifications_sent after
            = Manager.notifications_sent before + sent
            /\ Manager.notifications_failed after
               = Manager.notifications_failed before + (length high - sent)))
  /\ Manager.channels run.1.2 = Manager.channels self
  /\ Manager.threshold run.1.2 = Manager.threshold self.
Proof.
  intros run high before after. subst run before after.
  unfold ManagerOps.process_connections. fold high.
  destruct high as [|c later] eqn:Hhigh.
  - cbn. repeat split. intros H; now destruct H.
  - clear Hhigh. split; [intros [=]|].
    pose proof (notify_each_counts format_2f clock self (c :: later) 0 0 w)
      as Hc.
    pose proof (notify_each_registry format_2f clock self (c :: later) 0 0 w)
      as Hr.
    cbv zeta in Hc, Hr.
    destruct (ManagerOps.notify_each format_2f clock self (c :: later) 0 0 w)
      as [[sent self'] w'].
    cbn [fst snd] in *. destruct Hc as (Hk & Hst & _).
    split; [|exact Hr].
    intros _. exists sent. split; [reflexivity|]. split; [lia|].
    intros Hne. destruct (Hst Hne) as [Hs Hf].
    rewrite Nat.sub_0_r in Hs, Hf. split; assumption.
Qed.

(** X10. With no channel registered nothing is sent and nothing is
    counted, not even as a failure: the manager and the world are left
    untouched, and a connection over the threshold still yields the
    report [notifications_sent], with [0] sent. *)
Theorem process_connections_without_channels {W : Type} `{R : PyRuntime}
    (format_2f : float -> string) (clock : nat -> datetime * string)
    (self : Manager.NotificationManager W)
    (connections : list DetectedConnection) (w : W) :
  Manager.channels self = [] ->
  let run :=
    ManagerOps.process_connections format_2f clock self connections w in
  let high :=
    List.filter
      (fun c => float_ge (score (conn_score c)) (Manager.threshold self))
      connections in
  run.1.2 = self /\ run.2 = w
  /\ (high <> [] ->
      run.1.1 = ManagerOps.notifications_sent_report (length connections)
                  (length high) 0 (Manager.threshold self)).
Proof.
  intros Hnil run high. subst run.
  unfold ManagerOps.process_connections. fold high.
  destruct high as [|c later] eqn:Hhigh.
  - cbn. repeat split. intros H; now destruct H.
  - clear Hhigh.
    pose proof (notify_each_counts format_2f clock self (c :: later) 0 0 w)
      as Hc.
    cbv zeta in Hc. destruct Hc as (_ & _ & Hc). rewrite (Hc Hnil).
    cbn. repeat split.
Qed.

(** An emptied registry and one connection over the threshold. *)
Lemma process_connections_without_channels_witness :
  let run :=
    ManagerOps.process_connections (R := Samples.toy_runtime)
      Examples.fixed_format Examples.noon Examples.unplugged_manager
      [Examples.strong_connection] Examples.quiet_world in
  Manager.channels Examples.unplugged_manager = []
  /\ run.1.1 = ManagerOps.notifications_sent_report 1 1 0 0.7%float
  /\ run.1.2 = Examples.unplugged_manager
  /\ run.2 = Examples.quiet_world.
Proof.
  cbv zeta.
  destruct (process_connections_without_channels (R := Samples.toy_runtime)
              Examples.fixed_format Examples.noon Examples.unplugged_manager
              [Examples.strong_connection] Examples.quiet_world eq_refl)
    as (Hself & Hworld & Hreport).
  split; [reflexivity|]. split; [|split; assumption].
  rewrite Hreport; [reflexivity|]. vm_compute. discriminate.
Defined.

(** X11. What [process_connections] leaves in the history: one entry per
    notification sent, of type [high_relevance_connection] and counting
    between one and all of the channels, after the entries that were
    there; entries are only dropped from the old end, never more than
    were added, and a history within 100 entries stays within 100. *)
Theorem process_connections_history {W : Type} `{R : PyRuntime}
    (format_2f : float -> string) (clock : nat -> datetime * string)
    (self : Manager.NotificationManager W)
    (connections : list DetectedConnection) (w : W) :
  let run :=
    ManagerOps.process_connections format_2f clock self connections w in
  exists added dropped,
    dropped ++ Manager.notification_history run.1.2
    = Manager.notification_history self ++ added
    /\ length added = ManagerOps.report_sent run.1.1
    /\ length dropped <= length added
    /\ Forall (fun e =>
                Manager.h_event_type e = "high_relevance_connection"
                /\ 1 <= Manager.channels_sent e <= Manager.total_channels e
                /\ Manager.total_channels e
                   = length (Manager.channels self)) added
    /\ (length (Manager.notification_history self) <= 100 ->
        length (Manager.notification_history run.1.2) <= 100).
Proof.
  intros run. subst run. unfold ManagerOps.process_connections.
  destruct (List.filter _ connections) as [|c later].
  - exists [], []. cbn. rewrite app_nil_r. repeat split; auto.
  - pose proof (notify_each_history format_2f clock self (c :: later) 0 0 w)
      as H. cbv zeta in H.
    destruct (ManagerOps.notify_each format_2f clock self (c :: later) 0 0 w)
      as [[sent self'] w'].
    cbn [fst snd ManagerOps.report_sent] in *.
    rewrite Nat.sub_0_r in H. exact H.
Qed.

Section Slices.
Context {A : Type}.

Lemma slice_from_last (k : Z) (xs : list A) :
  (0 < k)%Z ->
  ManagerOps.slice_from (- k) xs = drop (length xs - Z.to_nat k) xs.
Proof.
  intros Hk. unfold ManagerOps.slice_from.
  destruct (Z.ltb_spec (- k) 0); [|lia]. f_equal. lia.
Qed.

Lemma drop_is_suffix (n : nat) (xs : list A) :
  exists older, xs = older ++ drop n xs
                /\ length (drop n xs) = length xs - n.
Proof.
  exists (take n xs). split; [now rewrite take_drop|apply length_drop].
Qed.

End Slices.

(** X12. [get_notification_history(limit)] slices with [-limit]: a
    positive limit gives the newest [min(limit, len)] entries, in order;
    limit [0] gives the whole history, not an empty list; a negative limit
    [-k] drops the [k] oldest entries.  [get_statistics] reports the
    newest ten. *)
Theorem notification_history_limits {W : Type} `{R : PyRuntime}
    (self : Manager.NotificationManager W) (limit : Z) :
  let history := Manager.notification_history self in
  let got := ManagerOps.get_notification_history self limit in
  (0 < limit ->
   exists older, history = older ++ got
                 /\ length got = Nat.min (Z.to_nat limit) (length history))%Z
  /\ (limit = 0%Z -> got = history)
  /\ (limit < 0 -> got = drop (Z.to_nat (- limit)) history)%Z
  /\ exists older,
       history
       = older ++ ManagerOps.recent_notifications (ManagerOps.get_statistics self)
       /\ length (ManagerOps.recent_notifications
                    (ManagerOps.get_statistics self))
          = Nat.min 10 (length history).
Proof.
  intros history got. subst got. unfold ManagerOps.get_notification_history.
  fold history. split; [|split; [|split]].
  - intros Hpos. rewrite slice_from_last by exact Hpos.
    destruct (drop_is_suffix (length history - Z.to_nat limit) history)
      as (older & Heq & Hlen).
    exists older. split; [exact Heq|]. rewrite Hlen. lia.
  - intros ->. unfold ManagerOps.slice_from.
    destruct (Z.ltb_spec (- 0) 0); [lia|]. rewrite Z.min_l by lia.
    reflexivity.
  - intros Hneg. unfold ManagerOps.slice_from.
    destruct (Z.ltb_spec (- limit) 0); [lia|].
    destruct (Z.min_spec (- limit) (Z.of_nat (length history)))
      as [[Hlt ->]|[Hge ->]]; [reflexivity|].
    rewrite Nat2Z.id, !drop_ge by lia. reflexivity.
  - cbn [ManagerOps.get_statistics ManagerOps.recent_notifications].
    fold history. rewrite (slice_from_last 10) by lia.
    destruct (drop_is_suffix (length history - Z.to_nat 10) history)
      as (older & Heq & Hlen).
    exists older. split; [exact Heq|]. rewrite Hlen. lia.
Qed.

Section Registry.
Import Manager.
Context {W : Type}.
Implicit Types (chs : list (string * NotificationChannel W)).

Lemma dict_get_set_eq name channel chs :
  dict_get name (dict_set name channel chs) = Some channel.
Proof.
  induction chs as [|[k c] later IH]; cbn.
  - now rewrite String.eqb_refl.
  - destruct (String.eqb_spec k name) as [->|Hne]; cbn.
    + now rewrite String.eqb_refl.
    + destruct (String.eqb_spec k name); [contradiction|exact IH].
Qed.

Lemma dict_get_set_ne name other channel chs :
  other <> name ->
  dict_get other (dict_set name channel chs) = dict_get other chs.
Proof.
  intros Hne. induction chs as [|[k c] later IH]; cbn.
  - destruct (String.eqb_spec name other); [congruence|reflexivity].
  - destruct (String.eqb_spec k name) as [->|Hk]; cbn.
    + destruct (String.eqb_spec name other); [congruence|reflexivity].
    + destruct (String.eqb_spec k other); [reflexivity|exact IH].
Qed.

Lemma dict_keys_set name channel chs :
  dict_keys (dict_set name channel chs)
  = if bool_decide (name ∈ dict_keys chs) then dict_keys chs
    else dict_keys chs ++ [name].
Proof.
  unfold dict_keys. induction chs as [|[k c] later IH]; cbn.
  - reflexivity.
  - destruct (String.eqb_spec k name) as [->|Hk]; cbn.
    + rewrite bool_decide_eq_true_2 by constructor. reflexivity.
    + rewrite IH. destruct (bool_decide_reflect (name ∈ map fst later)).
      * rewrite bool_decide_eq_true_2 by now constructor. reflexivity.
      * rewrite bool_decide_eq_false_2; [reflexivity|].
        intros Hin. apply elem_of_cons in Hin as [?|?]; congruence.
Qed.

Lemma dict_get_drop_eq name chs : dict_get name (drop_key name chs) = None.
Proof.
  induction chs as [|[k c] later IH]; cbn; [reflexivity|].
  destruct (String.eqb_spec k name) as [->|Hk]; cbn; [exact IH|].
  destruct (String.eqb_spec k name); [contradiction|exact IH].
Qed.

Lemma dict_get_drop_ne name other chs :
  other <> name -> dict_get other (drop_key name chs) = dict_get other chs.
Proof.
  intros Hne. induction chs as [|[k c] later IH]; cbn; [reflexivity|].
  destruct (String.eqb_spec k name) as [->|Hk]; cbn.
  - destruct (String.eqb_spec name other); [congruence|exact IH].
  - destruct (String.eqb_spec k other); [reflexivity|exact IH].
Qed.

Lemma drop_key_absent name chs :
  name ∉ dict_keys chs -> drop_key name chs = chs.
Proof.
  unfold dict_keys. induction chs as [|[k c] later IH]; cbn;
    [reflexivity|]. intros Hnot.
  apply not_elem_of_cons in Hnot as [Hne Hnot].
  destruct (String.eqb_spec k name); [congruence|]. cbn.
  f_equal. exact (IH Hnot).
Qed.

Lemma drop_key_set name channel chs :
  name ∉ dict_keys chs -> drop_key name (dict_set name channel chs) = chs.
Proof.
  unfold dict_keys. induction chs as [|[k c] later IH]; cbn.
  - now rewrite String.eqb_refl.
  - intros Hnot. apply not_elem_of_cons in Hnot as [Hne Hnot].
    destruct (String.eqb_spec k name); [congruence|]. cbn.
    destruct (String.eqb_spec k name); [congruence|]. cbn.
    f_equal. exact (IH Hnot).
Qed.

Lemma dict_keys_drop name chs :
  dict_keys (drop_key name chs)
  = List.filter (fun k => negb (String.eqb k name)) (dict_keys chs).
Proof.
  unfold dict_keys. induction chs as [|[k c] later IH]; cbn; [reflexivity|].
  destruct (String.eqb k name); cbn; [exact IH|f_equal; exact IH].
Qed.

Lemma with_channels_same (self : NotificationManager W) :
  with_channels self (channels self) = self.
Proof. now destruct self. Qed.

End Registry.

(** X13. [add_channel] registers the channel under its name: looking the
    name up gives the new channel, every other name keeps its channel, a
    name already registered keeps its place in the iteration order and a
    new one goes last, and names stay unique. *)
Theorem add_channel_registers {W : Type}
    (self : Manager.NotificationManager W) (name : string)
    (channel : Manager.NotificationChannel W) :
  let before := dict_keys (Manager.channels self) in
  let after := Manager.add_channel self name channel in
  dict_get name (Manager.channels after) = Some channel
  /\ (forall other, other <> name ->
        dict_get other (Manager.channels after)
        = dict_get other (Manager.channels self))
  /\ dict_keys (Manager.channels after)
     = (if bool_decide (name ∈ before) then before else before ++ [name])
  /\ (NoDup before -> NoDup (dict_keys (Manager.channels after))).
Proof.
  intros before after. subst after.
  unfold Manager.add_channel, Manager.with_channels. cbn [Manager.channels].
  split; [apply dict_get_set_eq|].
  split; [intros other Hne; now apply dict_get_set_ne|].
  rewrite dict_keys_set. fold before. split; [reflexivity|].
  intros Hnd. destruct (bool_decide_reflect (name ∈ before)) as [Hin|Hnot];
    [exact Hnd|].
  apply NoDup_app. split; [exact Hnd|]. split; [|apply NoDup_singleton].
  intros x Hx Hx'. apply list_elem_of_singleton in Hx'. congruence.
Qed.

(** X14. [remove_channel] unregisters the name and nothing else: the
    other names keep their channels and their order, removing a name that
    is not registered leaves the manager as it is (no [KeyError]), and
    removing a channel just added under a fresh name restores the
    manager. *)
Theorem remove_channel_unregisters {W : Type}
    (self : Manager.NotificationManager W) (name : string) :
  let after := Manager.remove_channel self name in
  dict_get name (Manager.channels after) = None
  /\ (forall other, other <> name ->
        dict_get other (Manager.channels after)
        = dict_get other (Manager.channels self))
  /\ dict_keys (Manager.channels after)
     = List.filter (fun k => negb (String.eqb k name))
         (dict_keys (Manager.channels self))
  /\ (name ∉ dict_keys (Manager.channels self) -> after = self)
  /\ (forall channel,
        name ∉ dict_keys (Manager.channels self) ->
        Manager.remove_channel (Manager.add_channel self name channel) name
        = self).
Proof.
  intros after. subst after.
  unfold Manager.remove_channel, Manager.add_channel, Manager.with_channels.
  cbn [Manager.channels Manager.threshold Manager.enabled_channels
       Manager.notification_history Manager.stats].
  split; [apply dict_get_drop_eq|].
  split; [intros other Hne; now apply dict_get_drop_ne|].
  split; [apply dict_keys_drop|].
  split.
  - intros Hnot. fold (drop_key name (Manager.channels self)).
    rewrite drop_key_absent by exact Hnot. now destruct self.
  - intros channel Hnot.
    fold (drop_key name (Manager.dict_set name channel (Manager.channels self))).
    rewrite drop_key_set by exact Hnot. now destruct self.
Qed.

Section DetectionCalls.
Context `{R : PyRuntime}.
Variable scorer : Scorer.


End DetectionCalls.


(** X16. [clear_cache] empties the cache and keeps the statistics and the
    threshold.  The next call is not served from the cache, whatever was
    cached before: the scorer's connections are returned and become the
    only cache entry, and a failing scorer leaves the cache empty. *)
Theorem clear_cache_forces_recomputation `{R : PyRuntime} (scorer : Scorer)
    (self : ConnectionDetectionSystem) (facts : list ExtractedFact)
    (kb : string) (options : option Options) (env : CallEnv) :
  let cleared := clear_cache self in
  let run := detect_connections_with scorer cleared facts kb options env in
  let key := _generate_cache_key facts kb (default empty_options options) in
  Detector.threshold cleared = Detector.threshold self
  /\ Detector.stats cleared = Detector.stats self
  /\ connection_cache cleared = ∅
  /\ cached_results (Detector.stats run.2)
     = cached_results (Detector.stats self)
  /\ total_detections (Detector.stats run.2)
     = total_detections (Detector.stats self) + 1
  /\ (forall conns,
        scorer facts kb (resolved_threshold self options) = Ok conns ->
        exists out,
          run.1 = Ok out /\ connections out = conns
          /\ status out = COMPLETED
          /\ connection_cache run.2 = {[ key := out ]})
  /\ (forall e,
        scorer facts kb (resolved_threshold self options) = Raise e ->
        connection_cache run.2 = ∅).
Proof.
  intros cleared run key. subst run.
  assert (Hmiss : connection_cache cleared !! key = None)
    by apply lookup_empty.
  assert (Hth : resolved_threshold cleared options
                = resolved_threshold self options) by reflexivity.
  split; [reflexivity|]. split; [reflexivity|]. split; [reflexivity|].
  destruct (scorer facts kb (resolved_threshold self options))
    as [conns|e] eqn:Hs.
  - rewrite <- Hth in Hs.
    pose proof (detect_on_miss scorer cleared facts kb options env _ Hmiss Hs)
      as H. cbv zeta in H. rewrite H. cbn.
    split; [reflexivity|]. split; [reflexivity|]. split; [|intros e [=]].
    intros conns' [= <-]. eexists. split; [reflexivity|].
    split; [reflexivity|]. split; [reflexivity|].
    fold key. rewrite insert_empty. reflexivity.
  - rewrite <- Hth in Hs.
    rewrite (detect_on_raise scorer cleared facts kb options env _ Hmiss Hs).
    cbn. split; [reflexivity|]. split; [reflexivity|].
    split; [intros conns [=]|]. intros _ _. reflexivity.
Qed.

Section Substrings.
Import Analysis.

Lemma append_nil (t : string) : ("" ++ t)%string = t.
Proof. reflexivity. Qed.

Lemma append_cons c (s t : string) :
  (String c s ++ t)%string = String c (s ++ t)%string.
Proof. reflexivity. Qed.

Lemma prefix_app (n h : string) :
  String.prefix n h = true <-> exists after, h = (n ++ after)%string.
Proof.
  revert h. induction n as [|a n IH]; intros h.
  - split; [intros _; now exists h|]. intros _. now destruct h.
  - destruct h as [|b h]; cbn [String.prefix].
    + split; [discriminate|]. intros [after [=]].
    + destruct (Ascii.ascii_dec a b) as [->|Hne].
      * rewrite IH. split; intros [after H]; exists after.
        -- rewrite append_cons. now rewrite H.
        -- rewrite append_cons in H. congruence.
      * split; [discriminate|]. intros [after H].
        rewrite append_cons in H. congruence.
Qed.

Lemma str_in_occurs (needle hay : string) :
  str_in needle hay = true <-> occurs needle hay.
Proof.
  unfold occurs. induction hay as [|c rest IH].
  - cbn [str_in]. rewrite orb_false_r, prefix_app. split.
    + intros [after H]. now exists EmptyString, after.
    + intros (before & after & H). destruct before; [|discriminate].
      now exists after.
  - cbn [str_in]. rewrite orb_true_iff, prefix_app, IH. split.
    + intros [[after H]|(before & after & H)].
      * now exists EmptyString, after.
      * exists (String c before), after. rewrite append_cons. now rewrite H.
    + intros (before & after & H). destruct before as [|b before].
      * left. now exists after.
      * right. rewrite append_cons in H. injection H as -> H.
        now exists before, after.
Qed.

Lemma occurs_refl s : occurs s s.
Proof.
  exists EmptyString, EmptyString. rewrite append_nil.
  induction s as [|c s IH]; [reflexivity|].
  rewrite append_cons. now rewrite <- IH.
Qed.

Lemma occurs_empty s : occurs EmptyString s.
Proof. now exists EmptyString, s. Qed.

Lemma in_find_graph_paths (sources targets : list string) (depth : Z)
    (p : GraphPath) :
  In p (find_graph_paths sources targets depth)
  <-> exists s t,
        In s sources /\ In t targets
        /\ (occurs (lower s) (lower t) \/ occurs (lower t) (lower s))
        /\ p = direct_mention s t.
Proof.
  unfold find_graph_paths. rewrite in_flat_map. split.
  - intros (s & Hs & Hp). apply in_flat_map in Hp as (t & Ht & Hp).
    destruct (str_in (lower s) (lower t) || str_in (lower t) (lower s))
      eqn:Hm; [|destruct Hp].
    destruct Hp as [<-|[]]. exists s, t.
    apply orb_true_iff in Hm. rewrite !str_in_occurs in Hm.
    repeat split; assumption.
  - intros (s & t & Hs & Ht & Hm & ->). exists s. split; [exact Hs|].
    apply in_flat_map. exists t. split; [exact Ht|].
    rewrite <- !str_in_occurs, <- orb_true_iff in Hm. rewrite Hm.
    now left.
Qed.

Lemma length_find_graph_paths (sources targets : list string) (depth : Z) :
  length (find_graph_paths sources targets depth)
  <= length sources * length targets.
Proof.
  unfold find_graph_paths.
  induction sources as [|s later IH]; cbn [flat_map length]; [lia|].
  rewrite length_app.
  assert (H : forall ts,
             length (flat_map
                       (fun target =>
                          if str_in (lower s) (lower target)
                             || str_in (lower target) (lower s)
                          then [ {| path_source := s; path_target := target;
                                    path_length := 1;
                                    path_relationship := "direct_mention";
                                    path_confidence := 0.9%float |} ]
                          else []) ts) <= length ts).
  { induction ts as [|t ts IHt]; cbn [flat_map length]; [lia|].
    rewrite length_app.
    destruct (str_in (lower s) (lower t) || str_in (lower t) (lower s));
      cbn [length]; lia. }
  specialize (H targets). lia.
Qed.

End Substrings.

(** X17. [find_graph_paths] reports exactly the pairs of a source and a
    target entity one of which, in lower case, occurs inside the other,
    each as a path of length 1 with relationship [direct_mention];
    [max_depth] has no effect. *)
Theorem graph_paths_are_direct_mentions (sources targets : list string)
    (max_depth : Z) (p : Analysis.GraphPath) :
  (In p (Analysis.find_graph_paths sources targets max_depth)
   <-> exists s t,
         In s sources /\ In t targets
         /\ (occurs (lower s) (lower t) \/ occurs (lower t) (lower s))
         /\ p = direct_mention s t)
  /\ forall depth,
       Analysis.find_graph_paths sources targets depth
       = Analysis.find_graph_paths sources targets max_depth.
Proof. split; [apply in_find_graph_paths|reflexivity]. Qed.

(** X18. Bounds and edge cases of [find_graph_paths]: at most one path
    per pair, none when either list is empty; two entities equal up to
    case are always linked; an empty-string entity is linked to every
    entity of the other list. *)
Theorem graph_paths_edge_cases (sources targets : list string)
    (max_depth : Z) :
  let paths := Analysis.find_graph_paths sources targets max_depth in
  length paths <= length sources * length targets
  /\ (sources = [] \/ targets = [] -> paths = [])
  /\ (forall s t, In s sources -> In t targets -> lower s = lower t ->
        In (direct_mention s t) paths)
  /\ (In "" sources -> forall t, In t targets ->
        In (direct_mention "" t) paths)
  /\ (In "" targets -> forall s, In s sources ->
        In (direct_mention s "") paths).
Proof.
  intros paths. subst paths.
  pose proof (length_find_graph_paths sources targets max_depth) as Hlen.
  split; [exact Hlen|]. split.
  - intros [->| ->]; [reflexivity|].
    rewrite Nat.mul_0_r in Hlen.
    destruct (Analysis.find_graph_paths sources [] max_depth);
      [reflexivity|cbn in Hlen; lia].
  - split; [|split].
    + intros s t Hs Ht Heq. apply in_find_graph_paths.
      exists s, t. rewrite Heq. repeat split; auto.
      left. apply occurs_refl.
    + intros Hs t Ht. apply in_find_graph_paths.
      exists "", t. repeat split; auto. left. apply occurs_empty.
    + intros Ht s Hs. apply in_find_graph_paths.
      exists s, "". repeat split; auto. right. apply occurs_empty.
Qed.

Section Jaccard.
Import Analysis.

Lemma lower_char_idem c : lower_char (lower_char c) = lower_char c.
Proof.
  unfold lower_char.
  destruct ((65 <=? nat_of_ascii c)%nat && (nat_of_ascii c <=? 90)%nat)
    eqn:Hup.
  - apply andb_true_iff in Hup as [H1 H2].
    apply Nat.leb_le in H1, H2.
    rewrite nat_ascii_embedding by lia.
    destruct (Nat.leb_spec (nat_of_ascii c + 32) 90); [lia|].
    now rewrite andb_false_r.
  - now rewrite Hup.
Qed.

Lemma lower_idem s : lower (lower s) = lower s.
Proof.
  induction s as [|c s IH]; cbn; [reflexivity|].
  now rewrite lower_char_idem, IH.
Qed.

Lemma set_of_empty (xs : list string) : set_of xs = ∅ <-> xs = [].
Proof.
  unfold set_of. split; [|now intros ->].
  destruct xs as [|x xs]; [reflexivity|]. cbn. intros H.
  assert (x ∈ (∅ : gset string)) by (rewrite <- H; set_solver).
  set_solver.
Qed.

Lemma size_union_0 (a b : gset string) :
  size (a ∪ b) = 0 <-> a = ∅ /\ b = ∅.
Proof.
  rewrite size_empty_iff. split.
  - intros H. split; apply leibniz_equiv; set_solver.
  - intros [-> ->]. set_solver.
Qed.

Lemma sets_comm (a b : gset string) : a ∩ b = b ∩ a /\ a ∪ b = b ∪ a.
Proof. split; apply leibniz_equiv; apply (comm _). Qed.

End Jaccard.

(** X19. [analyze_semantic_similarity] does not depend on the order of
    the two texts nor on their case, and answers
    [(0.0, "No common vocabulary")] exactly when neither text has a
    word. *)
Theorem semantic_similarity_is_symmetric (format_3f : float -> string)
    (text1 text2 : string) :
  let result := Analysis.analyze_semantic_similarity format_3f text1 text2 in
  Analysis.analyze_semantic_similarity format_3f text2 text1 = result
  /\ Analysis.analyze_semantic_similarity format_3f (lower text1) (lower text2)
     = result
  /\ (split (lower text1) = [] /\ split (lower text2) = []
      <-> result = (0.0%float, "No common vocabulary")).
Proof.
  intros result. subst result. unfold Analysis.analyze_semantic_similarity.
  rewrite !lower_idem.
  destruct (sets_comm (set_of (split (lower text2)))
              (set_of (split (lower text1)))) as [-> ->].
  split; [reflexivity|]. split; [reflexivity|].
  destruct (Nat.eqb_spec
              (size (set_of (split (lower text1))
                     ∪ set_of (split (lower text2)))) 0) as [H0|Hne].
  - apply size_union_0 in H0. rewrite !set_of_empty in H0.
    split; [reflexivity|]. intros _. exact H0.
  - split.
    + intros [H1 H2]. exfalso. apply Hne. apply size_union_0.
      rewrite !set_of_empty. split; assumption.
    + intros [= _ Habs].
Qed.

Section ConsoleFrame.
Context `{R : PyRuntime}.

Lemma print_cases line w :
  (stdout_closed w = true /\ exists e, print line w = (Raise e, w))
  \/ (stdout_closed w = false
      /\ print line w = (Ok tt, with_stdout w (stdout w ++ [line]))).
Proof.
  unfold print. destruct (stdout_closed w); [left|right]; eauto.
Qed.

End ConsoleFrame.

(** X20. The console channel only prints: files, network and faults are
    untouched, at most two lines are added to the output (one for the
    event, one for its data when it has some) and a success means all of
    them were printed; a closed output gives [False] and no change; the
    result does not depend on the [colored] setting. *)
Theorem console_send_only_prints `{R : PyRuntime}
    (self : ConsoleNotificationChannel) (event : NotificationEvent)
    (w : World) :
  let run := console_send_notification self event w in
  files run.2 = files w /\ network run.2 = network w
  /\ faults run.2 = faults w
  /\ (exists printed,
        stdout run.2 = stdout w ++ printed
        /\ length printed <= 2
        /\ (run.1 = true ->
            length printed = match data event with Some _ => 2 | None => 1 end))
  /\ (stdout_closed w = true -> run = (false, w))
  /\ (forall other : ConsoleNotificationChannel,
        (console_send_notification other event w).1 = run.1).
Proof.
  cbv zeta. unfold console_send_notification.
  set (head := ("[" ++ strftime_ymd_hms (timestamp event) ++ "] "
                ++ upper (severity event) ++ ": " ++ message event)%string).
  assert (Hany : forall line,
    let run :=
      match print line w with
      | (Raise _, w1) => (false, w1)
      | (Ok _, w1) =>
          match data event with
          | None => (true, w1)
          | Some _ =>
              match json_dumps_data event with
              | Raise _ => (false, w1)
              | Ok formatted_data =>
                  match print ("  Data: " ++ formatted_data)%string w1 with
                  | (Raise _, w2) => (false, w2)
                  | (Ok _, w2) => (true, w2)
                  end
              end
          end
      end in
    files run.2 = files w /\ network run.2 = network w
    /\ faults run.2 = faults w
    /\ (exists printed,
          stdout run.2 = stdout w ++ printed
          /\ length printed <= 2
          /\ (run.1 = true -> length printed = match data event with Some _ => 2 | None => 1 end))
    /\ (stdout_closed w = true -> run = (false, w))
    /\ run.1 = negb (stdout_closed w)
               && match data event with
                  | None => true
                  | Some _ => match json_dumps_data event with
                              | Ok _ => true
                              | Raise _ => false
                              end
                  end).
  { intros line. cbv zeta. unfold print.
    destruct (stdout_closed w) eqn:Hclosed.
    - cbn. repeat split; auto. exists []. rewrite app_nil_r.
      cbn. repeat split; auto. discriminate.
    - cbn [with_stdout stdout_closed]. rewrite Hclosed.
      destruct (data event) as [d|].
      + destruct (json_dumps_data event) as [txt|e]; cbn.
        * repeat split; auto; try discriminate.
          eexists [_; _]. rewrite <- app_assoc. cbn. repeat split; auto.
        * repeat split; auto; try discriminate.
          eexists [_]. cbn. repeat split; auto. discriminate.
      + cbn. repeat split; auto; try discriminate.
        eexists [_]. cbn. repeat split; auto. }
  match goal with
  | |- context [print ?line w] =>
      destruct (Hany line) as (Hf & Hn & Hfa & Hp & Hc & Hres)
  end.
  split; [exact Hf|]. split; [exact Hn|]. split; [exact Hfa|].
  split; [exact Hp|]. split; [exact Hc|].
  intros other.
  match goal with
  | |- context [print ?line w] =>
      destruct (Hany line) as (_ & _ & _ & _ & _ & Hres')
  end.
  rewrite Hres. exact Hres'.
Qed.

Section FileFrame.
Context `{R : PyRuntime}.
Variable self : FileNotificationChannel.

Lemma rotate_cases w :
  _rotate_if_needed self w = w
  \/ exists content,
       files w !! file_path self = Some content
       /\ _rotate_if_needed self w
          = with_files w
              (<[with_suffix self ("." ++ backup_stamp w ++ ".log")%string
                 := content]> (delete (file_path self) (files w))).
Proof.
  unfold _rotate_if_needed, rename.
  destruct (stat_fails (faults w)); [now left|].
  destruct (files w !! file_path self) as [content|] eqn:Hf; [|now left].
  destruct (st_size content >? max_size_bytes self)%Z; [|now left].
  destruct (rename_fails (faults w)); [now left|].
  right. exists content. split; reflexivity.
Qed.

Lemma send_cases event w :
  let w1 := _rotate_if_needed self w in
  let old := default "" (files w1 !! file_path self) in
  let run := file_send_notification self event w in
  (run = (false, w1))
  \/ (run = (false, with_files w1 (<[file_path self := old]> (files w1))))
  \/ (exists record,
        json_dumps_record event = Ok record
        /\ run = (true,
                  with_files w1
                    (<[file_path self := (old ++ record ++ LF)%string]>
                       (files w1)))).
Proof.
  cbv zeta. unfold file_send_notification.
  destruct (open_fails (faults (_rotate_if_needed self w))); [now left|].
  destruct (json_dumps_record event) as [record|e]; [|now right; left].
  destruct (write_fails (faults (_rotate_if_needed self w)));
    [now right; left|].
  right. right. now exists record.
Qed.

Lemma rotate_frame w :
  stdout (_rotate_if_needed self w) = stdout w
  /\ network (_rotate_if_needed self w) = network w
  /\ stdout_closed (_rotate_if_needed self w) = stdout_closed w.
Proof.
  destruct (rotate_cases w) as [->|(content & _ & ->)]; repeat split.
Qed.

End FileFrame.

(** X21. The file channel never loses what was logged.  After a send,
    whatever fails, the previous content of the log is still the
    beginning of the log or has moved, whole, to the backup; no other
    file, the console and the network are untouched; and a send that
    returns [True] has put the record and a line feed at the end of the
    log. *)
Theorem file_send_keeps_what_was_logged `{R : PyRuntime}
    (self : FileNotificationChannel) (event : NotificationEvent) (w : World) :
  let run := file_send_notification self event w in
  let path := file_path self in
  let backup := with_suffix self ("." ++ backup_stamp w ++ ".log")%string in
  stdout run.2 = stdout w /\ network run.2 = network w
  /\ (forall other, other <> path -> other <> backup ->
        files run.2 !! other = files w !! other)
  /\ (forall old, files w !! path = Some old ->
        (exists more, files run.2 !! path = Some (old ++ more)%string)
        \/ files run.2 !! backup = Some old)
  /\ (run.1 = true ->
      exists before record,
        json_dumps_record event = Ok record
        /\ files run.2 !! path = Some (before ++ record ++ LF)%string).
Proof.
  intros run path backup. subst run.
  destruct (rotate_frame self w) as (Hout & Hnet & _).
  assert (Hrot :
    (forall other, other <> path -> other <> backup ->
       files (_rotate_if_needed self w) !! other = files w !! other)
    /\ (forall old, files w !! path = Some old ->
          files (_rotate_if_needed self w) !! path = Some old
          \/ (backup <> path
              /\ files (_rotate_if_needed self w) !! path = None
              /\ files (_rotate_if_needed self w) !! backup = Some old))).
  { destruct (rotate_cases self w) as [->|(content & Hc & ->)].
    - split; [reflexivity|]. intros old Hold. now left.
    - fold path in Hc. fold backup path. cbn [files with_files]. split.
      + intros other Hp Hb.
        rewrite lookup_insert_ne, lookup_delete_ne by congruence.
        reflexivity.
      + intros old Hold. rewrite Hc in Hold. injection Hold as ->.
        destruct (decide (backup = path)) as [Heq|Hne].
        * left. rewrite Heq. apply lookup_insert_eq.
        * right. split; [exact Hne|].
          rewrite lookup_insert_ne, lookup_delete_eq by exact Hne.
          split; [reflexivity|apply lookup_insert_eq]. }
  destruct Hrot as [Hother Hpath].
  set (w1 := _rotate_if_needed self w) in *.
  assert (Hnil : forall s : string, ("" ++ s)%string = s) by reflexivity.
  assert (Hr : forall s : string, (s ++ "")%string = s).
  { induction s as [|c s IH]; [reflexivity|].
    change (String c s ++ "")%string with (String c (s ++ "")%string).
    now rewrite IH. }
  destruct (send_cases self event w) as [H|[H|(record & Hrec & H)]];
    cbv zeta in H; fold w1 path in H; rewrite H; clear H;
    cbn [fst snd files with_files stdout network].
  - split; [exact Hout|]. split; [exact Hnet|]. split; [exact Hother|].
    split; [|discriminate].
    intros old Hold. destruct (Hpath old Hold) as [Hp|(_ & _ & Hb)].
    + left. exists "". now rewrite Hr.
    + now right.
  - split; [exact Hout|]. split; [exact Hnet|]. split.
    { intros other Hp Hb. rewrite lookup_insert_ne by congruence.
      now apply Hother. }
    split; [|discriminate].
    intros old Hold. destruct (Hpath old Hold) as [Hp|(Hne & _ & Hb)].
    + left. exists "". rewrite lookup_insert_eq, Hp, Hr. reflexivity.
    + right. rewrite lookup_insert_ne by congruence. exact Hb.
  - split; [exact Hout|]. split; [exact Hnet|]. split.
    { intros other Hp Hb. rewrite lookup_insert_ne by congruence.
      now apply Hother. }
    split.
    + intros old Hold. destruct (Hpath old Hold) as [Hp|(Hne & _ & Hb)].
      * left. exists (record ++ LF)%string.
        rewrite lookup_insert_eq, Hp. reflexivity.
      * right. rewrite lookup_insert_ne by congruence. exact Hb.
    + intros _. exists (default "" (files w1 !! path)), record.
      split; [exact Hrec|apply lookup_insert_eq].
Qed.

Section HealthChecks.
Import ManagerOps.
Context {W : Type}.
Implicit Types (ps : list (string * (W -> Result bool * W))) (w : W).

Lemma test_all_channels_cons name p ps w :
  test_all_channels ((name, p) :: ps) w
  = ((name, match (p w).1 with Ok b => b | Raise _ => false end)
       :: (test_all_channels ps (p w).2).1,
     (test_all_channels ps (p w).2).2).
Proof.
  cbn [test_all_channels]. destruct (p w) as [outcome w1]. cbn [fst snd].
  destruct (test_all_channels ps w1). reflexivity.
Qed.

Lemma test_all_channels_names ps w :
  map fst (test_all_channels ps w).1 = map fst ps.
Proof.
  revert w. induction ps as [|[name p] ps IH]; intros w; [reflexivity|].
  rewrite test_all_channels_cons. cbn. now rewrite IH.
Qed.

Lemma test_all_channels_take ps w i name p :
  ps !! i = Some (name, p) ->
  let before := (test_all_channels (take i ps) w).2 in
  (test_all_channels ps w).1 !! i
  = Some (name, match (p before).1 with Ok b => b | Raise _ => false end).
Proof.
  revert w i. induction ps as [|[n q] ps IH]; intros w i Hi; [discriminate|].
  rewrite test_all_channels_cons. destruct i as [|i].
  - injection Hi as -> ->. reflexivity.
  - cbn [take]. rewrite test_all_channels_cons. cbn [fst snd].
    exact (IH (q w).2 i Hi).
Qed.

End HealthChecks.

(** X22. [test_all_channels] reports every registered channel, in
    registry order: each [test_connection] runs in the world its
    predecessors left, and one that raises is reported [False] without
    stopping the later ones. *)
Theorem health_check_covers_every_channel {W : Type}
    (ps : list (string * (W -> Result bool * W))) (w : W) :
  let report := (ManagerOps.test_all_channels ps w).1 in
  map fst report = map fst ps
  /\ forall i name test_connection,
       ps !! i = Some (name, test_connection) ->
       let before := (ManagerOps.test_all_channels (take i ps) w).2 in
       report !! i
       = Some (name,
               match (test_connection before).1 with
               | Ok passed => passed
               | Raise _ => false
               end).
Proof.
  cbv zeta. split; [apply test_all_channels_names|].
  intros i name p Hi. exact (test_all_channels_take ps w i name p Hi).
Qed.

Section ShippedProbes.
Import ManagerOps.
Context `{R : PyRuntime}.

Lemma file_send_network self event w :
  network (file_send_notification self event w).2 = network w.
Proof.
  assert (Hrot : network (_rotate_if_needed self w) = network w).
  { unfold _rotate_if_needed. destruct (stat_fails (faults w)); [easy|].
    destruct (files w !! file_path self) as [c|]; [|easy].
    destruct (st_size c >? max_size_bytes self)%Z; [|easy].
    destruct (rename_fails (faults w)); easy. }
  unfold file_send_notification.
  destruct (open_fails _); [exact Hrot|].
  destruct (json_dumps_record event); [|exact Hrot].
  destruct (write_fails _); exact Hrot.
Qed.

Lemma console_send_network self event w :
  network (console_send_notification self event w).2 = network w.
Proof.
  unfold console_send_notification, print.
  destruct (stdout_closed w) eqn:Hc; [reflexivity|].
  cbn [with_stdout stdout_closed]. rewrite Hc.
  destruct (data event); [|reflexivity].
  destruct (json_dumps_data event); reflexivity.
Qed.

(** The POSTs the health checks of a list of channels make. *)
Lemma probes_network now (chs : list (string * ShippedChannel)) w :
  let run := test_all_channels (probes now chs) w in
  let posts :=
    omap (fun nc => match nc.2 with
                    | Webhook c => Some (POST (webhook_url c))
                    | _ => None
                    end) chs in
  trace (network run.2) = trace (network w) ++ posts
  /\ requests (network run.2) = requests (network w) + length posts
  /\ server (network run.2) = server (network w).
Proof.
  revert w. induction chs as [|[name c] chs IH]; intros w; cbv zeta.
  - cbn. rewrite app_nil_r. repeat split; lia.
  - unfold probes. cbn [map]. rewrite test_all_channels_cons.
    fold (probes now chs). cbn [fst snd].
    specialize (IH (test_connection now c w).2). cbv zeta in IH.
    destruct IH as (Ht & Hr & Hs). rewrite Ht, Hr, Hs. clear Ht Hr Hs.
    destruct c as [c|c|c]; cbn [omap list_omap test_connection].
    + assert (H : network (console_test_connection w).2 = network w).
      { unfold console_test_connection, print.
        destruct (stdout_closed w); reflexivity. }
      cbn. rewrite H. repeat split.
    + assert (H : network (file_test_connection c now w).2 = network w).
      { unfold file_test_connection.
        match goal with
        | |- context [file_send_notification c ?e w] =>
            pose proof (file_send_network c e w) as Hn;
            destruct (file_send_notification c e w)
        end. exact Hn. }
      cbn. rewrite H. repeat split.
    + unfold webhook_test_connection, client_post. cbn.
      rewrite <- app_assoc. cbn. repeat split. lia.
Qed.

End ShippedProbes.

(** X23. Health checks of the shipped channels: each webhook channel
    gets exactly one POST, in registry order, never retried and never
    followed by a sleep, whatever its [retries]; the console and the file
    checks make no request.  A webhook check passes exactly on a 200, 201
    or 202 and never raises. *)
Theorem webhook_health_check_posts_once `{R : PyRuntime} (now : datetime)
    (chs : list (string * ManagerOps.ShippedChannel)) (w : World) :
  let run := ManagerOps.test_all_channels (probes now chs) w in
  let posts :=
    omap (fun nc => match nc.2 with
                    | ManagerOps.Webhook c => Some (POST (webhook_url c))
                    | _ => None
                    end) chs in
  trace (network run.2) = trace (network w) ++ posts
  /\ requests (network run.2) = requests (network w) + length posts
  /\ (forall c : WebhookNotificationChannel,
        (ManagerOps.webhook_test_connection c w).1
        = Ok match server (network w) (requests (network w)) with
             | Response status_code _ => status_accepted status_code
             | PostRaises _ => false
             end).
Proof.
  intros run posts. subst run posts.
  destruct (probes_network now chs w) as (Ht & Hr & _).
  split; [exact Ht|]. split; [exact Hr|].
  intros c. reflexivity.
Qed.

Section Defaults.
Import Manager ManagerOps.
Context `{R : PyRuntime}.

(** A registry none of whose channels touches the network. *)
Lemma dispatch_network (chs : list (string * NotificationChannel World))
    event k w :
  Forall (fun nc => forall e v,
            network (send_notification nc.2 e v).2 = network v) chs ->
  network (dispatch chs event k w).2 = network w.
Proof.
  intros Hall. revert k w.
  induction Hall as [|[name c] later Hc _ IH]; intros k w; [reflexivity|].
  cbn [dispatch]. specialize (Hc event w). cbn [snd] in Hc.
  destruct (send_notification c event w) as [[[|]|e] w1]; cbn [snd] in Hc;
    rewrite IH; exact Hc.
Qed.

Lemma send_network (self : NotificationManager World) event now_iso w :
  Forall (fun nc => forall e v,
            network (send_notification nc.2 e v).2 = network v)
    (channels self) ->
  network (manager_send_notification self event now_iso w).2 = network w.
Proof.
  intros Hall. unfold manager_send_notification.
  destruct (channels self) as [|c later] eqn:Hchs; [reflexivity|].
  pose proof (dispatch_network (c :: later) event 0 w Hall) as H.
  destruct (dispatch (c :: later) event 0 w) as [count w1].
  destruct (0 <? count)%nat; exact H.
Qed.

(** Only a webhook channel touches the network. *)
Lemma as_channel_network (c : ShippedChannel) e v :
  (forall hook, c <> Webhook hook) ->
  network (send_notification (as_channel c) e v).2 = network v.
Proof.
  intros Hc. destruct c as [c|c|c]; cbn; unfold never_raises.
  - pose proof (console_send_network c e v) as H.
    destruct (console_send_notification c e v). exact H.
  - pose proof (file_send_network c e v) as H.
    destruct (file_send_notification c e v). exact H.
  - now destruct (Hc c).
Qed.

(** What [_initialize_default_channels] registers, and under which
    names. *)
Lemma default_channels_keys enabled webhook_url mkdir chs :
  _initialize_default_channels enabled webhook_url mkdir = Ok chs ->
  map fst chs
  = List.filter
      (fun name =>
         bool_decide (name ∈ enabled)
         && (negb (String.eqb name "webhook")
             || match webhook_url with
                | Some (String _ _) => true
                | _ => false
                end))
      ["console"; "file"; "webhook"]
  /\ Forall (fun nc => nc.1 = "webhook" \/ forall hook, nc.2 <> Webhook hook)
       chs.
Proof.
  unfold _initialize_default_channels.
  cbn [List.filter String.eqb Ascii.eqb Bool.eqb negb orb].
  rewrite !andb_true_r.
  destruct (bool_decide ("file" ∈ enabled)).
  - destruct mkdir as [[]|e]; cbn [bind]; [|discriminate].
    intros [= <-].
    destruct (bool_decide ("console" ∈ enabled));
      destruct webhook_url as [[|c url]|];
      destruct (bool_decide ("webhook" ∈ enabled));
      (split; [reflexivity|]); cbn [app];
      repeat (apply List.Forall_cons;
              [first [now left|right; cbn; discriminate]|]);
      apply List.Forall_nil.
  - cbn [bind]. intros [= <-].
    destruct (bool_decide ("console" ∈ enabled));
      destruct webhook_url as [[|c url]|];
      destruct (bool_decide ("webhook" ∈ enabled));
      (split; [reflexivity|]); cbn [app];
      repeat (apply List.Forall_cons;
              [first [now left|right; cbn; discriminate]|]);
      apply List.Forall_nil.
Qed.

End Defaults.

(** X24. [NotificationManager.__init__] registers the default channels
    the configuration enables, in the order console, file, webhook; other
    names are ignored and the webhook needs a non-empty URL as well.  It
    raises exactly what the [mkdir] of an enabled file channel raises.
    The history starts empty, and a manager without a webhook channel
    never touches the network when it sends. *)
Theorem default_channels_follow_the_configuration `{R : PyRuntime}
    (threshold : option float) (config_threshold : float)
    (config_channels : list string) (webhook_url : option string)
    (mkdir : Result unit) :
  let enabled : gset string := list_to_set config_channels in
  let wanted name :=
    bool_decide (name ∈ config_channels)
    && (negb (String.eqb name "webhook")
        || match webhook_url with
           | Some (String _ _) => true
           | _ => false
           end) in
  match ManagerOps.new_manager threshold config_threshold config_channels
          webhook_url mkdir with
  | Ok self =>
      dict_keys (Manager.channels self)
      = List.filter wanted ["console"; "file"; "webhook"]
      /\ ("file" ∈ config_channels -> mkdir = Ok tt)
      /\ Manager.notification_history self = []
      /\ ("webhook" ∉ dict_keys (Manager.channels self) ->
          forall event now_iso w,
            network (Manager.manager_send_notification self event now_iso w).2
            = network w)
  | Raise e => "file" ∈ config_channels /\ mkdir = Raise e
  end.
Proof.
  intros enabled wanted. unfold ManagerOps.new_manager. fold enabled.
  assert (Hwanted : forall name,
            wanted name
            = bool_decide (name ∈ enabled)
              && (negb (String.eqb name "webhook")
                  || match webhook_url with
                     | Some (String _ _) => true
                     | _ => false
                     end)).
  { intros name. subst wanted. cbv beta. f_equal.
    apply bool_decide_ext. subst enabled. symmetry.
    apply elem_of_list_to_set. }
  destruct (ManagerOps._initialize_default_channels enabled webhook_url mkdir)
    as [chs|e] eqn:Hinit; cbn [bind].
  - destruct (default_channels_keys _ _ _ _ Hinit) as [Hkeys Hhooks].
    cbn [Manager.channels Manager.notification_history].
    assert (Hmap : dict_keys (map (fun nc => (nc.1, ManagerOps.as_channel nc.2))
                                chs) = map fst chs).
    { unfold dict_keys. rewrite List.map_map. now apply List.map_ext. }
    rewrite Hmap. split.
    { rewrite Hkeys. apply List.filter_ext. intros name.
      now rewrite Hwanted. }
    split.
    { intros Hfile. unfold ManagerOps._initialize_default_channels in Hinit.
      rewrite bool_decide_eq_true_2 in Hinit
        by (subst enabled; now apply elem_of_list_to_set).
      destruct mkdir as [[]|e]; [reflexivity|discriminate]. }
    split; [reflexivity|].
    intros Hno event now_iso w. apply send_network.
    cbn [Manager.channels]. apply List.Forall_map, List.Forall_forall.
    intros nc Hin e v. cbn [snd].
    rewrite List.Forall_forall in Hhooks.
    destruct (Hhooks nc Hin) as [Hname|Hnot].
    + exfalso. apply Hno. rewrite <- Hname.
      apply list_elem_of_In, List.in_map, Hin.
    + now apply as_channel_network.
  - unfold ManagerOps._initialize_default_channels in Hinit.
    destruct (bool_decide_reflect ("file" ∈ enabled)) as [Hfile|Hfile];
      [|discriminate].
    destruct mkdir as [[]|e']; [discriminate|]. injection Hinit as ->.
    split; [|reflexivity]. subst enabled.
    now apply elem_of_list_to_set in Hfile.
Qed.

Section Reliable.
Import Manager ManagerOps.
Context {W : Type} `{R : PyRuntime}.
Variable format_2f : float -> string.
Variable clock : nat -> datetime * string.
Variable healthy : W -> Prop.
Variable chs : list (string * NotificationChannel W).
Hypothesis keeps :
  forall nc e v, In nc chs -> healthy v ->
    healthy (send_notification nc.2 e v).2.
Hypothesis reliable :
  exists nc, In nc chs
             /\ forall e v, healthy v -> (send_notification nc.2 e v).1 = Ok true.

Lemma dispatch_healthy (sub : list (string * NotificationChannel W))
    event k w :
  (forall nc, In nc sub -> In nc chs) -> healthy w ->
  let run := dispatch sub event k w in
  healthy run.2 /\ k <= run.1
  /\ ((exists nc, In nc sub
                  /\ forall e v, healthy v ->
                       (send_notification nc.2 e v).1 = Ok true) ->
      k < run.1).
Proof.
  revert k w. induction sub as [|[name c] later IH]; intros k w Hsub Hw;
    cbv zeta.
  - cbn. split; [exact Hw|]. split; [lia|]. intros (nc & [] & _).
  - cbn [dispatch].
    pose proof (keeps (name, c) event w (Hsub _ (or_introl eq_refl)) Hw)
      as Hw1. cbn [snd] in Hw1.
    assert (Hsub' : forall nc, In nc later -> In nc chs)
      by (intros nc Hin; apply Hsub; now right).
    destruct (send_notification c event w) as [outcome w1] eqn:Hsend.
    cbn [snd] in Hw1.
    assert (Hcases :
      forall k', k <= k' ->
        (outcome = Ok true -> k < k') ->
        let run := dispatch later event k' w1 in
        healthy run.2 /\ k <= run.1
        /\ ((exists nc, In nc ((name, c) :: later)
                        /\ forall e v, healthy v ->
                             (send_notification nc.2 e v).1 = Ok true) ->
            k < run.1)).
    { intros k' Hk Hstrict. cbv zeta.
      destruct (IH k' w1 Hsub' Hw1) as (Hh & Hle & Hlt).
      split; [exact Hh|]. split; [lia|].
      intros (nc & [<-|Hin] & Hrel).
      - specialize (Hrel event w Hw). cbn [snd] in Hrel.
        rewrite Hsend in Hrel. cbn [fst] in Hrel.
        specialize (Hstrict Hrel). lia.
      - assert (k' < (dispatch later event k' w1).1) by (apply Hlt; eauto).
        lia. }
    destruct outcome as [[|]|e].
    + apply Hcases; [lia|intros _; lia].
    + apply Hcases; [lia|discriminate].
    + apply Hcases; [lia|discriminate].
Qed.

Lemma send_healthy self event now_iso w :
  channels self = chs -> healthy w ->
  let run := manager_send_notification self event now_iso w in
  run.1.1 = true /\ healthy run.2.
Proof.
  intros Hchs Hw. cbv zeta. unfold manager_send_notification.
  rewrite Hchs.
  destruct (dispatch_healthy chs event 0 w (fun _ H => H) Hw)
    as (Hh & _ & Hlt).
  specialize (Hlt reliable).
  destruct chs as [|c later] eqn:Hlist.
  - destruct reliable as (nc & [] & _).
  - destruct (dispatch (c :: later) event 0 w) as [count w1].
    cbn [fst snd] in *.
    destruct (Nat.ltb_spec 0 count); [|lia]. split; [reflexivity|exact Hh].
Qed.

Lemma notify_each_healthy self high i k w :
  channels self = chs -> healthy w ->
  let run := notify_each format_2f clock self high i k w in
  run.1.1 = k + length high /\ healthy run.2.
Proof.
  revert self i k w. induction high as [|c later IH];
    intros self i k w Hchs Hw; cbv zeta; cbn [notify_each length].
  - cbn. split; [lia|exact Hw].
  - destruct (send_healthy self
                (_create_connection_event format_2f c (clock i).1)
                (clock i).2 w Hchs Hw) as [Hok Hw1].
    destruct (send_step self
                (_create_connection_event format_2f c (clock i).1)
                (clock i).2 w) as (Hc & _).
    destruct (manager_send_notification self _ (clock i).2 w)
      as [[ok self1] w1].
    cbn [fst snd] in Hok, Hw1, Hc. subst ok.
    destruct (IH self1 (S i) (k + 1) w1) as [Hn Hh];
      [congruence|exact Hw1|].
    split; [lia|exact Hh].
Qed.

End Reliable.

(** X25. While one registered channel keeps working, nothing is lost:
    if the channels preserve a condition on the world under which one of
    them always returns [True], then from a world in that condition
    [process_connections] sends a notification for every connection that
    reaches the threshold, counts none as failed and leaves the world in
    that condition. *)
Theorem every_high_relevance_connection_is_notified {W : Type}
    `{R : PyRuntime} (format_2f : float -> string)
    (clock : nat -> datetime * string) (healthy : W -> Prop)
    (self : Manager.NotificationManager W)
    (connections : list DetectedConnection) (w : W) :
  healthy w ->
  (forall nc e v, In nc (Manager.channels self) -> healthy v ->
     healthy (Manager.send_notification nc.2 e v).2) ->
  (exists nc, In nc (Manager.channels self)
              /\ forall e v, healthy v ->
                   (Manager.send_notification nc.2 e v).1 = Ok true) ->
  let run :=
    ManagerOps.process_connections format_2f clock self connections w in
  let high :=
    List.filter
      (fun c => float_ge (score (conn_score c)) (Manager.threshold self))
      connections in
  ManagerOps.report_sent run.1.1 = length high
  /\ Manager.notifications_sent (Manager.stats run.1.2)
     = Manager.notifications_sent (Manager.stats self) + length high
  /\ Manager.notifications_failed (Manager.stats run.1.2)
     = Manager.notifications_failed (Manager.stats self)
  /\ healthy run.2.
Proof.
  intros Hw Hkeeps Hrel run high. subst run.
  unfold ManagerOps.process_connections. fold high.
  destruct high as [|c later] eqn:Hhigh.
  - cbn. repeat split; try lia. exact Hw.
  - clear Hhigh.
    destruct (notify_each_healthy format_2f clock healthy
                (Manager.channels self) Hkeeps Hrel self (c :: later) 0 0 w
                eq_refl Hw) as [Hn Hh].
    pose proof (notify_each_counts format_2f clock self (c :: later) 0 0 w)
      as Hc. cbv zeta in Hc. destruct Hc as (_ & Hst & _).
    assert (Hne : Manager.channels self <> []).
    { destruct Hrel as (nc & Hin & _). intros Hnil. rewrite Hnil in Hin.
      destruct Hin. }
    destruct (Hst Hne) as [Hs Hf]. clear Hst.
    destruct (ManagerOps.notify_each format_2f clock self (c :: later) 0 0 w)
      as [[sent self'] w'].
    cbn [fst snd ManagerOps.report_sent] in *.
    split; [lia|]. split; [lia|]. split; [lia|exact Hh].
Qed.

Section Pipeline.
Context `{R : PyRuntime}.



End Pipeline.


Section ShippedKeepStdout.
Import Manager ManagerOps.
Context `{R : PyRuntime}.

(** No shipped channel closes or reopens the standard output. *)
Lemma shipped_send_stdout_closed (c : ShippedChannel) e v :
  stdout_closed (send_notification (as_channel c) e v).2 = stdout_closed v.
Proof.
  destruct c as [c|c|c]; cbn; unfold never_raises.
  - unfold console_send_notification, print.
    destruct (stdout_closed v) eqn:Hc; [exact Hc|].
    cbn [with_stdout stdout_closed]. rewrite Hc.
    destruct (data e); [|exact Hc].
    destruct (json_dumps_data e); exact Hc.
  - assert (Hrot : stdout_closed (_rotate_if_needed c v) = stdout_closed v).
    { unfold _rotate_if_needed. destruct (stat_fails (faults v)); [easy|].
      destruct (files v !! file_path c) as [s|]; [|easy].
      destruct (st_size s >? max_size_bytes c)%Z; [|easy].
      destruct (rename_fails (faults v)); easy. }
    unfold file_send_notification.
    destruct (open_fails _); [exact Hrot|].
    destruct (json_dumps_record e); [|exact Hrot].
    destruct (write_fails _); exact Hrot.
  - unfold webhook_send_notification.
    destruct (webhook_send c (network v)). reflexivity.
Qed.

End ShippedKeepStdout.

(** The webhook of the sample manager never gets through and the
    console does, as long as the standard output is open. *)
Lemma every_high_relevance_connection_is_notified_witness :
  let run :=
    ManagerOps.process_connections (R := Samples.toy_runtime)
      Examples.fixed_format Examples.noon Samples.three_channel_manager
      [Examples.strong_connection] Examples.quiet_world in
  stdout_closed Examples.quiet_world = false
  /\ ManagerOps.report_sent run.1.1 = 1
  /\ Manager.notifications_sent (Manager.stats run.1.2) = 1
  /\ Manager.notifications_failed (Manager.stats run.1.2) = 0.
Proof.
  cbv zeta.
  destruct (every_high_relevance_connection_is_notified
              (R := Samples.toy_runtime) Examples.fixed_format Examples.noon
              (fun w => stdout_closed w = false)
              Samples.three_channel_manager [Examples.strong_connection]
              Examples.quiet_world) as (Hsent & Hstat & Hfail & _).
  - reflexivity.
  - intros nc e v Hin Hv. rewrite <- Hv.
    destruct Hin as [<-|[<-|[<-|[]]]].
    + exact (shipped_send_stdout_closed (R := Samples.toy_runtime)
               (ManagerOps.Webhook (Samples.hook 3)) e v).
    + exact (shipped_send_stdout_closed (R := Samples.toy_runtime)
               (ManagerOps.Console {| colored := false |}) e v).
    + exact (shipped_send_stdout_closed (R := Samples.toy_runtime)
               (ManagerOps.File Samples.tiny_channel) e v).
  - eexists. split; [right; left; reflexivity|].
    intros e v Hv. cbn. unfold Manager.never_raises,
      console_send_notification, print. rewrite Hv.
    cbn [with_stdout stdout_closed colored]. rewrite Hv.
    destruct (data e); reflexivity.
  - split; [reflexivity|]. split; [exact Hsent|].
    split; [exact Hstat|exact Hfail].
Defined.


(* --------------------------------------------------------------------- *)
(** *** Options as the dict they are                                       *)
(* --------------------------------------------------------------------- *)

Section DictOptions.
Context `{R : PyRuntime}.
Variable json_dumps : Dyn.Options -> Result string.

Lemma keep_high_float t conns :
  Dyn.keep_high (Dyn.a_float t) conns
  = Ok (List.filter (fun c => float_ge (score (conn_score c)) t) conns).
Proof.
  induction conns as [|c later IH]; [reflexivity|].
  cbn [Dyn.keep_high Dyn.score_ge bind List.filter]. rewrite IH.
  reflexivity.
Qed.

(** The shipped scorer does not read its threshold. *)
Lemma shipped_ignores_threshold facts kb (t : float) v :
  Dyn.shipped facts kb v = _simulate_connection_detection facts kb t.
Proof. reflexivity. Qed.

(** A threshold no float compares with: the comprehension gets through
    an empty list only. *)
Lemma keep_high_no_float v conns :
  (forall t, v <> Dyn.a_float t) ->
  match conns with
  | [] => Dyn.keep_high v conns = Ok []
  | _ :: _ => exists msg, Dyn.keep_high v conns = Raise (TypeError msg)
  end.
Proof.
  intros Hv. destruct conns as [|c later]; [reflexivity|].
  destruct v as [t|text t|repr]; [now destruct (Hv t)|..]; cbn; eauto.
Qed.

Lemma new_output_accepted conns high v t time st :
  Dyn.as_threshold_used v = Ok t ->
  Dyn.new_output conns (length conns) high v time st
  = Ok {| connections := conns; total_connections := length conns;
          high_relevance_connections := high; threshold_used := t;
          processing_time := time; status := st |}.
Proof.
  intros Hv. unfold Dyn.new_output. rewrite Hv. cbn [bind].
  apply new_output_valid.
Qed.

Lemma new_output_rejected conns total high v e time st :
  Dyn.as_threshold_used v = Raise e ->
  Dyn.new_output conns total high v time st = Raise e.
Proof. intros Hv. unfold Dyn.new_output. now rewrite Hv. Qed.

(** The value is accepted or rejected, and only as one exception. *)
Lemma as_threshold_used_cases v :
  (exists t, Dyn.as_threshold_used v = Ok t)
  \/ Dyn.as_threshold_used v = Raise (ValidationError "threshold_used").
Proof. destruct v; cbn; eauto. Qed.

(** The three ways out of a call whose threshold the schema accepts, and
    the one way out of a call whose threshold it rejects and that the
    cache does not answer. *)
Lemma detect_cases (scorer : Dyn.Scorer) self facts kb options env :
  let run :=
    Dyn.detect_connections json_dumps scorer self facts kb options env in
  let v := threshold_in_effect self options in
  let counted_only := with_stats self (counted (Detector.stats self)) in
  (exists cached key,
     Dyn._generate_cache_key json_dumps facts kb (default Dyn.empty options)
     = Ok key
     /\ connection_cache self !! key = Some cached
     /\ run.1 = Ok cached)
  \/ (exists t out,
        Dyn.as_threshold_used v = Ok t
        /\ run.1 = Ok out /\ threshold_used out = t
        /\ (status out = COMPLETED
            \/ status out = FAILED /\ connections out = []
               /\ high_relevance_connections out = []
               /\ total_connections out = 0 /\ run.2 = counted_only))
  \/ (Dyn.as_threshold_used v = Raise (ValidationError "threshold_used")
      /\ run = (Raise (ValidationError "threshold_used"), counted_only)).
Proof.
  cbv zeta. unfold Dyn.detect_connections, threshold_in_effect.
  cbn [Detector.threshold with_stats].
  set (v := default (Dyn.a_float (Detector.threshold self))
              (Dyn.get_threshold (default Dyn.empty options))).
  set (self1 := with_stats self (counted (Detector.stats self))).
  assert (Hhandler :
    (exists t out,
       Dyn.as_threshold_used v = Ok t
       /\ Dyn.new_output [] 0 [] v (elapsed env) FAILED = Ok out
       /\ threshold_used out = t /\ status out = FAILED
       /\ connections out = [] /\ high_relevance_connections out = []
       /\ total_connections out = 0)
    \/ (Dyn.as_threshold_used v = Raise (ValidationError "threshold_used")
        /\ Dyn.new_output [] 0 [] v (elapsed env) FAILED
           = Raise (ValidationError "threshold_used"))).
  { destruct (as_threshold_used_cases v) as [[t Ht]|Hr].
    - left. exists t. eexists. split; [exact Ht|].
      split; [exact (new_output_accepted [] [] v t _ _ Ht)|].
      repeat split.
    - right. split; [exact Hr|]. now apply new_output_rejected. }
  assert (Hfail :
    let run := (Dyn.new_output [] 0 [] v (elapsed env) FAILED, self1) in
    (exists t out,
       Dyn.as_threshold_used v = Ok t
       /\ run.1 = Ok out /\ threshold_used out = t
       /\ (status out = COMPLETED
           \/ status out = FAILED /\ connections out = []
              /\ high_relevance_connections out = []
              /\ total_connections out = 0 /\ run.2 = self1))
    \/ (Dyn.as_threshold_used v = Raise (ValidationError "threshold_used")
        /\ run = (Raise (ValidationError "threshold_used"), self1))).
  { cbv zeta.
    destruct Hhandler as [(t & out & Ht & -> & Hu & Hs & Hc & Hh & Hn)
                         |(Hr & ->)].
    - left. exists t, out. split; [exact Ht|]. split; [reflexivity|].
      split; [exact Hu|]. right. repeat split; assumption.
    - right. split; [exact Hr|reflexivity]. }
  cbv zeta in Hfail.
  destruct (Dyn._generate_cache_key json_dumps facts kb
              (default Dyn.empty options)) as [key|e]; [|right; exact Hfail].
  change (connection_cache self1) with (connection_cache self).
  destruct (connection_cache self !! key) as [cached|] eqn:Hc.
  { left. exists cached, key. split; [reflexivity|].
    split; [exact Hc|reflexivity]. }
  right.
  destruct (scorer facts kb v) as [conns|e]; [|exact Hfail].
  unfold Dyn.finish_detection.
  destruct (Dyn.keep_high v conns) as [high|e]; [|exact Hfail].
  destruct (as_threshold_used_cases v) as [[t Ht]|Hr].
  - rewrite (new_output_accepted conns high v t _ _ Ht).
    left. exists t. eexists. split; [exact Ht|]. split; [reflexivity|].
    split; [reflexivity|]. now left.
  - rewrite (new_output_rejected conns _ high v _ _ _ Hr). exact Hfail.
Qed.

(** On options whose threshold is absent or a float the call on the dict
    is the call on the typed options. *)
Lemma typed_options_agree (scorer : Detector.Scorer) (any : Dyn.Scorer)
    self facts kb (options : option Schemas.Options) env :
  (forall o, json_dumps (Dyn.of_typed o) = Ok (json_dumps_sorted o)) ->
  (forall t, any facts kb (Dyn.a_float t) = scorer facts kb t) ->
  Dyn.detect_connections json_dumps any self facts kb
    (option_map Dyn.of_typed options) env
  = detect_connections_with scorer self facts kb options env.
Proof.
  intros Hdumps Hscorer.
  unfold Dyn.detect_connections, detect_connections_with.
  assert (Hopt : default Dyn.empty (option_map Dyn.of_typed options)
                 = Dyn.of_typed (default empty_options options))
    by now destruct options.
  rewrite Hopt. unfold Dyn._generate_cache_key. rewrite Hdumps. cbn [bind].
  fold (Detector._generate_cache_key facts kb
          (default empty_options options)).
  assert (Hth : default (Dyn.a_float
                           (Detector.threshold
                              (with_stats self (counted (Detector.stats self)))))
                  (Dyn.get_threshold
                     (Dyn.of_typed (default empty_options options)))
                = Dyn.a_float
                    (default (Detector.threshold self)
                       (opt_threshold (default empty_options options)))).
  { cbn. now destruct (opt_threshold (default empty_options options)). }
  rewrite Hth. cbn [with_stats connection_cache Detector.threshold].
  unfold counted.
  destruct (connection_cache self
              !! Detector._generate_cache_key facts kb
                   (default empty_options options)); [reflexivity|].
  rewrite Hscorer.
  destruct (scorer facts kb _) as [conns|e]; [|reflexivity].
  unfold Dyn.finish_detection, Detector.finish_detection.
  rewrite keep_high_float.
  rewrite (new_output_accepted conns _ (Dyn.a_float _) _ _ _ eq_refl).
  rewrite new_output_valid. reflexivity.
Qed.

End DictOptions.

(** C5. The handler of lines 220-230 builds the failed result with the
    threshold the caller gave, and the schema rejects [None] for it.  On a
    fresh system with [{"threshold": None}], whatever is raised in the
    [try] block ends in a [ValidationError] that leaves the call: with the
    shipped scorer, whose one connection between the two facts about
    Alice cannot be compared with [None], and with any scorer that
    raises.  The same failing scorer called without options is answered
    with the failed result. *)
Theorem unusable_threshold_escapes_the_handler `{R : PyRuntime}
    (json_dumps : Dyn.Options -> Result string) (env : CallEnv) :
  let none := Dyn.no_number "None" in
  let call scorer options :=
    Dyn.detect_connections json_dumps scorer Samples.fresh_system
      Samples.related_facts "" options env in
  (exists conns msg,
     Dyn.shipped Samples.related_facts "" none = Ok conns
     /\ Dyn.keep_high none conns = Raise (TypeError msg))
  /\ (call Dyn.shipped (Some Examples.threshold_none)).1
     = Raise (ValidationError "threshold_used")
  /\ (forall scorer e,
        scorer Samples.related_facts "" none = Raise e ->
        (call scorer (Some Examples.threshold_none)).1
        = Raise (ValidationError "threshold_used"))
  /\ (forall scorer e,
        scorer Samples.related_facts "" (Dyn.a_float 0.7) = Raise e ->
        exists out,
          (call scorer None).1 = Ok out /\ status out = FAILED
          /\ connections out = [] /\ high_relevance_connections out = []).
Proof.
  intros none call.
  assert (Hraises : forall scorer,
            (call scorer (Some Examples.threshold_none)).1
            = Raise (ValidationError "threshold_used")).
  { intros scorer. subst call. cbv beta.
    destruct (detect_cases json_dumps scorer Samples.fresh_system
                Samples.related_facts "" (Some Examples.threshold_none) env)
      as [(cached & key & _ & Hhit & _)|[(t & out & Ht & _)|(_ & ->)]].
    - rewrite fresh_cache_misses in Hhit. discriminate.
    - discriminate.
    - reflexivity. }
  split.
  { destruct (related_facts_connections 0%float) as (conns & Hs & Hlen).
    unfold Dyn.shipped. rewrite Hs.
    pose proof (keep_high_no_float none conns) as Hk.
    destruct conns as [|c later]; [discriminate|].
    destruct Hk as [msg Hk]; [discriminate|]. eauto. }
  split; [apply Hraises|]. split; [intros scorer e _; apply Hraises|].
  intros scorer e Hs. subst call. cbv beta.
  unfold Dyn.detect_connections. cbn [default].
  destruct (Dyn._generate_cache_key json_dumps Samples.related_facts ""
              Dyn.empty) as [key|e'].
  - cbn [with_stats connection_cache Samples.fresh_system new_system].
    rewrite lookup_empty.
    change (default _ (Dyn.get_threshold Dyn.empty))
      with (Dyn.a_float 0.7). rewrite Hs.
    eexists. split; [reflexivity|]. repeat split.
  - eexists. split; [reflexivity|]. repeat split.
Qed.


